(** * Agrichatbot: the query routing and context pipeline, embedded in Rocq

    The development follows the Python modules of the chatbot:
    - [Py]: the pieces of the Python runtime the code relies on (str
      methods, JSON values, exceptions, a small monad for network effects);
    - [Utils]: [chatbot/utils.py] ([clean_text]);
    - [KnowledgeBase]: [chatbot/knowledge_base.py];
    - [ResponseGenerator]: [chatbot/response_generator.py];
    - [TextTools]: the other helpers of [chatbot/utils.py];
    - [App]: the handlers of [app.py].

    A Python [str] is a sequence of Unicode code points, and so is a
    [string] here: a list of numbers, written as a literal between double
    quotes. Whitespace and lowercasing are those of the interpreter, on all
    of Unicode. *)

From Stdlib Require Import Bool List Arith Lia NArith ZArith.
From Stdlib Require Strings.Byte.
Import ListNotations.

(* ================================================================= *)
(** ** The Python runtime *)

Module Py.

(** *** Characters and strings *)

Definition char : Type := N.

Inductive string : Type :=
| EmptyString
| String (c : char) (s : string).

(** A literal is read as the code points of its UTF-8 text. *)
Fixpoint of_utf8_from (fuel : nat) (bytes : list Byte.byte) : string :=
  match fuel with
  | O => EmptyString
  | S fuel' =>
      match bytes with
      | [] => EmptyString
      | b :: rest =>
          let n := Byte.to_N b in
          let cont (x : Byte.byte) := (Byte.to_N x - 128)%N in
          if (n <? 128)%N then String n (of_utf8_from fuel' rest)
          else if (n <? 224)%N then
            match rest with
            | b1 :: rest' =>
                String ((n - 192) * 64 + cont b1)%N (of_utf8_from fuel' rest')
            | _ => EmptyString
            end
          else if (n <? 240)%N then
            match rest with
            | b1 :: b2 :: rest' =>
                String (((n - 224) * 64 + cont b1) * 64 + cont b2)%N
                       (of_utf8_from fuel' rest')
            | _ => EmptyString
            end
          else
            match rest with
            | b1 :: b2 :: b3 :: rest' =>
                String ((((n - 240) * 64 + cont b1) * 64 + cont b2) * 64
                        + cont b3)%N
                       (of_utf8_from fuel' rest')
            | _ => EmptyString
            end
      end
  end.

Definition of_utf8 (bytes : list Byte.byte) : string :=
  of_utf8_from (List.length bytes) bytes.

Definition byte_of (n : N) : Byte.byte :=
  match Byte.of_N n with
  | Some b => b
  | None => Byte.x00
  end.

Fixpoint to_utf8 (s : string) : list Byte.byte :=
  match s with
  | EmptyString => []
  | String n s' =>
      ((if n <? 128 then [byte_of n]
        else if n <? 2048 then [byte_of (192 + n / 64); byte_of (128 + n mod 64)]
        else if n <? 65536 then
          [byte_of (224 + n / 4096); byte_of (128 + (n / 64) mod 64);
           byte_of (128 + n mod 64)]
        else
          [byte_of (240 + n / 262144); byte_of (128 + (n / 4096) mod 64);
           byte_of (128 + (n / 64) mod 64); byte_of (128 + n mod 64)])%N
       ++ to_utf8 s')%list
  end.

Declare Scope str_scope.
Delimit Scope str_scope with str.
Bind Scope str_scope with string.
String Notation string of_utf8 to_utf8 : str_scope.
Open Scope str_scope.

Fixpoint append (a b : string) : string :=
  match a with
  | "" => b
  | String c a' => String c (append a' b)
  end.

Notation "a ++ b" := (append a b) : str_scope.

(** [len(s)] *)
Fixpoint len (s : string) : nat :=
  match s with
  | "" => 0
  | String _ s' => S (len s')
  end.

(** [a == b] *)
Fixpoint eqb (a b : string) : bool :=
  match a, b with
  | "", "" => true
  | String x a', String y b' => (x =? y)%N && eqb a' b'
  | _, _ => false
  end.

Notation "a =? b" := (eqb a b) : str_scope.

Definition string_dec (a b : string) : {a = b} + {a <> b}.
Proof. decide equality. apply N.eq_dec. Defined.

(** [sep.join(items)] *)
Fixpoint join (sep : string) (items : list string) : string :=
  match items with
  | [] => ""
  | [x] => x
  | x :: rest => x ++ sep ++ join sep rest
  end.

Fixpoint chars (l : list char) : string :=
  match l with
  | [] => ""
  | c :: l' => String c (chars l')
  end.

Definition space : char := 32%N.
Definition backquote : char := 96%N.
Definition nl : string := String 10%N "".

(** *** The Unicode data of the interpreter (CPython 3.11, Unicode 14.0)

    The characters [str.isspace] holds of (the regular expression class
    [\s], [str.strip] and [str.split] use the same set), the characters
    [str.lower] changes with what they become, and the two character
    classes the lowering of a capital sigma looks at. *)

Definition whitespace_chars : list char :=
  [
   9; 10; 11; 12; 13; 28; 29; 30; 31; 32; 133; 160; 5760; 8192; 8193; 8194;
   8195; 8196; 8197; 8198; 8199; 8200; 8201; 8202; 8232; 8233; 8239; 8287;
   12288
  ]%N.

Definition lower_table : list (char * list char) :=
  [
   (65, [97]); (66, [98]); (67, [99]); (68, [100]); (69, [101]); (70, [102]);
   (71, [103]); (72, [104]); (73, [105]); (74, [106]); (75, [107]);
   (76, [108]); (77, [109]); (78, [110]); (79, [111]); (80, [112]);
   (81, [113]); (82, [114]); (83, [115]); (84, [116]); (85, [117]);
   (86, [118]); (87, [119]); (88, [120]); (89, [121]); (90, [122]);
   (192, [224]); (193, [225]); (194, [226]); (195, [227]); (196, [228]);
   (197, [229]); (198, [230]); (199, [231]); (200, [232]); (201, [233]);
   (202, [234]); (203, [235]); (204, [236]); (205, [237]); (206, [238]);
   (207, [239]); (208, [240]); (209, [241]); (210, [242]); (211, [243]);
   (212, [244]); (213, [245]); (214, [246]); (216, [248]); (217, [249]);
   (218, [250]); (219, [251]); (220, [252]); (221, [253]); (222, [254]);
   (256, [257]); (258, [259]); (260, [261]); (262, [263]); (264, [265]);
   (266, [267]); (268, [269]); (270, [271]); (272, [273]); (274, [275]);
   (276, [277]); (278, [279]); (280, [281]); (282, [283]); (284, [285]);
   (286, [287]); (288, [289]); (290, [291]); (292, [293]); (294, [295]);
   (296, [297]); (298, [299]); (300, [301]); (302, [303]); (304, [105; 775]);
   (306, [307]); (308, [309]); (310, [311]); (313, [314]); (315, [316]);
   (317, [318]); (319, [320]); (321, [322]); (323, [324]); (325, [326]);
   (327, [328]); (330, [331]); (332, [333]); (334, [335]); (336, [337]);
   (338, [339]); (340, [341]); (342, [343]); (344, [345]); (346, [347]);
   (348, [349]); (350, [351]); (352, [353]); (354, [355]); (356, [357]);
   (358, [359]); (360, [361]); (362, [363]); (364, [365]); (366, [367]);
   (368, [369]); (370, [371]); (372, [373]); (374, [375]); (376, [255]);
   (377, [378]); (379, [380]); (381, [382]); (385, [595]); (386, [387]);
   (388, [389]); (390, [596]); (391, [392]); (393, [598]); (394, [599]);
   (395, [396]); (398, [477]); (399, [601]); (400, [603]); (401, [402]);
   (403, [608]); (404, [611]); (406, [617]); (407, [616]); (408, [409]);
   (412, [623]); (413, [626]); (415, [629]); (416, [417]); (418, [419]);
   (420, [421]); (422, [640]); (423, [424]); (425, [643]); (428, [429]);
   (430, [648]); (431, [432]); (433, [650]); (434, [651]); (435, [436]);
   (437, [438]); (439, [658]); (440, [441]); (444, [445]); (452, [454]);
   (453, [454]); (455, [457]); (456, [457]); (458, [460]); (459, [460]);
   (461, [462]); (463, [464]); (465, [466]); (467, [468]); (469, [470]);
   (471, [472]); (473, [474]); (475, [476]); (478, [479]); (480, [481]);
   (482, [483]); (484, [485]); (486, [487]); (488, [489]); (490, [491]);
   (492, [493]); (494, [495]); (497, [499]); (498, [499]); (500, [501]);
   (502, [405]); (503, [447]); (504, [505]); (506, [507]); (508, [509]);
   (510, [511]); (512, [513]); (514, [515]); (516, [517]); (518, [519]);
   (520, [521]); (522, [523]); (524, [525]); (526, [527]); (528, [529]);
   (530, [531]); (532, [533]); (534, [535]); (536, [537]); (538, [539]);
   (540, [541]); (542, [543]); (544, [414]); (546, [547]); (548, [549]);
   (550, [551]); (552, [553]); (554, [555]); (556, [557]); (558, [559]);
   (560, [561]); (562, [563]); (570, [11365]); (571, [572]); (573, [410]);
   (574, [11366]); (577, [578]); (579, [384]); (580, [649]); (581, [652]);
   (582, [583]); (584, [585]); (586, [587]); (588, [589]); (590, [591]);
   (880, [881]); (882, [883]); (886, [887]); (895, [1011]); (902, [940]);
   (904, [941]); (905, [942]); (906, [943]); (908, [972]); (910, [973]);
   (911, [974]); (913, [945]); (914, [946]); (915, [947]); (916, [948]);
   (917, [949]); (918, [950]); (919, [951]); (920, [952]); (921, [953]);
   (922, [954]); (923, [955]); (924, [956]); (925, [957]); (926, [958]);
   (927, [959]); (928, [960]); (929, [961]); (931, [963]); (932, [964]);
   (933, [965]); (934, [966]); (935, [967]); (936, [968]); (937, [969]);
   (938, [970]); (939, [971]); (975, [983]); (984, [985]); (986, [987]);
   (988, [989]); (990, [991]); (992, [993]); (994, [995]); (996, [997]);
   (998, [999]); (1000, [1001]); (1002, [1003]); (1004, [1005]);
   (1006, [1007]); (1012, [952]); (1015, [1016]); (1017, [1010]);
   (1018, [1019]); (1021, [891]); (1022, [892]); (1023, [893]);
   (1024, [1104]); (1025, [1105]); (1026, [1106]); (1027, [1107]);
   (1028, [1108]); (1029, [1109]); (1030, [1110]); (1031, [1111]);
   (1032, [1112]); (1033, [1113]); (1034, [1114]); (1035, [1115]);
   (1036, [1116]); (1037, [1117]); (1038, [1118]); (1039, [1119]);
   (1040, [1072]); (1041, [1073]); (1042, [1074]); (1043, [1075]);
   (1044, [1076]); (1045, [1077]); (1046, [1078]); (1047, [1079]);
   (1048, [1080]); (1049, [1081]); (1050, [1082]); (1051, [1083]);
   (1052, [1084]); (1053, [1085]); (1054, [1086]); (1055, [1087]);
   (1056, [1088]); (1057, [1089]); (1058, [1090]); (1059, [1091]);
   (1060, [1092]); (1061, [1093]); (1062, [1094]); (1063, [1095]);
   (1064, [1096]); (1065, [1097]); (1066, [1098]); (1067, [1099]);
   (1068, [1100]); (1069, [1101]); (1070, [1102]); (1071, [1103]);
   (1120, [1121]); (1122, [1123]); (1124, [1125]); (1126, [1127]);
   (1128, [1129]); (1130, [1131]); (1132, [1133]); (1134, [1135]);
   (1136, [1137]); (1138, [1139]); (1140, [1141]); (1142, [1143]);
   (1144, [1145]); (1146, [1147]); (1148, [1149]); (1150, [1151]);
   (1152, [1153]); (1162, [1163]); (1164, [1165]); (1166, [1167]);
   (1168, [1169]); (1170, [1171]); (1172, [1173]); (1174, [1175]);
   (1176, [1177]); (1178, [1179]); (1180, [1181]); (1182, [1183]);
   (1184, [1185]); (1186, [1187]); (1188, [1189]); (1190, [1191]);
   (1192, [1193]); (1194, [1195]); (1196, [1197]); (1198, [1199]);
   (1200, [1201]); (1202, [1203]); (1204, [1205]); (1206, [1207]);
   (1208, [1209]); (1210, [1211]); (1212, [1213]); (1214, [1215]);
   (1216, [1231]); (1217, [1218]); (1219, [1220]); (1221, [1222]);
   (1223, [1224]); (1225, [1226]); (1227, [1228]); (1229, [1230]);
   (1232, [1233]); (1234, [1235]); (1236, [1237]); (1238, [1239]);
   (1240, [1241]); (1242, [1243]); (1244, [1245]); (1246, [1247]);
   (1248, [1249]); (1250, [1251]); (1252, [1253]); (1254, [1255]);
   (1256, [1257]); (1258, [1259]); (1260, [1261]); (1262, [1263]);
   (1264, [1265]); (1266, [1267]); (1268, [1269]); (1270, [1271]);
   (1272, [1273]); (1274, [1275]); (1276, [1277]); (1278, [1279]);
   (1280, [1281]); (1282, [1283]); (1284, [1285]); (1286, [1287]);
   (1288, [1289]); (1290, [1291]); (1292, [1293]); (1294, [1295]);
   (1296, [1297]); (1298, [1299]); (1300, [1301]); (1302, [1303]);
   (1304, [1305]); (1306, [1307]); (1308, [1309]); (1310, [1311]);
   (1312, [1313]); (1314, [1315]); (1316, [1317]); (1318, [1319]);
   (1320, [1321]); (1322, [1323]); (1324, [1325]); (1326, [1327]);
   (1329, [1377]); (1330, [1378]); (1331, [1379]); (1332, [1380]);
   (1333, [1381]); (1334, [1382]); (1335, [1383]); (1336, [1384]);
   (1337, [1385]); (1338, [1386]); (1339, [1387]); (1340, [1388]);
   (1341, [1389]); (1342, [1390]); (1343, [1391]); (1344, [1392]);
   (1345, [1393]); (1346, [1394]); (1347, [1395]); (1348, [1396]);
   (1349, [1397]); (1350, [1398]); (1351, [1399]); (1352, [1400]);
   (1353, [1401]); (1354, [1402]); (1355, [1403]); (1356, [1404]);
   (1357, [1405]); (1358, [1406]); (1359, [1407]); (1360, [1408]);
   (1361, [1409]); (1362, [1410]); (1363, [1411]); (1364, [1412]);
   (1365, [1413]); (1366, [1414]); (4256, [11520]); (4257, [11521]);
   (4258, [11522]); (4259, [11523]); (4260, [11524]); (4261, [11525]);
   (4262, [11526]); (4263, [11527]); (4264, [11528]); (4265, [11529]);
   (4266, [11530]); (4267, [11531]); (4268, [11532]); (4269, [11533]);
   (4270, [11534]); (4271, [11535]); (4272, [11536]); (4273, [11537]);
   (4274, [11538]); (4275, [11539]); (4276, [11540]); (4277, [11541]);
   (4278, [11542]); (4279, [11543]); (4280, [11544]); (4281, [11545]);
   (4282, [11546]); (4283, [11547]); (4284, [11548]); (4285, [11549]);
   (4286, [11550]); (4287, [11551]); (4288, [11552]); (4289, [11553]);
   (4290, [11554]); (4291, [11555]); (4292, [11556]); (4293, [11557]);
   (4295, [11559]); (4301, [11565]); (5024, [43888]); (5025, [43889]);
   (5026, [43890]); (5027, [43891]); (5028, [43892]); (5029, [43893]);
   (5030, [43894]); (5031, [43895]); (5032, [43896]); (5033, [43897]);
   (5034, [43898]); (5035, [43899]); (5036, [43900]); (5037, [43901]);
   (5038, [43902]); (5039, [43903]); (5040, [43904]); (5041, [43905]);
   (5042, [43906]); (5043, [43907]); (5044, [43908]); (5045, [43909]);
   (5046, [43910]); (5047, [43911]); (5048, [43912]); (5049, [43913]);
   (5050, [43914]); (5051, [43915]); (5052, [43916]); (5053, [43917]);
   (5054, [43918]); (5055, [43919]); (5056, [43920]); (5057, [43921]);
   (5058, [43922]); (5059, [43923]); (5060, [43924]); (5061, [43925]);
   (5062, [43926]); (5063, [43927]); (5064, [43928]); (5065, [43929]);
   (5066, [43930]); (5067, [43931]); (5068, [43932]); (5069, [43933]);
   (5070, [43934]); (5071, [43935]); (5072, [43936]); (5073, [43937]);
   (5074, [43938]); (5075, [43939]); (5076, [43940]); (5077, [43941]);
   (5078, [43942]); (5079, [43943]); (5080, [43944]); (5081, [43945]);
   (5082, [43946]); (5083, [43947]); (5084, [43948]); (5085, [43949]);
   (5086, [43950]); (5087, [43951]); (5088, [43952]); (5089, [43953]);
   (5090, [43954]); (5091, [43955]); (5092, [43956]); (5093, [43957]);
   (5094, [43958]); (5095, [43959]); (5096, [43960]); (5097, [43961]);
   (5098, [43962]); (5099, [43963]); (5100, [43964]); (5101, [43965]);
   (5102, [43966]); (5103, [43967]); (5104, [5112]); (5105, [5113]);
   (5106, [5114]); (5107, [5115]); (5108, [5116]); (5109, [5117]);
   (7312, [4304]); (7313, [4305]); (7314, [4306]); (7315, [4307]);
   (7316, [4308]); (7317, [4309]); (7318, [4310]); (7319, [4311]);
   (7320, [4312]); (7321, [4313]); (7322, [4314]); (7323, [4315]);
   (7324, [4316]); (7325, [4317]); (7326, [4318]); (7327, [4319]);
   (7328, [4320]); (7329, [4321]); (7330, [4322]); (7331, [4323]);
   (7332, [4324]); (7333, [4325]); (7334, [4326]); (7335, [4327]);
   (7336, [4328]); (7337, [4329]); (7338, [4330]); (7339, [4331]);
   (7340, [4332]); (7341, [4333]); (7342, [4334]); (7343, [4335]);
   (7344, [4336]); (7345, [4337]); (7346, [4338]); (7347, [4339]);
   (7348, [4340]); (7349, [4341]); (7350, [4342]); (7351, [4343]);
   (7352, [4344]); (7353, [4345]); (7354, [4346]); (7357, [4349]);
   (7358, [4350]); (7359, [4351]); (7680, [7681]); (7682, [7683]);
   (7684, [7685]); (7686, [7687]); (7688, [7689]); (7690, [7691]);
   (7692, [7693]); (7694, [7695]); (7696, [7697]); (7698, [7699]);
   (7700, [7701]); (7702, [7703]); (7704, [7705]); (7706, [7707]);
   (7708, [7709]); (7710, [7711]); (7712, [7713]); (7714, [7715]);
   (7716, [7717]); (7718, [7719]); (7720, [7721]); (7722, [7723]);
   (7724, [7725]); (7726, [7727]); (7728, [7729]); (7730, [7731]);
   (7732, [7733]); (7734, [7735]); (7736, [7737]); (7738, [7739]);
   (7740, [7741]); (7742, [7743]); (7744, [7745]); (7746, [7747]);
   (7748, [7749]); (7750, [7751]); (7752, [7753]); (7754, [7755]);
   (7756, [7757]); (7758, [7759]); (7760, [7761]); (7762, [7763]);
   (7764, [7765]); (7766, [7767]); (7768, [7769]); (7770, [7771]);
   (7772, [7773]); (7774, [7775]); (7776, [7777]); (7778, [7779]);
   (7780, [7781]); (7782, [7783]); (7784, [7785]); (7786, [7787]);
   (7788, [7789]); (7790, [7791]); (7792, [7793]); (7794, [7795]);
   (7796, [7797]); (7798, [7799]); (7800, [7801]); (7802, [7803]);
   (7804, [7805]); (7806, [7807]); (7808, [7809]); (7810, [7811]);
   (7812, [7813]); (7814, [7815]); (7816, [7817]); (7818, [7819]);
   (7820, [7821]); (7822, [7823]); (7824, [7825]); (7826, [7827]);
   (7828, [7829]); (7838, [223]); (7840, [7841]); (7842, [7843]);
   (7844, [7845]); (7846, [7847]); (7848, [7849]); (7850, [7851]);
   (7852, [7853]); (7854, [7855]); (7856, [7857]); (7858, [7859]);
   (7860, [7861]); (7862, [7863]); (7864, [7865]); (7866, [7867]);
   (7868, [7869]); (7870, [7871]); (7872, [7873]); (7874, [7875]);
   (7876, [7877]); (7878, [7879]); (7880, [7881]); (7882, [7883]);
   (7884, [7885]); (7886, [7887]); (7888, [7889]); (7890, [7891]);
   (7892, [7893]); (7894, [7895]); (7896, [7897]); (7898, [7899]);
   (7900, [7901]); (7902, [7903]); (7904, [7905]); (7906, [7907]);
   (7908, [7909]); (7910, [7911]); (7912, [7913]); (7914, [7915]);
   (7916, [7917]); (7918, [7919]); (7920, [7921]); (7922, [7923]);
   (7924, [7925]); (7926, [7927]); (7928, [7929]); (7930, [7931]);
   (7932, [7933]); (7934, [7935]); (7944, [7936]); (7945, [7937]);
   (7946, [7938]); (7947, [7939]); (7948, [7940]); (7949, [7941]);
   (7950, [7942]); (7951, [7943]); (7960, [7952]); (7961, [7953]);
   (7962, [7954]); (7963, [7955]); (7964, [7956]); (7965, [7957]);
   (7976, [7968]); (7977, [7969]); (7978, [7970]); (7979, [7971]);
   (7980, [7972]); (7981, [7973]); (7982, [7974]); (7983, [7975]);
   (7992, [7984]); (7993, [7985]); (7994, [7986]); (7995, [7987]);
   (7996, [7988]); (7997, [7989]); (7998, [7990]); (7999, [7991]);
   (8008, [8000]); (8009, [8001]); (8010, [8002]); (8011, [8003]);
   (8012, [8004]); (8013, [8005]); (8025, [8017]); (8027, [8019]);
   (8029, [8021]); (8031, [8023]); (8040, [8032]); (8041, [8033]);
   (8042, [8034]); (8043, [8035]); (8044, [8036]); (8045, [8037]);
   (8046, [8038]); (8047, [8039]); (8072, [8064]); (8073, [8065]);
   (8074, [8066]); (8075, [8067]); (8076, [8068]); (8077, [8069]);
   (8078, [8070]); (8079, [8071]); (8088, [8080]); (8089, [8081]);
   (8090, [8082]); (8091, [8083]); (8092, [8084]); (8093, [8085]);
   (8094, [8086]); (8095, [8087]); (8104, [8096]); (8105, [8097]);
   (8106, [8098]); (8107, [8099]); (8108, [8100]); (8109, [8101]);
   (8110, [8102]); (8111, [8103]); (8120, [8112]); (8121, [8113]);
   (8122, [8048]); (8123, [8049]); (8124, [8115]); (8136, [8050]);
   (8137, [8051]); (8138, [8052]); (8139, [8053]); (8140, [8131]);
   (8152, [8144]); (8153, [8145]); (8154, [8054]); (8155, [8055]);
   (8168, [8160]); (8169, [8161]); (8170, [8058]); (8171, [8059]);
   (8172, [8165]); (8184, [8056]); (8185, [8057]); (8186, [8060]);
   (8187, [8061]); (8188, [8179]); (8486, [969]); (8490, [107]);
   (8491, [229]); (8498, [8526]); (8544, [8560]); (8545, [8561]);
   (8546, [8562]); (8547, [8563]); (8548, [8564]); (8549, [8565]);
   (8550, [8566]); (8551, [8567]); (8552, [8568]); (8553, [8569]);
   (8554, [8570]); (8555, [8571]); (8556, [8572]); (8557, [8573]);
   (8558, [8574]); (8559, [8575]); (8579, [8580]); (9398, [9424]);
   (9399, [9425]); (9400, [9426]); (9401, [9427]); (9402, [9428]);
   (9403, [9429]); (9404, [9430]); (9405, [9431]); (9406, [9432]);
   (9407, [9433]); (9408, [9434]); (9409, [9435]); (9410, [9436]);
   (9411, [9437]); (9412, [9438]); (9413, [9439]); (9414, [9440]);
   (9415, [9441]); (9416, [9442]); (9417, [9443]); (9418, [9444]);
   (9419, [9445]); (9420, [9446]); (9421, [9447]); (9422, [9448]);
   (9423, [9449]); (11264, [11312]); (11265, [11313]); (11266, [11314]);
   (11267, [11315]); (11268, [11316]); (11269, [11317]); (11270, [11318]);
   (11271, [11319]); (11272, [11320]); (11273, [11321]); (11274, [11322]);
   (11275, [11323]); (11276, [11324]); (11277, [11325]); (11278, [11326]);
   (11279, [11327]); (11280, [11328]); (11281, [11329]); (11282, [11330]);
   (11283, [11331]); (11284, [11332]); (11285, [11333]); (11286, [11334]);
   (11287, [11335]); (11288, [11336]); (11289, [11337]); (11290, [11338]);
   (11291, [11339]); (11292, [11340]); (11293, [11341]); (11294, [11342]);
   (11295, [11343]); (11296, [11344]); (11297, [11345]); (11298, [11346]);
   (11299, [11347]); (11300, [11348]); (11301, [11349]); (11302, [11350]);
   (11303, [11351]); (11304, [11352]); (11305, [11353]); (11306, [11354]);
   (11307, [11355]); (11308, [11356]); (11309, [11357]); (11310, [11358]);
   (11311, [11359]); (11360, [11361]); (11362, [619]); (11363, [7549]);
   (11364, [637]); (11367, [11368]); (11369, [11370]); (11371, [11372]);
   (11373, [593]); (11374, [625]); (11375, [592]); (11376, [594]);
   (11378, [11379]); (11381, [11382]); (11390, [575]); (11391, [576]);
   (11392, [11393]); (11394, [11395]); (11396, [11397]); (11398, [11399]);
   (11400, [11401]); (11402, [11403]); (11404, [11405]); (11406, [11407]);
   (11408, [11409]); (11410, [11411]); (11412, [11413]); (11414, [11415]);
   (11416, [11417]); (11418, [11419]); (11420, [11421]); (11422, [11423]);
   (11424, [11425]); (11426, [11427]); (11428, [11429]); (11430, [11431]);
   (11432, [11433]); (11434, [11435]); (11436, [11437]); (11438, [11439]);
   (11440, [11441]); (11442, [11443]); (11444, [11445]); (11446, [11447]);
   (11448, [11449]); (11450, [11451]); (11452, [11453]); (11454, [11455]);
   (11456, [11457]); (11458, [11459]); (11460, [11461]); (11462, [11463]);
   (11464, [11465]); (11466, [11467]); (11468, [11469]); (11470, [11471]);
   (11472, [11473]); (11474, [11475]); (11476, [11477]); (11478, [11479]);
   (11480, [11481]); (11482, [11483]); (11484, [11485]); (11486, [11487]);
   (11488, [11489]); (11490, [11491]); (11499, [11500]); (11501, [11502]);
   (11506, [11507]); (42560, [42561]); (42562, [42563]); (42564, [42565]);
   (42566, [42567]); (42568, [42569]); (42570, [42571]); (42572, [42573]);
   (42574, [42575]); (42576, [42577]); (42578, [42579]); (42580, [42581]);
   (42582, [42583]); (42584, [42585]); (42586, [42587]); (42588, [42589]);
   (42590, [42591]); (42592, [42593]); (42594, [42595]); (42596, [42597]);
   (42598, [42599]); (42600, [42601]); (42602, [42603]); (42604, [42605]);
   (42624, [42625]); (42626, [42627]); (42628, [42629]); (42630, [42631]);
   (42632, [42633]); (42634, [42635]); (42636, [42637]); (42638, [42639]);
   (42640, [42641]); (42642, [42643]); (42644, [42645]); (42646, [42647]);
   (42648, [42649]); (42650, [42651]); (42786, [42787]); (42788, [42789]);
   (42790, [42791]); (42792, [42793]); (42794, [42795]); (42796, [42797]);
   (42798, [42799]); (42802, [42803]); (42804, [42805]); (42806, [42807]);
   (42808, [42809]); (42810, [42811]); (42812, [42813]); (42814, [42815]);
   (42816, [42817]); (42818, [42819]); (42820, [42821]); (42822, [42823]);
   (42824, [42825]); (42826, [42827]); (42828, [42829]); (42830, [42831]);
   (42832, [42833]); (42834, [42835]); (42836, [42837]); (42838, [42839]);
   (42840, [42841]); (42842, [42843]); (42844, [42845]); (42846, [42847]);
   (42848, [42849]); (42850, [42851]); (42852, [42853]); (42854, [42855]);
   (42856, [42857]); (42858, [42859]); (42860, [42861]); (42862, [42863]);
   (42873, [42874]); (42875, [42876]); (42877, [7545]); (42878, [42879]);
   (42880, [42881]); (42882, [42883]); (42884, [42885]); (42886, [42887]);
   (42891, [42892]); (42893, [613]); (42896, [42897]); (42898, [42899]);
   (42902, [42903]); (42904, [42905]); (42906, [42907]); (42908, [42909]);
   (42910, [42911]); (42912, [42913]); (42914, [42915]); (42916, [42917]);
   (42918, [42919]); (42920, [42921]); (42922, [614]); (42923, [604]);
   (42924, [609]); (42925, [620]); (42926, [618]); (42928, [670]);
   (42929, [647]); (42930, [669]); (42931, [43859]); (42932, [42933]);
   (42934, [42935]); (42936, [42937]); (42938, [42939]); (42940, [42941]);
   (42942, [42943]); (42944, [42945]); (42946, [42947]); (42948, [42900]);
   (42949, [642]); (42950, [7566]); (42951, [42952]); (42953, [42954]);
   (42960, [42961]); (42966, [42967]); (42968, [42969]); (42997, [42998]);
   (65313, [65345]); (65314, [65346]); (65315, [65347]); (65316, [65348]);
   (65317, [65349]); (65318, [65350]); (65319, [65351]); (65320, [65352]);
   (65321, [65353]); (65322, [65354]); (65323, [65355]); (65324, [65356]);
   (65325, [65357]); (65326, [65358]); (65327, [65359]); (65328, [65360]);
   (65329, [65361]); (65330, [65362]); (65331, [65363]); (65332, [65364]);
   (65333, [65365]); (65334, [65366]); (65335, [65367]); (65336, [65368]);
   (65337, [65369]); (65338, [65370]); (66560, [66600]); (66561, [66601]);
   (66562, [66602]); (66563, [66603]); (66564, [66604]); (66565, [66605]);
   (66566, [66606]); (66567, [66607]); (66568, [66608]); (66569, [66609]);
   (66570, [66610]); (66571, [66611]); (66572, [66612]); (66573, [66613]);
   (66574, [66614]); (66575, [66615]); (66576, [66616]); (66577, [66617]);
   (66578, [66618]); (66579, [66619]); (66580, [66620]); (66581, [66621]);
   (66582, [66622]); (66583, [66623]); (66584, [66624]); (66585, [66625]);
   (66586, [66626]); (66587, [66627]); (66588, [66628]); (66589, [66629]);
   (66590, [66630]); (66591, [66631]); (66592, [66632]); (66593, [66633]);
   (66594, [66634]); (66595, [66635]); (66596, [66636]); (66597, [66637]);
   (66598, [66638]); (66599, [66639]); (66736, [66776]); (66737, [66777]);
   (66738, [66778]); (66739, [66779]); (66740, [66780]); (66741, [66781]);
   (66742, [66782]); (66743, [66783]); (66744, [66784]); (66745, [66785]);
   (66746, [66786]); (66747, [66787]); (66748, [66788]); (66749, [66789]);
   (66750, [66790]); (66751, [66791]); (66752, [66792]); (66753, [66793]);
   (66754, [66794]); (66755, [66795]); (66756, [66796]); (66757, [66797]);
   (66758, [66798]); (66759, [66799]); (66760, [66800]); (66761, [66801]);
   (66762, [66802]); (66763, [66803]); (66764, [66804]); (66765, [66805]);
   (66766, [66806]); (66767, [66807]); (66768, [66808]); (66769, [66809]);
   (66770, [66810]); (66771, [66811]); (66928, [66967]); (66929, [66968]);
   (66930, [66969]); (66931, [66970]); (66932, [66971]); (66933, [66972]);
   (66934, [66973]); (66935, [66974]); (66936, [66975]); (66937, [66976]);
   (66938, [66977]); (66940, [66979]); (66941, [66980]); (66942, [66981]);
   (66943, [66982]); (66944, [66983]); (66945, [66984]); (66946, [66985]);
   (66947, [66986]); (66948, [66987]); (66949, [66988]); (66950, [66989]);
   (66951, [66990]); (66952, [66991]); (66953, [66992]); (66954, [66993]);
   (66956, [66995]); (66957, [66996]); (66958, [66997]); (66959, [66998]);
   (66960, [66999]); (66961, [67000]); (66962, [67001]); (66964, [67003]);
   (66965, [67004]); (68736, [68800]); (68737, [68801]); (68738, [68802]);
   (68739, [68803]); (68740, [68804]); (68741, [68805]); (68742, [68806]);
   (68743, [68807]); (68744, [68808]); (68745, [68809]); (68746, [68810]);
   (68747, [68811]); (68748, [68812]); (68749, [68813]); (68750, [68814]);
   (68751, [68815]); (68752, [68816]); (68753, [68817]); (68754, [68818]);
   (68755, [68819]); (68756, [68820]); (68757, [68821]); (68758, [68822]);
   (68759, [68823]); (68760, [68824]); (68761, [68825]); (68762, [68826]);
   (68763, [68827]); (68764, [68828]); (68765, [68829]); (68766, [68830]);
   (68767, [68831]); (68768, [68832]); (68769, [68833]); (68770, [68834]);
   (68771, [68835]); (68772, [68836]); (68773, [68837]); (68774, [68838]);
   (68775, [68839]); (68776, [68840]); (68777, [68841]); (68778, [68842]);
   (68779, [68843]); (68780, [68844]); (68781, [68845]); (68782, [68846]);
   (68783, [68847]); (68784, [68848]); (68785, [68849]); (68786, [68850]);
   (71840, [71872]); (71841, [71873]); (71842, [71874]); (71843, [71875]);
   (71844, [71876]); (71845, [71877]); (71846, [71878]); (71847, [71879]);
   (71848, [71880]); (71849, [71881]); (71850, [71882]); (71851, [71883]);
   (71852, [71884]); (71853, [71885]); (71854, [71886]); (71855, [71887]);
   (71856, [71888]); (71857, [71889]); (71858, [71890]); (71859, [71891]);
   (71860, [71892]); (71861, [71893]); (71862, [71894]); (71863, [71895]);
   (71864, [71896]); (71865, [71897]); (71866, [71898]); (71867, [71899]);
   (71868, [71900]); (71869, [71901]); (71870, [71902]); (71871, [71903]);
   (93760, [93792]); (93761, [93793]); (93762, [93794]); (93763, [93795]);
   (93764, [93796]); (93765, [93797]); (93766, [93798]); (93767, [93799]);
   (93768, [93800]); (93769, [93801]); (93770, [93802]); (93771, [93803]);
   (93772, [93804]); (93773, [93805]); (93774, [93806]); (93775, [93807]);
   (93776, [93808]); (93777, [93809]); (93778, [93810]); (93779, [93811]);
   (93780, [93812]); (93781, [93813]); (93782, [93814]); (93783, [93815]);
   (93784, [93816]); (93785, [93817]); (93786, [93818]); (93787, [93819]);
   (93788, [93820]); (93789, [93821]); (93790, [93822]); (93791, [93823]);
   (125184, [125218]); (125185, [125219]); (125186, [125220]);
   (125187, [125221]); (125188, [125222]); (125189, [125223]);
   (125190, [125224]); (125191, [125225]); (125192, [125226]);
   (125193, [125227]); (125194, [125228]); (125195, [125229]);
   (125196, [125230]); (125197, [125231]); (125198, [125232]);
   (125199, [125233]); (125200, [125234]); (125201, [125235]);
   (125202, [125236]); (125203, [125237]); (125204, [125238]);
   (125205, [125239]); (125206, [125240]); (125207, [125241]);
   (125208, [125242]); (125209, [125243]); (125210, [125244]);
   (125211, [125245]); (125212, [125246]); (125213, [125247]);
   (125214, [125248]); (125215, [125249]); (125216, [125250]);
   (125217, [125251])
  ]%N.

(** Ranges of the characters that are case-ignorable. *)
Definition case_ignorable_ranges : list (char * char) :=
  [
   (39, 39); (46, 46); (58, 58); (94, 94); (96, 96); (168, 168); (173, 173);
   (175, 175); (180, 180); (183, 184); (688, 879); (884, 885); (890, 890);
   (900, 901); (903, 903); (1155, 1161); (1369, 1369); (1375, 1375);
   (1425, 1469); (1471, 1471); (1473, 1474); (1476, 1477); (1479, 1479);
   (1524, 1524); (1536, 1541); (1552, 1562); (1564, 1564); (1600, 1600);
   (1611, 1631); (1648, 1648); (1750, 1757); (1759, 1768); (1770, 1773);
   (1807, 1807); (1809, 1809); (1840, 1866); (1958, 1968); (2027, 2037);
   (2042, 2042); (2045, 2045); (2070, 2093); (2137, 2139); (2184, 2184);
   (2192, 2193); (2200, 2207); (2249, 2306); (2362, 2362); (2364, 2364);
   (2369, 2376); (2381, 2381); (2385, 2391); (2402, 2403); (2417, 2417);
   (2433, 2433); (2492, 2492); (2497, 2500); (2509, 2509); (2530, 2531);
   (2558, 2558); (2561, 2562); (2620, 2620); (2625, 2626); (2631, 2632);
   (2635, 2637); (2641, 2641); (2672, 2673); (2677, 2677); (2689, 2690);
   (2748, 2748); (2753, 2757); (2759, 2760); (2765, 2765); (2786, 2787);
   (2810, 2815); (2817, 2817); (2876, 2876); (2879, 2879); (2881, 2884);
   (2893, 2893); (2901, 2902); (2914, 2915); (2946, 2946); (3008, 3008);
   (3021, 3021); (3072, 3072); (3076, 3076); (3132, 3132); (3134, 3136);
   (3142, 3144); (3146, 3149); (3157, 3158); (3170, 3171); (3201, 3201);
   (3260, 3260); (3263, 3263); (3270, 3270); (3276, 3277); (3298, 3299);
   (3328, 3329); (3387, 3388); (3393, 3396); (3405, 3405); (3426, 3427);
   (3457, 3457); (3530, 3530); (3538, 3540); (3542, 3542); (3633, 3633);
   (3636, 3642); (3654, 3662); (3761, 3761); (3764, 3772); (3782, 3782);
   (3784, 3789); (3864, 3865); (3893, 3893); (3895, 3895); (3897, 3897);
   (3953, 3966); (3968, 3972); (3974, 3975); (3981, 3991); (3993, 4028);
   (4038, 4038); (4141, 4144); (4146, 4151); (4153, 4154); (4157, 4158);
   (4184, 4185); (4190, 4192); (4209, 4212); (4226, 4226); (4229, 4230);
   (4237, 4237); (4253, 4253); (4348, 4348); (4957, 4959); (5906, 5908);
   (5938, 5939); (5970, 5971); (6002, 6003); (6068, 6069); (6071, 6077);
   (6086, 6086); (6089, 6099); (6103, 6103); (6109, 6109); (6155, 6159);
   (6211, 6211); (6277, 6278); (6313, 6313); (6432, 6434); (6439, 6440);
   (6450, 6450); (6457, 6459); (6679, 6680); (6683, 6683); (6742, 6742);
   (6744, 6750); (6752, 6752); (6754, 6754); (6757, 6764); (6771, 6780);
   (6783, 6783); (6823, 6823); (6832, 6862); (6912, 6915); (6964, 6964);
   (6966, 6970); (6972, 6972); (6978, 6978); (7019, 7027); (7040, 7041);
   (7074, 7077); (7080, 7081); (7083, 7085); (7142, 7142); (7144, 7145);
   (7149, 7149); (7151, 7153); (7212, 7219); (7222, 7223); (7288, 7293);
   (7376, 7378); (7380, 7392); (7394, 7400); (7405, 7405); (7412, 7412);
   (7416, 7417); (7468, 7530); (7544, 7544); (7579, 7679); (8125, 8125);
   (8127, 8129); (8141, 8143); (8157, 8159); (8173, 8175); (8189, 8190);
   (8203, 8207); (8216, 8217); (8228, 8228); (8231, 8231); (8234, 8238);
   (8288, 8292); (8294, 8303); (8305, 8305); (8319, 8319); (8336, 8348);
   (8400, 8432); (11388, 11389); (11503, 11505); (11631, 11631);
   (11647, 11647); (11744, 11775); (11823, 11823); (12293, 12293);
   (12330, 12333); (12337, 12341); (12347, 12347); (12441, 12446);
   (12540, 12542); (40981, 40981); (42232, 42237); (42508, 42508);
   (42607, 42610); (42612, 42621); (42623, 42623); (42652, 42655);
   (42736, 42737); (42752, 42785); (42864, 42864); (42888, 42890);
   (42994, 42996); (43000, 43001); (43010, 43010); (43014, 43014);
   (43019, 43019); (43045, 43046); (43052, 43052); (43204, 43205);
   (43232, 43249); (43263, 43263); (43302, 43309); (43335, 43345);
   (43392, 43394); (43443, 43443); (43446, 43449); (43452, 43453);
   (43471, 43471); (43493, 43494); (43561, 43566); (43569, 43570);
   (43573, 43574); (43587, 43587); (43596, 43596); (43632, 43632);
   (43644, 43644); (43696, 43696); (43698, 43700); (43703, 43704);
   (43710, 43711); (43713, 43713); (43741, 43741); (43756, 43757);
   (43763, 43764); (43766, 43766); (43867, 43871); (43881, 43883);
   (44005, 44005); (44008, 44008); (44013, 44013); (64286, 64286);
   (64434, 64450); (65024, 65039); (65043, 65043); (65056, 65071);
   (65106, 65106); (65109, 65109); (65279, 65279); (65287, 65287);
   (65294, 65294); (65306, 65306); (65342, 65342); (65344, 65344);
   (65392, 65392); (65438, 65439); (65507, 65507); (65529, 65531);
   (66045, 66045); (66272, 66272); (66422, 66426); (67456, 67461);
   (67463, 67504); (67506, 67514); (68097, 68099); (68101, 68102);
   (68108, 68111); (68152, 68154); (68159, 68159); (68325, 68326);
   (68900, 68903); (69291, 69292); (69446, 69456); (69506, 69509);
   (69633, 69633); (69688, 69702); (69744, 69744); (69747, 69748);
   (69759, 69761); (69811, 69814); (69817, 69818); (69821, 69821);
   (69826, 69826); (69837, 69837); (69888, 69890); (69927, 69931);
   (69933, 69940); (70003, 70003); (70016, 70017); (70070, 70078);
   (70089, 70092); (70095, 70095); (70191, 70193); (70196, 70196);
   (70198, 70199); (70206, 70206); (70367, 70367); (70371, 70378);
   (70400, 70401); (70459, 70460); (70464, 70464); (70502, 70508);
   (70512, 70516); (70712, 70719); (70722, 70724); (70726, 70726);
   (70750, 70750); (70835, 70840); (70842, 70842); (70847, 70848);
   (70850, 70851); (71090, 71093); (71100, 71101); (71103, 71104);
   (71132, 71133); (71219, 71226); (71229, 71229); (71231, 71232);
   (71339, 71339); (71341, 71341); (71344, 71349); (71351, 71351);
   (71453, 71455); (71458, 71461); (71463, 71467); (71727, 71735);
   (71737, 71738); (71995, 71996); (71998, 71998); (72003, 72003);
   (72148, 72151); (72154, 72155); (72160, 72160); (72193, 72202);
   (72243, 72248); (72251, 72254); (72263, 72263); (72273, 72278);
   (72281, 72283); (72330, 72342); (72344, 72345); (72752, 72758);
   (72760, 72765); (72767, 72767); (72850, 72871); (72874, 72880);
   (72882, 72883); (72885, 72886); (73009, 73014); (73018, 73018);
   (73020, 73021); (73023, 73029); (73031, 73031); (73104, 73105);
   (73109, 73109); (73111, 73111); (73459, 73460); (78896, 78904);
   (92912, 92916); (92976, 92982); (92992, 92995); (94031, 94031);
   (94095, 94111); (94176, 94177); (94179, 94180); (110576, 110579);
   (110581, 110587); (110589, 110590); (113821, 113822); (113824, 113827);
   (118528, 118573); (118576, 118598); (119143, 119145); (119155, 119170);
   (119173, 119179); (119210, 119213); (119362, 119364); (121344, 121398);
   (121403, 121452); (121461, 121461); (121476, 121476); (121499, 121503);
   (121505, 121519); (122880, 122886); (122888, 122904); (122907, 122913);
   (122915, 122916); (122918, 122922); (123184, 123197); (123566, 123566);
   (123628, 123631); (125136, 125142); (125252, 125259); (127995, 127999);
   (917505, 917505); (917536, 917631); (917760, 917999)
  ]%N.

(** Ranges of the characters that are cased and not case-ignorable. *)
Definition cased_ranges : list (char * char) :=
  [
   (65, 90); (97, 122); (170, 170); (181, 181); (186, 186); (192, 214);
   (216, 246); (248, 442); (444, 447); (452, 659); (661, 687); (880, 883);
   (886, 887); (891, 893); (895, 895); (902, 902); (904, 906); (908, 908);
   (910, 929); (931, 1013); (1015, 1153); (1162, 1327); (1329, 1366);
   (1376, 1416); (4256, 4293); (4295, 4295); (4301, 4301); (4304, 4346);
   (4349, 4351); (5024, 5109); (5112, 5117); (7296, 7304); (7312, 7354);
   (7357, 7359); (7424, 7467); (7531, 7543); (7545, 7578); (7680, 7957);
   (7960, 7965); (7968, 8005); (8008, 8013); (8016, 8023); (8025, 8025);
   (8027, 8027); (8029, 8029); (8031, 8061); (8064, 8116); (8118, 8124);
   (8126, 8126); (8130, 8132); (8134, 8140); (8144, 8147); (8150, 8155);
   (8160, 8172); (8178, 8180); (8182, 8188); (8450, 8450); (8455, 8455);
   (8458, 8467); (8469, 8469); (8473, 8477); (8484, 8484); (8486, 8486);
   (8488, 8488); (8490, 8493); (8495, 8500); (8505, 8505); (8508, 8511);
   (8517, 8521); (8526, 8526); (8544, 8575); (8579, 8580); (9398, 9449);
   (11264, 11387); (11390, 11492); (11499, 11502); (11506, 11507);
   (11520, 11557); (11559, 11559); (11565, 11565); (42560, 42605);
   (42624, 42651); (42786, 42863); (42865, 42887); (42891, 42894);
   (42896, 42954); (42960, 42961); (42963, 42963); (42965, 42969);
   (42997, 42998); (43002, 43002); (43824, 43866); (43872, 43880);
   (43888, 43967); (64256, 64262); (64275, 64279); (65313, 65338);
   (65345, 65370); (66560, 66639); (66736, 66771); (66776, 66811);
   (66928, 66938); (66940, 66954); (66956, 66962); (66964, 66965);
   (66967, 66977); (66979, 66993); (66995, 67001); (67003, 67004);
   (68736, 68786); (68800, 68850); (71840, 71903); (93760, 93823);
   (119808, 119892); (119894, 119964); (119966, 119967); (119970, 119970);
   (119973, 119974); (119977, 119980); (119982, 119993); (119995, 119995);
   (119997, 120003); (120005, 120069); (120071, 120074); (120077, 120084);
   (120086, 120092); (120094, 120121); (120123, 120126); (120128, 120132);
   (120134, 120134); (120138, 120144); (120146, 120485); (120488, 120512);
   (120514, 120538); (120540, 120570); (120572, 120596); (120598, 120628);
   (120630, 120654); (120656, 120686); (120688, 120712); (120714, 120744);
   (120746, 120770); (120772, 120779); (122624, 122633); (122635, 122654);
   (125184, 125251); (127280, 127305); (127312, 127337); (127344, 127369)
  ]%N.

Definition in_ranges (c : char) (ranges : list (char * char)) : bool :=
  existsb (fun r : char * char => (fst r <=? c)%N && (c <=? snd r)%N) ranges.

Definition case_ignorable (c : char) : bool :=
  in_ranges c case_ignorable_ranges.

Definition cased (c : char) : bool := in_ranges c cased_ranges.

(** [c.isspace()] *)
Definition isspace (c : char) : bool :=
  existsb (N.eqb c) whitespace_chars.

Fixpoint lookup_lower (c : char) (table : list (char * list char))
  : option (list char) :=
  match table with
  | [] => None
  | (k, v) :: table' => if (k =? c)%N then Some v else lookup_lower c table'
  end.

(** The lowercase of one character on its own. *)
Definition lower_char (c : char) : string :=
  match lookup_lower c lower_table with
  | Some l => chars l
  | None => String c ""
  end.

Definition capital_sigma : char := 931%N.
Definition small_sigma : char := 963%N.
Definition final_sigma : char := 962%N.

(** Whether the first character of [s] that is not case-ignorable is
    cased. *)
Fixpoint cased_next (s : string) : bool :=
  match s with
  | "" => false
  | String c s' => if case_ignorable c then cased_next s' else cased c
  end.

(** [s.lower()], character by character. A capital sigma becomes the final
    form when the nearest character before it that is not case-ignorable
    is cased ([cased_before]) and the nearest one after it is not. *)
Fixpoint lower_from (cased_before : bool) (s : string) : string :=
  match s with
  | "" => ""
  | String c s' =>
      (if (c =? capital_sigma)%N
       then String (if cased_before && negb (cased_next s')
                    then final_sigma else small_sigma) ""
       else lower_char c)
      ++ lower_from (if case_ignorable c then cased_before else cased c) s'
  end.

Definition lower (s : string) : string := lower_from false s.

(** Truth value of a string: [if text:] *)
Definition nonempty (s : string) : bool :=
  match s with "" => false | _ => true end.

(** [re.sub(r'\s+', ' ', s)]: the scan keeps in [in_run] whether the
    previous character belonged to the whitespace run being replaced. *)
Fixpoint sub_ws (in_run : bool) (s : string) : string :=
  match s with
  | "" => ""
  | String c s' =>
      if isspace c
      then (if in_run then sub_ws true s' else String space (sub_ws true s'))
      else String c (sub_ws false s')
  end.

Definition re_sub_whitespace (s : string) : string := sub_ws false s.

Fixpoint lstrip (s : string) : string :=
  match s with
  | "" => ""
  | String c s' => if isspace c then lstrip s' else s
  end.

Fixpoint rstrip (s : string) : string :=
  match s with
  | "" => ""
  | String c s' =>
      match rstrip s' with
      | "" => if isspace c then "" else String c ""
      | r => String c r
      end
  end.

(** [s.strip()] *)
Definition strip (s : string) : string := rstrip (lstrip s).

(** [t.startswith(p)] *)
Fixpoint startswith (p t : string) : bool :=
  match p, t with
  | "", _ => true
  | String _ _, "" => false
  | String a p', String b t' => (a =? b)%N && startswith p' t'
  end.

(** [p in t] for two strings *)
Fixpoint contains (p t : string) : bool :=
  startswith p t ||
  match t with
  | "" => false
  | String _ t' => contains p t'
  end.

(** [s.split()]: [w] is the word being read. *)
Fixpoint split_from (w s : string) : list string :=
  match s with
  | "" => if nonempty w then [w] else []
  | String c s' =>
      if isspace c
      then (if nonempty w then w :: split_from "" s' else split_from "" s')
      else split_from (w ++ String c "") s'
  end.

Definition split (s : string) : list string := split_from "" s.

(** [s.replace(old, new)] for a non-empty [old]: occurrences are replaced
    from left to right without overlap; [skip] counts the characters of the
    occurrence just replaced that are still to be passed over. *)
Fixpoint replace_from (skip : nat) (old new s : string) : string :=
  match s with
  | "" => ""
  | String c s' =>
      match skip with
      | S k => replace_from k old new s'
      | O =>
          if startswith old s
          then new ++ replace_from (len old - 1) old new s'
          else String c (replace_from 0 old new s')
      end
  end.

Definition replace (old new s : string) : string := replace_from 0 old new s.

(** [any(p in text for p in phrases)] *)
Definition any_in (phrases : list string) (text : string) : bool :=
  existsb (fun p => contains p text) phrases.

(** *** Dictionaries in iteration order *)

Fixpoint dict_get {V : Type} (k : string) (d : list (string * V)) : option V :=
  match d with
  | [] => None
  | (k', v) :: d' => if (k' =? k) then Some v else dict_get k d'
  end.

(** [d[k] = v]: an existing key keeps its place, a new key goes last. *)
Fixpoint dict_set {V : Type} (k : string) (v : V) (d : list (string * V))
  : list (string * V) :=
  match d with
  | [] => [(k, v)]
  | (k', v') :: d' =>
      if (k' =? k) then (k', v) :: d' else (k', v') :: dict_set k v d'
  end.

(** *** JSON values

    What [json.load] and [response.json()] return. A number stands for any
    JSON number: the code only tests a number for being zero, and prints
    it through the functions of the world. *)

#[local] Set Warnings "-register-all".

Inductive json : Type :=
| JNull
| JBool (b : bool)
| JNum (n : Z)
| JStr (s : string)
| JArr (items : list json)
| JObj (fields : list (string * json)).

(** Truth value of a value read from JSON. *)
Definition truthy (v : json) : bool :=
  match v with
  | JNull => false
  | JBool b => b
  | JNum n => negb (n =? 0)%Z
  | JStr s => nonempty s
  | JArr [] => false
  | JArr (_ :: _) => true
  | JObj [] => false
  | JObj (_ :: _) => true
  end.

(** *** Exceptions *)

Inductive exn : Type :=
| KeyError (key : string)
| AttributeError (attr : string)
| TypeError
| IndexError
| OSError
| JSONDecodeError
| RequestException
| BackendError.

Inductive result (A : Type) : Type :=
| Ok (a : A)
| Raise (e : exn).
Arguments Ok {A} a.
Arguments Raise {A} e.

(** [v.get(k, default)]: only a dict has the method. *)
Definition json_get (v : json) (k : string) (default : json) : result json :=
  match v with
  | JObj fields =>
      match dict_get k fields with
      | Some x => Ok x
      | None => Ok default
      end
  | _ => Raise (AttributeError "get")
  end.

(** [v.items()]: only a dict has the method. *)
Definition json_items (v : json) : result (list (string * json)) :=
  match v with
  | JObj fields => Ok fields
  | _ => Raise (AttributeError "items")
  end.

(** [len(v)] *)
Definition json_len (v : json) : result nat :=
  match v with
  | JStr s => Ok (len s)
  | JArr items => Ok (List.length items)
  | JObj fields => Ok (List.length fields)
  | _ => Raise TypeError
  end.

(** [v[0]]; the keys of a dict read from JSON are strings, so [0] is never
    one of them. *)
Definition json_first (v : json) : result json :=
  match v with
  | JArr (x :: _) => Ok x
  | JArr [] => Raise IndexError
  | JStr (String c _) => Ok (JStr (String c ""))
  | JStr "" => Raise IndexError
  | JObj _ => Raise (KeyError "0")
  | _ => Raise TypeError
  end.

(** *** Network effects

    A computation threads the log of the network calls made so far and
    either returns a value or raises. *)

Inductive io_event : Type :=
| HttpGet (url : string)
| SendMessage (prompt : string).

Definition io_log : Type := list io_event.

Definition IO (A : Type) : Type := io_log -> result A * io_log.

Definition ret {A : Type} (a : A) : IO A := fun log => (Ok a, log).

Definition bind {A B : Type} (m : IO A) (f : A -> IO B) : IO B :=
  fun log =>
    match m log with
    | (Ok a, log') => f a log'
    | (Raise e, log') => (Raise e, log')
    end.

(** [try: body  except Exception: handler] *)
Definition try_except {A : Type} (body : IO A) (handler : exn -> IO A) : IO A :=
  fun log =>
    match body log with
    | (Ok a, log') => (Ok a, log')
    | (Raise e, log') => handler e log'
    end.

Definition lift {A : Type} (r : result A) : IO A := fun log => (r, log).

(** A network call: the event is logged, then the outcome is delivered. *)
Definition perform {A : Type} (ev : io_event) (outcome : io_log -> result A)
  : IO A :=
  fun log => (outcome log, (log ++ [ev])%list).

End Py.

Export Py.

Notation "x <- m ;; k" := (bind m (fun x => k))
  (at level 61, m at next level, right associativity).

Open Scope str_scope.

(* ================================================================= *)
(** ** chatbot/utils.py *)

Module Utils.

(** [clean_text(text)]; [None] is Python's [None]. *)
Definition clean_text (text : option string) : string :=
  match text with
  | None => ""
  | Some text =>
      if negb (nonempty text) then ""
      else
        let text := lower text in
        let text := re_sub_whitespace text in
        let text := strip text in
        text
  end.

End Utils.

Export Utils.

(* ================================================================= *)
(** ** chatbot/knowledge_base.py *)

Module KnowledgeBase.

(** The store: for each topic, in iteration order, the value held under
    it. The code builds objects (entry key to entry) but stores what the
    crops file holds as it is. *)
Definition knowledge : Type := list (string * json).

(** What the process finds at [data/crops_data.json]: whether the path
    exists and what opening and parsing it gives, any JSON value or an
    exception. *)
Record filesystem : Type := {
  crops_file_exists : bool;
  crops_file_load : result json
}.

Definition bullets (items : list string) : string := join nl items.

Definition crop (name description : string) (growing_tips : list string)
  (season : string) (pests : list string) : json :=
  JObj [("name", JStr name);
        ("description", JStr description);
        ("growing_tips", JStr (bullets growing_tips));
        ("season", JStr season);
        ("pests", JArr (map JStr pests))].

Definition _get_default_crops_data : json :=
  JObj
  [("rice",
    crop "Rice"
      "Rice is a staple cereal grain and one of the most important crops worldwide."
      ["• Plant in flooded fields"; "• Requires warm climate";
       "• 120-150 days to maturity"; "• pH 5.5-6.5 preferred"]
      "Monsoon season (June-October)"
      ["Brown planthopper"; "Rice stem borer"; "Blast disease"]);
   ("wheat",
    crop "Wheat"
      "Wheat is a cereal grain that is a worldwide staple food."
      ["• Cool, dry climate preferred"; "• Well-drained soil";
       "• 100-130 days to harvest"; "• pH 6.0-7.0 optimal"]
      "Winter season (November-April)"
      ["Aphids"; "Rust diseases"; "Hessian fly"]);
   ("tomato",
    crop "Tomato"
      "Tomatoes are versatile fruits used in cooking worldwide."
      ["• Warm weather crop"; "• Rich, well-drained soil";
       "• Regular watering"; "• Support with stakes"]
      "Summer season (March-June)"
      ["Tomato hornworm"; "Aphids"; "Blight diseases"]);
   ("potato",
    crop "Potato"
      "Potatoes are underground tubers that are a major food crop."
      ["• Cool weather preferred"; "• Loose, fertile soil";
       "• Hill up plants regularly"; "• Consistent moisture"]
      "Winter season (October-February)"
      ["Colorado potato beetle"; "Late blight"; "Aphids"]);
   ("corn",
    crop "Corn (Maize)"
      "Corn is a cereal grain that serves as food for humans and livestock."
      ["• Warm season crop"; "• Full sun exposure";
       "• Rich, well-drained soil"; "• Adequate spacing for pollination"]
      "Summer season (April-August)"
      ["Corn borer"; "Armyworm"; "Corn smut"])].

Definition pest (name description treatment prevention : string) : json :=
  JObj [("name", JStr name);
        ("description", JStr description);
        ("treatment", JStr treatment);
        ("prevention", JStr prevention)].

Definition advice (description recommendations : string) : json :=
  JObj [("description", JStr description);
        ("recommendations", JStr recommendations)].

Definition _get_default_knowledge : knowledge :=
  [("crops", _get_default_crops_data);
   ("pests",
    JObj
    [("aphids",
      pest "Aphids"
        "Small, soft-bodied insects that feed on plant sap."
        "Use neem oil spray, introduce ladybugs, or use insecticidal soap."
        "Regular inspection, avoid over-fertilization");
     ("caterpillars",
      pest "Caterpillars"
        "Larvae of moths and butterflies that eat plant leaves."
        "Hand picking, Bt spray, or appropriate insecticides."
        "Row covers, companion planting")]);
   ("soil",
    JObj
    [("ph_testing",
      advice "Soil pH affects nutrient availability to plants."
        "Test pH annually. Most crops prefer pH 6.0-7.0. Use lime to raise pH, sulfur to lower it.");
     ("composting",
      advice "Composting creates rich organic matter for soil improvement."
        "Mix green and brown materials, maintain moisture, turn regularly for aeration.")]);
   ("weather",
    JObj
    [("seasonal_planning",
      advice "Planning crops according to seasonal weather patterns."
        "Plant warm-season crops after last frost, cool-season crops in fall/winter.")]);
   ("general",
    JObj
    [("organic_farming",
      advice "Farming without synthetic chemicals, focusing on natural methods."
        "Use compost, crop rotation, biological pest control, and cover crops.")])].

(** [_load_knowledge]: the body of the [try] either completes with the
    store or raises; the handler replaces the whole store by the defaults. *)
Definition _load_knowledge (fs : filesystem) : knowledge :=
  let knowledge : knowledge :=
    [("crops", JObj []); ("pests", JObj []); ("soil", JObj []);
     ("weather", JObj []); ("general", JObj [])] in
  let attempt : result KnowledgeBase.knowledge :=
    if crops_file_exists fs
    then
      match crops_file_load fs with
      | Ok loaded => Ok (dict_set "crops" loaded knowledge)
      | Raise e => Raise e
      end
    else Ok (dict_set "crops" _get_default_crops_data knowledge) in
  match attempt with
  | Ok knowledge => knowledge
  | Raise _ => _get_default_knowledge
  end.

(** [any(word in content.lower() for word in query.split())] *)
Definition any_word_in (query content : string) : bool :=
  existsb (fun word => contains word (lower content)) (split query).

(** [_calculate_relevance(query, key, data)] *)
Definition _calculate_relevance (query key : string) (data : json) : nat :=
  let score := 0 in
  let score := if any_word_in query key then score + 2 else score in
  match data with
  | JObj fields =>
      fold_left
        (fun score (item : string * json) =>
           match snd item with
           | JStr content =>
               if any_word_in query content then score + 1 else score
           | _ => score
           end)
        fields score
  | JStr content => if any_word_in query content then score + 1 else score
  | _ => score
  end.

(** One turn of the search loop: the state is [(best_match, highest_score)]. *)
Definition search_step (query_lower : string) (state : option json * nat)
  (item : string * json) : option json * nat :=
  let '(key, value) := item in
  let score := _calculate_relevance query_lower key value in
  if (snd state <? score)%nat then (Some value, score) else state.

Definition search_result (state : option json * nat) : option json :=
  if (0 <? snd state)%nat then fst state else None.

(** The loop over the topics of the search without topic: the first topic
    whose value has no [items] raises, and nothing is returned. *)
Fixpoint search_topics (query_lower : string) (topics : knowledge)
  (state : option json * nat) : result (option json * nat) :=
  match topics with
  | [] => Ok state
  | (topic_name, topic_data) :: topics' =>
      match json_items topic_data with
      | Ok items =>
          search_topics query_lower topics'
            (fold_left (search_step query_lower) items state)
      | Raise e => Raise e
      end
  end.

(** [search(query, topic=None)] on the store [knowledge]. *)
Definition search (knowledge : knowledge) (query : string)
  (topic : option string) : result (option json) :=
  let query_lower := lower query in
  let in_topic :=
    match topic with
    | Some t => if nonempty t then dict_get t knowledge else None
    | None => None
    end in
  match in_topic with
  | Some topic_data =>
      match json_items topic_data with
      | Ok items =>
          Ok (search_result
                (fold_left (search_step query_lower) items (None, 0)))
      | Raise e => Raise e
      end
  | None =>
      match search_topics query_lower knowledge (None, 0) with
      | Ok state => Ok (search_result state)
      | Raise e => Raise e
      end
  end.

End KnowledgeBase.

Export KnowledgeBase.

(* ================================================================= *)
(** ** chatbot/response_generator.py *)

Module ResponseGenerator.

(** The conversation opened with the generation service. *)
Record chat_session : Type := {
  session_model : string;
  session_history : list (string * string)
}.

(** An HTTP response; [response_json] is what [response.json()] gives. *)
Record http_response : Type := {
  response_json : result json
}.

(** Everything outside the process: the environment variables, the data
    directory, the two network services (their answers may depend on the
    calls made before), the random generator, and the two formatting
    functions of the Python library the bot calls ([json.dumps(_, indent=2)]
    and the conversion of a value inside an f-string). *)
Record world : Type := {
  environ : string -> option string;
  files : filesystem;
  genai_configure : string -> result unit;
  genai_GenerativeModel : string -> result unit;
  genai_start_chat : string -> list (string * string) -> result unit;
  requests_get : string -> io_log -> result http_response;
  chat_send_message : string -> io_log -> result string;
  random_draw : nat;
  json_dumps : json -> string;
  format_value : json -> string
}.

Record weather_reading : Type := {
  temperature : json;
  humidity : json;
  pressure : json
}.

Record AgricultureBot : Type := {
  model : option string;
  chat : option chat_session;
  greetings : list string;
  knowledge_base : knowledge;
  topic_patterns : list (string * list string)
}.

(** The first turn of the seeded history; the lines of the source literal
    are separated by a line break and its indentation of 24 spaces. *)
Definition system_turn : string :=
  join (nl ++ "                        ")
    ["You are a friendly and knowledgeable Agriculture Assistant. ";
     "Your goal is to provide helpful, accurate, and concise information about farming, ";
     "crops, soil, pests, and weather. ";
     "When weather data is provided, analyze and explain it for the farmer. ";
     "Format answers clearly and use emojis where appropriate."].

Definition seed_history : list (string * string) :=
  [("user", system_turn);
   ("model",
    "Understood! I am ready to assist with any agriculture-related questions. 🌱")].

(** [os.environ[name]] *)
Definition environ_getitem (w : world) (name : string) : result string :=
  match environ w name with
  | Some v => Ok v
  | None => Raise (KeyError name)
  end.

(** The [try] block of [__init__]: the pair is [(self.model, self.chat)]
    as the block leaves them, whether it completes or raises. *)
Definition configure_backend (w : world)
  : option string * option chat_session :=
  match environ_getitem w "GOOGLE_API_KEY" with
  | Raise _ => (None, None)
  | Ok api_key =>
      match genai_configure w api_key with
      | Raise _ => (None, None)
      | Ok _ =>
          let model_name :=
            match environ w "GEMINI_MODEL" with
            | Some name => name
            | None => "gemini-2.0-flash"
            end in
          match genai_GenerativeModel w model_name with
          | Raise _ => (None, None)
          | Ok _ =>
              match genai_start_chat w model_name seed_history with
              | Raise _ => (Some model_name, None)
              | Ok _ =>
                  (Some model_name,
                   Some {| session_model := model_name;
                           session_history := seed_history |})
              end
          end
      end
  end.

Definition __init__ (w : world) : AgricultureBot :=
  let backend := configure_backend w in
  {| model := fst backend;
     chat := snd backend;
     greetings :=
       ["Hello! I'm your Agriculture Assistant. How can I help you with farming today?";
        "Hi there! I'm here to help with all your agriculture and farming questions.";
        "Welcome! Ask me anything about crops, cultivation, pests, or farming techniques."];
     knowledge_base := _load_knowledge (files w);
     topic_patterns :=
       [("crops", ["crop"; "crops"; "plant"; "plants"; "grow"; "cultivation"; "farming"]);
        ("pests", ["pest"; "pests"; "insect"; "insects"; "bug"; "bugs"; "disease"; "diseases"]);
        ("soil", ["soil"; "fertilizer"; "fertiliser"; "nutrients"; "ph"; "compost"]);
        ("weather", ["weather"; "rain"; "season"; "climate"; "temperature"; "humidity"; "pressure"; "forecast"]);
        ("seeds", ["seed"; "seeds"; "planting"; "sowing"; "germination"]);
        ("harvest", ["harvest"; "harvesting"; "yield"; "production"; "storage"])] |}.

Definition _is_greeting (text : string) : bool :=
  let greetings :=
    ["hello"; "hi"; "hey"; "good morning"; "good afternoon"; "good evening"] in
  any_in greetings text.

Definition _is_goodbye (text : string) : bool :=
  let goodbyes :=
    ["bye"; "goodbye"; "see you"; "thanks"; "thank you"; "exit"; "quit"] in
  any_in goodbyes text.

Definition farewell_message : string :=
  "Thank you for using Agriculture Assistant! Happy farming! 🌱".

Definition weather_apology : string :=
  "Sorry, I couldn't fetch the live weather data from ThingSpeak right now. Please try again later.".

Definition offline_message : string :=
  "I'm sorry, my AI capabilities are currently offline. Please try again later.".

Definition backend_apology : string :=
  "I'm sorry, I'm having trouble connecting to my knowledge source right now. Please try again later.".

(** [random.choice(seq)] *)
Definition random_choice (w : world) (seq : list string) : result string :=
  match seq with
  | [] => Raise IndexError
  | _ :: _ =>
      match nth_error seq (random_draw w mod List.length seq) with
      | Some x => Ok x
      | None => Raise IndexError
      end
  end.

(** The post-processing of the reply inside [_get_ai_response]. *)
Definition unwrap_markdown (text : string) : string :=
  if startswith "```markdown" text
  then replace (nl ++ "```") "" (replace ("```markdown" ++ nl) "" text)
  else text.

Definition _get_ai_response (self : AgricultureBot) (w : world)
  (user_input : string) (context : option json) : IO string :=
  match chat self with
  | None => ret offline_message
  | Some _ =>
      let prompt := "User question: '" ++ user_input ++ "'" in
      let prompt :=
        match context with
        | Some c =>
            if truthy c
            then prompt ++ nl ++ nl ++ "Here is some relevant context:" ++ nl
                        ++ json_dumps w c
            else prompt
        | None => prompt
        end in
      try_except
        (text <- perform (SendMessage prompt) (chat_send_message w prompt) ;;
         ret (unwrap_markdown text))
        (fun _ => ret backend_apology)
  end.

(** [sum(1 for keyword in keywords if keyword in text)] *)
Definition keyword_hits (keywords : list string) (text : string) : nat :=
  List.length (filter (fun keyword => contains keyword text) keywords).

(** [max(items, key=...)]: the first item is kept until a strictly larger
    one is met. *)
Definition max_by {A : Type} (key : A -> nat) (items : list A) : option A :=
  match items with
  | [] => None
  | x :: rest =>
      Some (fold_left (fun best y => if (key best <? key y)%nat then y else best)
                      rest x)
  end.

Definition _identify_topic (self : AgricultureBot) (text : string)
  : option string :=
  let topic_scores :=
    fold_left
      (fun (topic_scores : list (string * nat)) (entry : string * list string) =>
         let score := keyword_hits (snd entry) text in
         if (0 <? score)%nat then dict_set (fst entry) score topic_scores
         else topic_scores)
      (topic_patterns self) [] in
  match max_by snd topic_scores with
  | Some best => Some (fst best)
  | None => None
  end.

Definition _process_agriculture_query (self : AgricultureBot) (w : world)
  (user_input : string) : IO string :=
  let topic := _identify_topic self user_input in
  context_info <-
    lift (match topic with
          | Some t =>
              if nonempty t then search (knowledge_base self) user_input topic
              else Ok None
          | None => Ok None
          end) ;;
  _get_ai_response self w user_input context_info.

Definition get_weather (w : world) : IO (option weather_reading) :=
  match environ w "THINGSPEAK_WEATHER_CHANNEL" with
  | None => ret None
  | Some channel_id =>
      if negb (nonempty channel_id) then ret None
      else
        let url := "https://api.thingspeak.com/channels/" ++ channel_id
                   ++ "/feeds.json?results=1" in
        try_except
          (response <- perform (HttpGet url) (requests_get w url) ;;
           data <- lift (response_json response) ;;
           feeds <- lift (json_get data "feeds" JNull) ;;
           if negb (truthy feeds) then ret None
           else
             n <- lift (json_len feeds) ;;
             if (n =? 0)%nat then ret None
             else
               latest <- lift (json_first feeds) ;;
               field1 <- lift (json_get latest "field1" JNull) ;;
               field2 <- lift (json_get latest "field2" JNull) ;;
               field3 <- lift (json_get latest "field3" (JStr "N/A")) ;;
               ret (Some {| temperature := field1;
                            humidity := field2;
                            pressure := field3 |}))
          (fun _ => ret None)
  end.

Definition weather_question (w : world) (info : weather_reading) : string :=
  "User asked about weather. Current sensor readings are: "
  ++ "Temperature: " ++ format_value w (temperature info) ++ "°C, "
  ++ "Humidity: " ++ format_value w (humidity info) ++ "%, "
  ++ "Pressure: " ++ format_value w (pressure info) ++ " hPa. "
  ++ "Explain what this means for farming.".

(** The branch of [get_response] for weather questions. *)
Definition weather_branch (self : AgricultureBot) (w : world) : IO string :=
  weather_info <- get_weather w ;;
  match weather_info with
  | Some info => _get_ai_response self w (weather_question w info) None
  | None => ret weather_apology
  end.

(** [self.topic_patterns[name]] *)
Definition patterns_getitem (self : AgricultureBot) (name : string)
  : result (list string) :=
  match dict_get name (topic_patterns self) with
  | Some keywords => Ok keywords
  | None => Raise (KeyError name)
  end.

Definition get_response (self : AgricultureBot) (w : world)
  (user_input : string) : IO string :=
  let user_input := clean_text (Some (lower user_input)) in
  if _is_greeting user_input then lift (random_choice w (greetings self))
  else if _is_goodbye user_input then ret farewell_message
  else
    weather_words <- lift (patterns_getitem self "weather") ;;
    if any_in weather_words user_input then weather_branch self w
    else _process_agriculture_query self w user_input.

End ResponseGenerator.

Export ResponseGenerator.

(* ================================================================= *)
(** ** chatbot/utils.py, the other helpers *)

Module TextTools.

(** Membership in [string.punctuation]. *)
Definition is_punctuation (c : char) : bool :=
  let n := c in
  ((33 <=? n) && (n <=? 47) || (58 <=? n) && (n <=? 64)
   || (91 <=? n) && (n <=? 96) || (123 <=? n) && (n <=? 126))%N.

(** [text.translate(str.maketrans('', '', string.punctuation))] *)
Fixpoint remove_punctuation (text : string) : string :=
  match text with
  | "" => ""
  | String c text' =>
      if is_punctuation c then remove_punctuation text'
      else String c (remove_punctuation text')
  end.

Definition agriculture_keywords : list string :=
  ["crop"; "crops"; "plant"; "plants"; "farming"; "agriculture";
   "soil"; "fertilizer"; "pest"; "pests"; "disease"; "diseases";
   "seed"; "seeds"; "harvest"; "grow"; "growing"; "cultivation";
   "weather"; "rain"; "season"; "water"; "irrigation";
   "organic"; "pesticide"; "herbicide"; "compost"].

(** [word in words] for a list of strings *)
Definition in_list (word : string) (words : list string) : bool :=
  existsb (eqb word) words.

(** [extract_keywords(text)]. The result of [list(set(keywords))] holds each
    keyword once; the order Python gives them in is not fixed, the order
    here is that of [nodup]. *)
Definition extract_keywords (text : string) : list string :=
  let words := split (clean_text (Some text)) in
  let keywords := filter (fun word => in_list word agriculture_keywords) words in
  nodup string_dec keywords.

Definition is_agriculture_related (text : string) : bool :=
  let keywords := extract_keywords text in
  (0 <? List.length keywords)%nat.

Definition emoji_map : list (string * string) :=
  [("crops", "🌱"); ("pests", "🐛"); ("soil", "🌾"); ("weather", "🌧️");
   ("seeds", "🌰"); ("harvest", "📦"); ("water", "💧"); ("organic", "🌿")].

(** [format_response_with_emojis(text, topic=None)] *)
Definition format_response_with_emojis (text : string) (topic : option string)
  : string :=
  let known :=
    match topic with
    | Some t => if nonempty t then dict_get t emoji_map else None
    | None => None
    end in
  match known with
  | Some emoji => emoji ++ " " ++ text
  | None =>
      let text_lower := lower text in
      match find (fun item : string * string => contains (fst item) text_lower)
                 emoji_map with
      | Some item => snd item ++ " " ++ text
      | None => "🌾 " ++ text
      end
  end.

(** The decimal text of an integer inside an f-string. *)
Fixpoint digits (d : Decimal.uint) : string :=
  match d with
  | Decimal.Nil => ""
  | Decimal.D0 d' => String 48%N (digits d')
  | Decimal.D1 d' => String 49%N (digits d')
  | Decimal.D2 d' => String 50%N (digits d')
  | Decimal.D3 d' => String 51%N (digits d')
  | Decimal.D4 d' => String 52%N (digits d')
  | Decimal.D5 d' => String 53%N (digits d')
  | Decimal.D6 d' => String 54%N (digits d')
  | Decimal.D7 d' => String 55%N (digits d')
  | Decimal.D8 d' => String 56%N (digits d')
  | Decimal.D9 d' => String 57%N (digits d')
  end.

Definition format_int (n : Z) : string :=
  match Z.to_int n with
  | Decimal.Pos Decimal.Nil => "0"
  | Decimal.Pos d => digits d
  | Decimal.Neg d => "-" ++ digits d
  end.

(** [validate_input(text, max_length)]; [None] is Python's [None]. *)
Definition validate_input (text : option string) (max_length : Z)
  : bool * string :=
  match text with
  | None => (false, "Please enter a message")
  | Some t =>
      if negb (nonempty t) || negb (nonempty (strip t))
      then (false, "Please enter a message")
      else if (max_length <? Z.of_nat (len t))%Z
      then (false,
            "Message too long. Please keep it under " ++ format_int max_length
            ++ " characters")
      else
        let inappropriate_words := ["spam"; "hack"; "virus"] in
        if any_in inappropriate_words (lower t)
        then (false, "Please keep the conversation focused on agriculture")
        else (true, "Valid input")
  end.

Definition crop_seasons : list (string * string) :=
  [("rice", "Monsoon (June-October)");
   ("wheat", "Winter (November-April)");
   ("corn", "Summer (April-August)");
   ("tomato", "Summer (March-June)");
   ("potato", "Winter (October-February)");
   ("onion", "Winter (November-March)");
   ("cotton", "Summer (April-September)");
   ("sugarcane", "Year-round (plant February-March)");
   ("soybean", "Monsoon (June-September)");
   ("mustard", "Winter (October-January)")].

(** [get_crop_season_info(crop_name)] *)
Definition get_crop_season_info (crop_name : string) : string :=
  match dict_get (lower crop_name) crop_seasons with
  | Some season => season
  | None => "Season information not available"
  end.

End TextTools.

Export TextTools.

(* ================================================================= *)
(** ** app.py *)

Module App.

(** The two POST handlers. [request_json] is what [request.get_json()]
    gives (a value, [JNull] for Python's [None], or an exception),
    [describe] is [str(e)] and [timestamp] what [get_timestamp()] returns
    when it is called; a handler returns the JSON body and the status. *)
Section Handlers.

Variable describe : exn -> string.
Variable timestamp : string.

(** [data.get('message', '').strip()] *)
Definition user_message_of (data : json) : result string :=
  match json_get data "message" (JStr "") with
  | Ok (JStr message) => Ok (strip message)
  | Ok _ => Raise (AttributeError "strip")
  | Raise e => Raise e
  end.

Definition error_reply (e : exn) : json * nat :=
  (JObj [("error", JStr ("An error occurred: " ++ describe e));
         ("status", JStr "error")],
   500).

Definition chat (agri_bot : AgricultureBot) (w : world)
  (request_json : result json) : IO (json * nat) :=
  try_except
    (data <- lift request_json ;;
     user_message <- lift (user_message_of data) ;;
     if negb (nonempty user_message)
     then ret (JObj [("error", JStr "Empty message")], 400)
     else
       bot_response <- get_response agri_bot w user_message ;;
       ret (JObj [("response", JStr bot_response);
                  ("status", JStr "success")],
            200))
    (fun e => ret (error_reply e)).

Definition api_chat (agri_bot : AgricultureBot) (w : world)
  (request_json : result json) : IO (json * nat) :=
  try_except
    (data <- lift request_json ;;
     user_message <- lift (user_message_of data) ;;
     if negb (nonempty user_message)
     then ret (JObj [("error", JStr "Empty message")], 400)
     else
       bot_response <- get_response agri_bot w user_message ;;
       ret (JObj [("response", JStr bot_response);
                  ("timestamp", JStr timestamp);
                  ("status", JStr "success")],
            200))
    (fun e => ret (error_reply e)).

End Handlers.

End App.

(* ================================================================= *)
(** ** Vocabulary of the specification *)

(** [p] occurs in [t] as a substring. *)
Definition occurs_in (p t : string) : Prop :=
  exists a b, t = a ++ p ++ b.

(** Some phrase of the list occurs in the text. *)
Definition mentions (phrases : list string) (text : string) : Prop :=
  exists p, In p phrases /\ occurs_in p text.

(** The three shapes the normalizer's output avoids, as checks on a string:
    a whitespace character in front, one at the end, and a whitespace
    character other than a single space or next to another one ([prev_ws]
    tells whether the character before the string is whitespace). *)
Definition head_ok (s : string) : bool :=
  match s with
  | "" => true
  | String c _ => negb (isspace c)
  end.

Fixpoint last_ok (s : string) : bool :=
  match s with
  | "" => true
  | String c "" => negb (isspace c)
  | String _ s' => last_ok s'
  end.

Fixpoint tidy (prev_ws : bool) (s : string) : bool :=
  match s with
  | "" => true
  | String c s' =>
      if isspace c then negb prev_ws && (c =? space)%N && tidy true s'
      else tidy false s'
  end.

(** [r] is the first item of [items] with the largest score, provided that
    score is positive; [None] when every item scores zero. *)
Inductive first_best {A : Type} (score : A -> nat) (items : list A)
  : option A -> Prop :=
| first_best_none :
    (forall x, In x items -> score x = 0) ->
    first_best score items None
| first_best_some (before : list A) (x : A) (after : list A) :
    items = (before ++ x :: after)%list ->
    0 < score x ->
    (forall y, In y before -> score y < score x) ->
    (forall y, In y after -> score y <= score x) ->
    first_best score items (Some x).

(** The loop both searches share, over any items: keep the current best
    item and its score, replace it only by a strictly larger score. *)
Section Scan.

Context {A : Type} (score : A -> nat).

Definition scan_step (state : option A * nat) (x : A) : option A * nat :=
  if (snd state <? score x)%nat then (Some x, score x) else state.

Definition scan (items : list A) : option A * nat :=
  fold_left scan_step items (None, 0).

Definition scan_result (state : option A * nat) : option A :=
  if (0 <? snd state)%nat then fst state else None.

(** What the loop has established once the items [seen] are behind it. *)
Definition scan_inv (seen : list A) (state : option A * nat) : Prop :=
  match state with
  | (None, highest) =>
      highest = 0 /\ forall x, In x seen -> score x = 0
  | (Some x, highest) =>
      highest = score x /\ 0 < score x /\
      exists before after,
        seen = (before ++ x :: after)%list /\
        (forall y, In y before -> score y < score x) /\
        (forall y, In y after -> score y <= score x)
  end.

End Scan.

(** The string begins, or ends, with a whitespace character or is empty:
    what stands next to a word. *)
Definition starts_blank (s : string) : bool :=
  match s with
  | "" => true
  | String c _ => isspace c
  end.

Fixpoint ends_blank (s : string) : bool :=
  match s with
  | "" => true
  | String c "" => isspace c
  | String _ s' => ends_blank s'
  end.

(** Every character of the string is whitespace (so is the empty string). *)
Fixpoint blank (s : string) : bool :=
  match s with
  | "" => true
  | String c s' => isspace c && blank s'
  end.

(** No character of the string is whitespace. *)
Fixpoint solid (s : string) : bool :=
  match s with
  | "" => true
  | String c s' => negb (isspace c) && solid s'
  end.

(** [word] is a whitespace-delimited word of [s]: a non-empty piece of [s]
    without whitespace, with whitespace or an end of [s] on either side. *)
Definition is_word (word s : string) : Prop :=
  nonempty word = true /\ solid word = true /\
  exists a b, s = a ++ word ++ b /\ ends_blank a = true /\ starts_blank b = true.

(** Some whitespace-delimited word of the query is a substring of the
    lowercased content. *)
Definition word_occurs (query content : string) : Prop :=
  exists word, is_word word query /\ occurs_in word (lower content).

(** The relevance score in the words of the specification: [points] are
    awarded when the condition holds, none otherwise; an object collects
    one point for each field whose value is a string in which a query
    word occurs; the key is worth two points, a bare string entry one. *)
Inductive awards (condition : Prop) (points : nat) : nat -> Prop :=
| awarded : condition -> awards condition points points
| not_awarded : ~ condition -> awards condition points 0.

Inductive field_points (query : string)
  : list (string * json) -> nat -> Prop :=
| field_points_nil : field_points query [] 0
| field_points_string (field content : string) (rest : list (string * json))
    (p n : nat) :
    awards (word_occurs query content) 1 p ->
    field_points query rest n ->
    field_points query ((field, JStr content) :: rest) (p + n)
| field_points_other (field : string) (value : json)
    (rest : list (string * json)) (n : nat) :
    (forall content, value <> JStr content) ->
    field_points query rest n ->
    field_points query ((field, value) :: rest) n.

Inductive relevance_spec (query key : string) : json -> nat -> Prop :=
| relevance_object (fields : list (string * json)) (k n : nat) :
    awards (word_occurs query key) 2 k ->
    field_points query fields n ->
    relevance_spec query key (JObj fields) (k + n)
| relevance_string (content : string) (k n : nat) :
    awards (word_occurs query key) 2 k ->
    awards (word_occurs query content) 1 n ->
    relevance_spec query key (JStr content) (k + n)
| relevance_other (value : json) (k : nat) :
    (forall fields, value <> JObj fields) ->
    (forall content, value <> JStr content) ->
    awards (word_occurs query key) 2 k ->
    relevance_spec query key value k.

(** The score the code gives an entry of the store, key and value
    together. *)
Definition entry_score (query_lower : string) (item : string * json) : nat :=
  _calculate_relevance query_lower (fst item) (snd item).

(** The entries of a value of the store, and of all topics in order. *)
Definition fields_of (value : json) : list (string * json) :=
  match value with
  | JObj fields => fields
  | _ => []
  end.

Definition all_entries (store : knowledge) : list (string * json) :=
  List.concat (map (fun topic : string * json => fields_of (snd topic)) store).

(** Every topic of the store holds an object. *)
Definition objects (store : knowledge) : Prop :=
  forall name value, In (name, value) store -> exists fields, value = JObj fields.

(** The crops file is absent, cannot be read, or holds a JSON object. *)
Definition well_formed (fs : filesystem) : Prop :=
  crops_file_exists fs = false
  \/ (exists e, crops_file_load fs = Raise e)
  \/ (exists fields, crops_file_load fs = Ok (JObj fields)).

(** The number of keywords of a topic of the pattern table that occur in
    the text. *)
Definition topic_hits (text : string) (entry : string * list string) : nat :=
  keyword_hits (snd entry) text.

(** The number of messages sent to the generation service in a log. *)
Fixpoint backend_calls (log : io_log) : nat :=
  match log with
  | [] => 0
  | SendMessage _ :: log' => S (backend_calls log')
  | HttpGet _ :: log' => backend_calls log'
  end.

(** The character [c] does not occur in [s]. *)
Fixpoint free_of (c : char) (s : string) : bool :=
  match s with
  | "" => true
  | String x s' => negb (x =? c)%N && free_of c s'
  end.

(** A reply wrapped in a fence tagged markdown. *)
Definition fenced (body : string) : string :=
  "```markdown" ++ nl ++ body ++ nl ++ "```".

(** The entry [topic_scores] holds for a topic, whether the topic gets an
    entry at all, and the comparison [max] makes between two entries. *)
Definition scored_topic (text : string) (entry : string * list string)
  : string * nat :=
  (fst entry, topic_hits text entry).

Definition positive_topic (text : string) (entry : string * list string)
  : bool :=
  (0 <? topic_hits text entry)%nat.

Definition keep_larger (best y : string * nat) : string * nat :=
  if (snd best <? snd y)%nat then y else best.


(** No character of the string is a punctuation mark. *)
Fixpoint plain (s : string) : bool :=
  match s with
  | "" => true
  | String c s' => negb (is_punctuation c) && plain s'
  end.

(** The value [search] looks into: that of the topic when it is a
    non-empty key of the store, otherwise every topic's. *)
Definition searched_topic (store : knowledge) (topic : option string)
  : option json :=
  match topic with
  | Some t => if nonempty t then dict_get t store else None
  | None => None
  end.

(** The entries [search] goes through: the fields of the value it looks
    into, or the entries of all topics in order. *)
Definition searched_items (store : knowledge) (topic : option string)
  : list (string * json) :=
  match searched_topic store topic with
  | Some value => fields_of value
  | None => all_entries store
  end.


(** The address [get_weather] asks for a channel. *)
Definition feed_url (channel_id : string) : string :=
  "https://api.thingspeak.com/channels/" ++ channel_id
  ++ "/feeds.json?results=1".

(** A character lowercasing leaves alone, and a string made of such. *)
Definition settled (c : char) : bool :=
  match lookup_lower c lower_table with
  | None => true
  | Some _ => false
  end.

Fixpoint all_settled (s : string) : bool :=
  match s with
  | "" => true
  | String c s' => settled c && all_settled s'
  end.

(** The checks made on the Unicode data: what a character of the table
    becomes is settled, is not empty and holds no whitespace, as the
    character itself is none; a whitespace character is settled, neither
    cased nor case-ignorable. *)
Definition lower_entry_ok (entry : char * list char) : bool :=
  negb (isspace (fst entry))
  && match snd entry with [] => false | _ :: _ => true end
  && forallb (fun d => settled d && negb (isspace d)) (snd entry).

Definition whitespace_ok (c : char) : bool :=
  settled c && negb (case_ignorable c) && negb (cased c).

(** The phrase lists and the greeting templates as the specification
    gives them. *)
Definition greeting_phrases : list string :=
  ["hello"; "hi"; "hey"; "good morning"; "good afternoon"; "good evening"].

Definition farewell_phrases : list string :=
  ["bye"; "goodbye"; "see you"; "thanks"; "thank you"; "exit"; "quit"].

Definition weather_keywords : list string :=
  ["weather"; "rain"; "season"; "climate"; "temperature"; "humidity";
   "pressure"; "forecast"].

Definition greeting_templates : list string :=
  ["Hello! I'm your Agriculture Assistant. How can I help you with farming today?";
   "Hi there! I'm here to help with all your agriculture and farming questions.";
   "Welcome! Ask me anything about crops, cultivation, pests, or farming techniques."].

(** The topics of the pattern table in the order they are defined. *)
Definition topic_order : list string :=
  ["crops"; "pests"; "soil"; "weather"; "seeds"; "harvest"].

(** The keys of the knowledge store. *)
Definition store_topics : list string :=
  ["crops"; "pests"; "soil"; "weather"; "general"].

(* ================================================================= *)
(** ** Concrete worlds *)

Module Samples.

(** Nothing is configured and no service answers. *)
Definition bare_world : world :=
  {| environ := fun _ => None;
     files := {| crops_file_exists := false; crops_file_load := Raise OSError |};
     genai_configure := fun _ => Ok tt;
     genai_GenerativeModel := fun _ => Ok tt;
     genai_start_chat := fun _ _ => Ok tt;
     requests_get := fun _ _ => Raise RequestException;
     chat_send_message := fun _ _ => Raise BackendError;
     random_draw := 4;
     json_dumps := fun _ => "{}";
     format_value := fun _ => "?" |}.

(** Credential and channel are set, the crops file cannot be read, the
    feed has one reading and the generation service answers. *)
Definition live_world : world :=
  {| environ := fun name =>
       if (name =? "GOOGLE_API_KEY") then Some "key"
       else if (name =? "THINGSPEAK_WEATHER_CHANNEL") then Some "2598"
       else None;
     files := {| crops_file_exists := true; crops_file_load := Raise OSError |};
     genai_configure := fun _ => Ok tt;
     genai_GenerativeModel := fun _ => Ok tt;
     genai_start_chat := fun _ _ => Ok tt;
     requests_get := fun _ _ =>
       Ok {| response_json :=
               Ok (JObj [("feeds",
                          JArr [JObj [("field1", JStr "27.5");
                                      ("field2", JStr "61")]])]) |};
     chat_send_message := fun _ _ =>
       Ok ("```markdown" ++ nl ++ "**Rice** grows..." ++ nl ++ "```");
     random_draw := 1;
     json_dumps := fun _ => "{}";
     format_value := fun v => match v with JStr s => s | _ => "None" end |}.

(** Everything is configured but both services fail. *)
Definition failing_world : world :=
  {| environ := environ live_world;
     files := files live_world;
     genai_configure := fun _ => Ok tt;
     genai_GenerativeModel := fun _ => Ok tt;
     genai_start_chat := fun _ _ => Ok tt;
     requests_get := fun _ _ => Raise RequestException;
     chat_send_message := fun _ _ => Raise BackendError;
     random_draw := 2;
     json_dumps := fun _ => "{}";
     format_value := format_value live_world |}.

(** Nothing is configured, and the crops file holds a JSON list. *)
Definition list_world : world :=
  {| environ := fun _ => None;
     files := {| crops_file_exists := true;
                 crops_file_load := Ok (JArr [JStr "rice"; JStr "wheat"]) |};
     genai_configure := fun _ => Ok tt;
     genai_GenerativeModel := fun _ => Ok tt;
     genai_start_chat := fun _ _ => Ok tt;
     requests_get := fun _ _ => Raise RequestException;
     chat_send_message := fun _ _ => Raise BackendError;
     random_draw := 0;
     json_dumps := fun _ => "{}";
     format_value := fun _ => "?" |}.

(** The crops file holds one entry with an accented key. *)
Definition accent_world : world :=
  {| environ := fun _ => None;
     files := {| crops_file_exists := true;
                 crops_file_load := Ok (JObj [("Été", JStr "x")]) |};
     genai_configure := fun _ => Ok tt;
     genai_GenerativeModel := fun _ => Ok tt;
     genai_start_chat := fun _ _ => Ok tt;
     requests_get := fun _ _ => Raise RequestException;
     chat_send_message := fun _ _ => Raise BackendError;
     random_draw := 0;
     json_dumps := fun _ => "{}";
     format_value := fun _ => "?" |}.

End Samples.

(* ================================================================= *)
(** ** Strings *)

Section StringFacts.

Lemma append_nil_r (s : string) : s ++ "" = s.
Proof. induction s as [|c s IH]; simpl; [reflexivity | now rewrite IH]. Qed.

Lemma append_assoc (a b c : string) : (a ++ b) ++ c = a ++ (b ++ c).
Proof. induction a as [|x a IH]; simpl; [reflexivity | now rewrite IH]. Qed.

Lemma startswith_spec (p t : string) :
  startswith p t = true <-> exists r, t = p ++ r.
Proof.
  revert t; induction p as [|a p IH]; intros t; simpl.
  - split; [intros _; now exists t | reflexivity].
  - destruct t as [|b t].
    + split; [discriminate | intros [r H]; discriminate].
    + rewrite andb_true_iff, N.eqb_eq, IH. split.
      * intros [-> [r ->]]. now exists r.
      * intros [r H]. injection H as -> ->. split; [reflexivity | now exists r].
Qed.

Lemma contains_spec (p t : string) :
  contains p t = true <-> occurs_in p t.
Proof.
  unfold occurs_in. induction t as [|c t IH].
  - simpl. rewrite orb_false_r, startswith_spec. split.
    + intros [r H]. exists "", r. exact H.
    + intros [a [b H]]. destruct a; [now exists b | discriminate].
  - cbn [contains]. rewrite orb_true_iff, startswith_spec, IH. split.
    + intros [[r H] | [a [b H]]].
      * exists "", r. exact H.
      * exists (String c a), b. simpl. now rewrite H.
    + intros [[|x a] [b H]].
      * left. now exists b.
      * right. simpl in H. injection H as _ H. now exists a, b.
Qed.

Lemma any_in_spec (phrases : list string) (text : string) :
  any_in phrases text = true <-> mentions phrases text.
Proof.
  unfold any_in, mentions. rewrite existsb_exists.
  split; intros [p [Hin H]]; exists p; split; trivial;
    now apply contains_spec.
Qed.

Lemma any_in_false (phrases : list string) (text : string) :
  any_in phrases text = false <-> ~ mentions phrases text.
Proof.
  rewrite <- any_in_spec. destruct (any_in phrases text); split;
    congruence.
Qed.

(** *** Lowercasing *)

Lemma lookup_lower_in (c : char) (table : list (char * list char))
  (l : list char) :
  lookup_lower c table = Some l -> In (c, l) table.
Proof.
  induction table as [|[k v] table IH]; cbn; [discriminate|].
  destruct (N.eqb_spec k c) as [->|_].
  - intros E. injection E as ->. now left.
  - intros H. right. now apply IH.
Qed.

Lemma lower_table_ok : forallb lower_entry_ok lower_table = true.
Proof. vm_compute. reflexivity. Qed.

Lemma whitespace_chars_ok : forallb whitespace_ok whitespace_chars = true.
Proof. vm_compute. reflexivity. Qed.

Lemma isspace_ok (c : char) : isspace c = true -> whitespace_ok c = true.
Proof.
  unfold isspace. intros H. apply existsb_exists in H.
  destruct H as [w [Hin E]]. apply N.eqb_eq in E. subst w.
  exact (proj1 (forallb_forall _ _) whitespace_chars_ok c Hin).
Qed.

Lemma isspace_settled (c : char) : isspace c = true -> settled c = true.
Proof.
  intros H. apply isspace_ok in H. unfold whitespace_ok in H.
  now apply andb_true_iff in H as [H _]; apply andb_true_iff in H as [H _].
Qed.

Lemma isspace_not_ignorable (c : char) :
  isspace c = true -> case_ignorable c = false.
Proof.
  intros H. apply isspace_ok in H. unfold whitespace_ok in H.
  apply andb_true_iff in H as [H _]. apply andb_true_iff in H as [_ H].
  now apply negb_true_iff.
Qed.

Lemma isspace_not_cased (c : char) : isspace c = true -> cased c = false.
Proof.
  intros H. apply isspace_ok in H. unfold whitespace_ok in H.
  apply andb_true_iff in H as [_ H]. now apply negb_true_iff.
Qed.

Lemma settled_lower_char (c : char) :
  settled c = true -> lower_char c = String c "".
Proof.
  unfold settled, lower_char. now destruct (lookup_lower c lower_table).
Qed.

Lemma settled_not_sigma (c : char) :
  settled c = true -> (c =? capital_sigma)%N = false.
Proof.
  intros H. destruct (N.eqb_spec c capital_sigma) as [->|_]; [|reflexivity].
  vm_compute in H. discriminate.
Qed.

Lemma chars_ok (l : list char) :
  forallb (fun d => settled d && negb (isspace d)) l = true ->
  all_settled (chars l) = true /\ solid (chars l) = true.
Proof.
  induction l as [|d l IH]; cbn [forallb chars all_settled solid];
    [now split|].
  intros H. apply andb_true_iff in H as [Hd H].
  apply andb_true_iff in Hd as [-> ->]. now apply IH.
Qed.

(** What one character becomes: settled characters, not none, and without
    whitespace unless the character is a whitespace character, which
    stays as it is. *)
Lemma lower_char_cases (c : char) :
  (isspace c = true /\ lower_char c = String c "")
  \/ (isspace c = false /\ all_settled (lower_char c) = true
      /\ solid (lower_char c) = true /\ nonempty (lower_char c) = true).
Proof.
  destruct (isspace c) eqn:E.
  - left. split; [reflexivity|]. now apply settled_lower_char, isspace_settled.
  - right. split; [reflexivity|]. unfold lower_char.
    destruct (lookup_lower c lower_table) as [l|] eqn:El.
    + apply lookup_lower_in in El.
      pose proof (proj1 (forallb_forall _ _) lower_table_ok _ El) as H.
      unfold lower_entry_ok in H. cbn [fst snd] in H.
      apply andb_true_iff in H as [H Hall]. apply andb_true_iff in H as [_ Hne].
      destruct (chars_ok l Hall) as [H1 H2]. repeat split; trivial.
      destruct l; [discriminate | reflexivity].
    + cbn [all_settled solid nonempty]. unfold settled. rewrite El, E.
      now repeat split.
Qed.

Lemma all_settled_append (a b : string) :
  all_settled (a ++ b) = all_settled a && all_settled b.
Proof.
  induction a as [|c a IH]; cbn [append all_settled]; [reflexivity|].
  now rewrite IH, andb_assoc.
Qed.

Lemma lower_char_settled (c : char) :
  (c =? capital_sigma)%N = false -> all_settled (lower_char c) = true.
Proof.
  intros _. destruct (lower_char_cases c) as [[E ->] | (_ & H & _)];
    [|exact H].
  cbn [all_settled]. now rewrite (isspace_settled c E).
Qed.

Lemma lower_from_all_settled (s : string) (b : bool) :
  all_settled (lower_from b s) = true.
Proof.
  revert b; induction s as [|c s IH]; intros b; [reflexivity|].
  cbn [lower_from]. rewrite all_settled_append, IH, andb_true_r.
  destruct (c =? capital_sigma)%N eqn:E; [|now apply lower_char_settled].
  now destruct (b && negb (cased_next s)).
Qed.

Lemma lower_from_settled (s : string) (b : bool) :
  all_settled s = true -> lower_from b s = s.
Proof.
  revert b; induction s as [|c s IH]; intros b; [reflexivity|].
  cbn [all_settled lower_from]. intros H. apply andb_true_iff in H as [Hc H].
  rewrite (settled_not_sigma c Hc), (settled_lower_char c Hc), (IH _ H).
  reflexivity.
Qed.

Lemma lower_idem (s : string) : lower (lower s) = lower s.
Proof. apply lower_from_settled, lower_from_all_settled. Qed.

Lemma sub_ws_settled (s : string) (b : bool) :
  all_settled s = true -> all_settled (sub_ws b s) = true.
Proof.
  revert b; induction s as [|c s IH]; intros b; [reflexivity|].
  cbn [all_settled sub_ws]. intros H. apply andb_true_iff in H as [Hc H].
  destruct (isspace c); [destruct b|]; cbn [all_settled];
    rewrite ?Hc, ?IH; trivial.
Qed.

Lemma lstrip_settled (s : string) :
  all_settled s = true -> all_settled (lstrip s) = true.
Proof.
  induction s as [|c s IH]; [reflexivity|]. cbn [all_settled lstrip].
  intros H. destruct (isspace c); [|exact H].
  apply andb_true_iff in H as [_ H]. now apply IH.
Qed.

Lemma rstrip_settled (s : string) :
  all_settled s = true -> all_settled (rstrip s) = true.
Proof.
  induction s as [|c s IH]; [reflexivity|]. cbn [all_settled rstrip].
  intros H. apply andb_true_iff in H as [Hc H]. specialize (IH H).
  destruct (rstrip s) as [|d r].
  - destruct (isspace c); cbn [all_settled]; now rewrite ?Hc.
  - change (all_settled (String c (String d r)))
      with (settled c && all_settled (String d r)).
    now rewrite Hc, IH.
Qed.

Lemma tidy_sub_ws (s : string) (b : bool) : tidy b (sub_ws b s) = true.
Proof.
  revert b; induction s as [|c s IH]; intros b; simpl; [reflexivity|].
  destruct (isspace c) eqn:E.
  - destruct b; [apply IH|]. simpl. apply IH.
  - simpl. rewrite E. apply IH.
Qed.

Lemma tidy_weaken (s : string) : tidy true s = true -> tidy false s = true.
Proof.
  destruct s as [|c s]; simpl; [trivial|].
  destruct (isspace c); [discriminate | trivial].
Qed.

Lemma sub_ws_tidy (s : string) (b : bool) : tidy b s = true -> sub_ws b s = s.
Proof.
  revert b; induction s as [|c s IH]; intros b; simpl; [reflexivity|].
  destruct (isspace c).
  - rewrite !andb_true_iff, negb_true_iff, N.eqb_eq.
    intros [[-> ->] H]. now rewrite (IH true H).
  - intros H. now rewrite (IH false H).
Qed.

Lemma tidy_lstrip (s : string) (b : bool) :
  tidy b s = true -> tidy false (lstrip s) = true.
Proof.
  revert b; induction s as [|c s IH]; intros b; [reflexivity|].
  cbn [tidy lstrip]. destruct (isspace c) eqn:E.
  - rewrite !andb_true_iff. intros [_ H]. now apply (IH true).
  - intros H. simpl. now rewrite E.
Qed.

Lemma tidy_rstrip (s : string) (b : bool) :
  tidy b s = true -> tidy b (rstrip s) = true.
Proof.
  revert b; induction s as [|c s IH]; intros b; [reflexivity|].
  cbn [tidy rstrip]. destruct (isspace c) eqn:E.
  - rewrite !andb_true_iff. intros [[Hb Hc] H].
    specialize (IH true H). destruct (rstrip s) as [|d r]; [reflexivity|].
    cbn [tidy]. rewrite E, Hb, Hc. exact IH.
  - intros H. specialize (IH false H).
    destruct (rstrip s) as [|d r]; cbn [tidy]; rewrite E; [reflexivity|].
    exact IH.
Qed.

Lemma tidy_no_run (a : string) (c1 c2 : char) (r : string) (b : bool) :
  tidy b (a ++ String c1 (String c2 r)) = true ->
  isspace c1 = true -> isspace c2 = false.
Proof.
  revert b; induction a as [|x a IH]; intros b; simpl.
  - intros H E1. rewrite E1 in H. destruct (isspace c2); [|reflexivity].
    rewrite !andb_true_iff in H. destruct H as [_ H]. discriminate.
  - destruct (isspace x).
    + rewrite !andb_true_iff. intros [_ H]. now apply (IH true).
    + apply IH.
Qed.

Lemma head_ok_lstrip (s : string) : head_ok (lstrip s) = true.
Proof.
  induction s as [|c s IH]; simpl; [reflexivity|].
  destruct (isspace c) eqn:E; [exact IH | simpl; now rewrite E].
Qed.

Lemma head_ok_rstrip (s : string) :
  head_ok s = true -> head_ok (rstrip s) = true.
Proof.
  destruct s as [|c s]; [trivial|]. cbn [head_ok rstrip]. intros H.
  destruct (rstrip s); cbn [head_ok]; [|exact H].
  destruct (isspace c) eqn:E; [discriminate|]. cbn [head_ok]. now rewrite E.
Qed.

Lemma lstrip_fixed (s : string) : head_ok s = true -> lstrip s = s.
Proof.
  destruct s as [|c s]; simpl; [trivial|].
  now destruct (isspace c).
Qed.

Lemma last_ok_rstrip (s : string) : last_ok (rstrip s) = true.
Proof.
  induction s as [|c s IH]; [reflexivity|]. cbn [rstrip].
  destruct (rstrip s) as [|d r].
  - destruct (isspace c) eqn:E; simpl; [reflexivity | now rewrite E].
  - exact IH.
Qed.

Lemma rstrip_fixed (s : string) : last_ok s = true -> rstrip s = s.
Proof.
  induction s as [|c s IH]; [reflexivity|]. cbn [rstrip].
  destruct s as [|d s].
  - simpl. now destruct (isspace c).
  - intros H. change (last_ok (String d s) = true) in H.
    now rewrite (IH H).
Qed.

Lemma last_ok_end (r : string) (c : char) :
  last_ok (r ++ String c "") = true -> isspace c = false.
Proof.
  induction r as [|x r IH]; simpl.
  - now destruct (isspace c).
  - destruct (r ++ String c "") eqn:E; [destruct r; discriminate|].
    exact IH.
Qed.

End StringFacts.

(* ================================================================= *)
(** ** The normalizer *)

Section Normalizer.

Lemma clean_text_shape (x : option string) :
  let y := clean_text x in
  head_ok y = true /\ last_ok y = true /\ tidy false y = true /\ lower y = y.
Proof.
  destruct x as [t|]; simpl; [|now repeat split].
  destruct (nonempty t); simpl; [|now repeat split].
  unfold strip, re_sub_whitespace. repeat split.
  - apply head_ok_rstrip, head_ok_lstrip.
  - apply last_ok_rstrip.
  - apply tidy_rstrip, (tidy_lstrip _ false), tidy_sub_ws.
  - apply lower_from_settled, rstrip_settled, lstrip_settled, sub_ws_settled,
      lower_from_all_settled.
Qed.

(** C9. For every input (a string or [None]) the output of [clean_text]
    has no whitespace character in front or at the end and no two
    whitespace characters in a row; cleaning the output again changes
    nothing; [None] and the empty string give the empty string. *)
Theorem C9_clean_text_normal_form (x : option string) :
  let y := clean_text x in
  (forall c r, y = String c r -> isspace c = false) /\
  (forall r c, y = r ++ String c "" -> isspace c = false) /\
  (forall a c1 c2 b,
      y = a ++ String c1 (String c2 b) ->
      isspace c1 = true -> isspace c2 = false) /\
  clean_text (Some y) = y /\
  clean_text None = "" /\
  clean_text (Some "") = "".
Proof.
  intros y. destruct (clean_text_shape x) as (Hh & Hl & Ht & Hlow).
  fold y in Hh, Hl, Ht, Hlow. repeat split.
  - intros c r E. rewrite E in Hh. simpl in Hh.
    now apply negb_true_iff.
  - intros r c E. rewrite E in Hl. now apply last_ok_end with r.
  - intros a c1 c2 b E. rewrite E in Ht. now apply tidy_no_run with a b false.
  - unfold clean_text at 1. destruct (nonempty y) eqn:Ey; simpl.
    + unfold strip, re_sub_whitespace.
      rewrite Hlow, (sub_ws_tidy _ _ Ht), (lstrip_fixed _ Hh).
      now apply rstrip_fixed.
    + now destruct y.
Qed.

Lemma C9_clean_text_normal_form_witness :
  clean_text (Some ("  Crop   ROTATION" ++ nl ++ " tips ")) = "crop rotation tips"
  /\ isspace 99%N = false /\ isspace 115%N = false /\ isspace 114%N = false.
Proof.
  pose proof (C9_clean_text_normal_form
                (Some ("  Crop   ROTATION" ++ nl ++ " tips "))) as H.
  cbv zeta in H. destruct H as (H1 & H2 & H3 & _).
  split; [vm_compute; reflexivity|]. split; [|split].
  - apply (H1 99%N "rop rotation tips"). vm_compute. reflexivity.
  - apply (H2 "crop rotation tip" 115%N). vm_compute. reflexivity.
  - apply (H3 "crop" space 114%N "otation tips"); vm_compute; reflexivity.
Defined.

End Normalizer.

(* ================================================================= *)
(** ** The router *)

Section Router.

Lemma get_response_cases (self : AgricultureBot) (w : world)
  (user_input : string) (log : io_log) :
  get_response self w user_input log =
  let text := clean_text (Some (lower user_input)) in
  if _is_greeting text then (random_choice w (greetings self), log)
  else if _is_goodbye text then (Ok farewell_message, log)
  else
    match patterns_getitem self "weather" with
    | Ok weather_words =>
        if any_in weather_words text then weather_branch self w log
        else _process_agriculture_query self w text log
    | Raise e => (Raise e, log)
    end.
Proof.
  unfold get_response. cbv zeta.
  destruct (_is_greeting _); [reflexivity|].
  destruct (_is_goodbye _); [reflexivity|].
  unfold bind, lift.
  destruct (patterns_getitem self "weather") as [weather_words|e];
    [|reflexivity].
  now destruct (any_in weather_words _).
Qed.

Lemma random_choice_greeting (w : world) :
  exists g, In g greeting_templates
            /\ random_choice w (greetings (__init__ w)) = Ok g.
Proof.
  change (greetings (__init__ w)) with greeting_templates.
  unfold random_choice, greeting_templates at 2.
  destruct (nth_error _ _) as [g|] eqn:E.
  - exists g. split; [|reflexivity]. now apply nth_error_In in E.
  - apply nth_error_None in E.
    change (List.length greeting_templates) with 3 in E.
    pose proof (Nat.mod_upper_bound (random_draw w) 3). lia.
Qed.

(** The dispatch of a bot built by [__init__], on the three tests. *)
Lemma get_response_dispatch (w : world) (user_input : string) (log : io_log) :
  let self := __init__ w in
  let text := clean_text (Some (lower user_input)) in
  get_response self w user_input log =
  if any_in greeting_phrases text then (random_choice w (greetings self), log)
  else if any_in farewell_phrases text then (Ok farewell_message, log)
  else if any_in weather_keywords text then weather_branch self w log
  else _process_agriculture_query self w text log.
Proof.
  intros self text. rewrite get_response_cases. reflexivity.
Qed.

(** C1. [get_response] looks at the normalized text in a fixed order: a
    greeting phrase in it gives one of the three greeting templates;
    otherwise a farewell phrase gives the farewell string; otherwise a
    weather keyword leads to the weather branch; otherwise the text goes
    to topic classification. The first match wins: "hi, how do I grow
    rice" is greeted although the classifier would label it crops. *)
Theorem C1_dispatch_priority (w : world) (user_input : string) (log : io_log) :
  let self := __init__ w in
  let text := clean_text (Some (lower user_input)) in
  (mentions greeting_phrases text ->
   exists g, In g greeting_templates
             /\ get_response self w user_input log = (Ok g, log)) /\
  (~ mentions greeting_phrases text ->
   mentions farewell_phrases text ->
   get_response self w user_input log = (Ok farewell_message, log)) /\
  (~ mentions greeting_phrases text ->
   ~ mentions farewell_phrases text ->
   mentions weather_keywords text ->
   get_response self w user_input log = weather_branch self w log) /\
  (~ mentions greeting_phrases text ->
   ~ mentions farewell_phrases text ->
   ~ mentions weather_keywords text ->
   get_response self w user_input log
   = _process_agriculture_query self w text log) /\
  (_identify_topic self (clean_text (Some (lower "hi, how do I grow rice")))
   = Some "crops" /\
   exists g, In g greeting_templates
             /\ get_response self w "hi, how do I grow rice" log = (Ok g, log)).
Proof.
  intros self text.
  assert (Hcases := get_response_dispatch w user_input log).
  cbv zeta in Hcases. fold self text in Hcases.
  split; [|split; [|split; [|split; [|split]]]].
  - intros G. apply any_in_spec in G. rewrite G in Hcases.
    destruct (random_choice_greeting w) as [g [Hin Hg]].
    exists g. split; [exact Hin|]. fold self in Hg. now rewrite Hcases, Hg.
  - intros G F. apply any_in_false in G. apply any_in_spec in F.
    now rewrite G, F in Hcases.
  - intros G F W. apply any_in_false in G, F. apply any_in_spec in W.
    now rewrite G, F, W in Hcases.
  - intros G F W. apply any_in_false in G, F, W.
    now rewrite G, F, W in Hcases.
  - vm_compute. reflexivity.
  - destruct (random_choice_greeting w) as [g [Hin Hg]].
    exists g. split; [exact Hin|]. fold self in Hg.
    rewrite get_response_cases. cbv zeta.
    replace (_is_greeting _) with true by (vm_compute; reflexivity).
    now rewrite Hg.
Qed.

Lemma C1_dispatch_priority_witness :
  (exists g, In g greeting_templates
             /\ get_response (__init__ Samples.bare_world) Samples.bare_world
                  "Hello there" [] = (Ok g, [])) /\
  get_response (__init__ Samples.bare_world) Samples.bare_world
    "bye, thanks for the help" [] = (Ok farewell_message, []) /\
  get_response (__init__ Samples.bare_world) Samples.bare_world
    "Will it RAIN tomorrow?" []
  = weather_branch (__init__ Samples.bare_world) Samples.bare_world [] /\
  get_response (__init__ Samples.bare_world) Samples.bare_world
    "Best  fertilizer for corn?" []
  = _process_agriculture_query (__init__ Samples.bare_world)
      Samples.bare_world "best fertilizer for corn?" [].
Proof.
  split; [|split; [|split]].
  - pose proof (C1_dispatch_priority Samples.bare_world "Hello there" [])
      as H.
    cbv zeta in H. apply (proj1 H).
    apply any_in_spec. vm_compute. reflexivity.
  - pose proof (C1_dispatch_priority Samples.bare_world
                  "bye, thanks for the help" []) as H.
    cbv zeta in H. apply (proj1 (proj2 H)).
    + apply any_in_false. vm_compute. reflexivity.
    + apply any_in_spec. vm_compute. reflexivity.
  - pose proof (C1_dispatch_priority Samples.bare_world
                  "Will it RAIN tomorrow?" []) as H.
    cbv zeta in H. apply (proj1 (proj2 (proj2 H))).
    + apply any_in_false. vm_compute. reflexivity.
    + apply any_in_false. vm_compute. reflexivity.
    + apply any_in_spec. vm_compute. reflexivity.
  - pose proof (C1_dispatch_priority Samples.bare_world
                  "Best  fertilizer for corn?" []) as H.
    cbv zeta in H. apply (proj1 (proj2 (proj2 (proj2 H)))).
    + apply any_in_false. vm_compute. reflexivity.
    + apply any_in_false. vm_compute. reflexivity.
    + apply any_in_false. vm_compute. reflexivity.
Defined.

(** Whitespace is that of Unicode: the no-break space inside the phrase
    is normalized to a space, and the message is greeted without any
    network call. *)
Example greeting_across_no_break_space :
  get_response (__init__ Samples.live_world) Samples.live_world
    ("Good" ++ String 160%N "evening, farmer") []
  = (Ok "Hi there! I'm here to help with all your agriculture and farming questions.",
     []).
Proof. vm_compute. reflexivity. Qed.

(** Lowercasing is that of Unicode: the Kelvin sign becomes the letter k,
    and the message is a farewell although it mentions rain. *)
Example farewell_with_kelvin_sign :
  get_response (__init__ Samples.live_world) Samples.live_world
    ("than" ++ String 8490%N "s for the rain") []
  = (Ok farewell_message, []).
Proof. vm_compute. reflexivity. Qed.

End Router.

(* ================================================================= *)
(** ** First item of largest score *)

Section FirstBest.

Context {A : Type} (score : A -> nat).

Lemma scan_inv_step (seen : list A) (state : option A * nat) (x : A) :
  scan_inv score seen state ->
  scan_inv score (seen ++ [x])%list (scan_step score state x).
Proof.
  destruct state as [[b|] highest]; unfold scan_step; cbn [snd].
  - intros (-> & Hpos & before & after & -> & Hb & Ha).
    destruct (Nat.ltb_spec (score b) (score x)) as [Hlt|Hge].
    + cbn [scan_inv]. split; [reflexivity|]. split; [lia|].
      exists (before ++ b :: after)%list, []. split; [reflexivity|].
      split; [|intros y []].
      intros y Hy. apply in_app_or in Hy. destruct Hy as [Hy|[<-|Hy]].
      * specialize (Hb y Hy). lia.
      * exact Hlt.
      * specialize (Ha y Hy). lia.
    + cbn [scan_inv]. split; [reflexivity|]. split; [exact Hpos|].
      exists before, (after ++ [x])%list. split.
      * now rewrite <- app_assoc.
      * split; [exact Hb|]. intros y Hy.
        apply in_app_or in Hy. destruct Hy as [Hy|[<-|[]]];
          [now apply Ha | exact Hge].
  - intros (-> & Hzero).
    destruct (Nat.ltb_spec 0 (score x)) as [Hlt|Hge].
    + cbn [scan_inv]. split; [reflexivity|]. split; [exact Hlt|].
      exists seen, []. split; [reflexivity|]. split; [|intros y []].
      intros y Hy. rewrite (Hzero y Hy). exact Hlt.
    + cbn [scan_inv]. split; [reflexivity|]. intros y Hy.
      apply in_app_or in Hy. destruct Hy as [Hy|[<-|[]]];
        [now apply Hzero | lia].
Qed.

Lemma scan_inv_fold (rest seen : list A) (state : option A * nat) :
  scan_inv score seen state ->
  scan_inv score (seen ++ rest)%list (fold_left (scan_step score) rest state).
Proof.
  revert seen state; induction rest as [|x rest IH]; intros seen state H.
  - now rewrite app_nil_r.
  - cbn [fold_left].
    replace (seen ++ x :: rest)%list with ((seen ++ [x]) ++ rest)%list
      by now rewrite <- app_assoc.
    apply IH, scan_inv_step, H.
Qed.

Lemma scan_inv_result (items : list A) (state : option A * nat) :
  scan_inv score items state ->
  first_best score items (scan_result state).
Proof.
  destruct state as [[b|] highest]; unfold scan_result; cbn [fst snd scan_inv].
  - intros (-> & Hpos & before & after & E & Hb & Ha).
    destruct (Nat.ltb_spec 0 (score b)) as [_|Hge]; [|lia].
    now apply first_best_some with before after.
  - intros (-> & Hzero). cbn. now apply first_best_none.
Qed.

Lemma scan_first_best (items : list A) :
  first_best score items (scan_result (scan score items)).
Proof.
  apply scan_inv_result. unfold scan.
  apply (scan_inv_fold items [] (None, 0)).
  cbn. split; [reflexivity | intros x []].
Qed.

(** [first_best] names at most one result. *)
Lemma first_best_unique (items : list A) (r1 r2 : option A) :
  first_best score items r1 -> first_best score items r2 -> r1 = r2.
Proof.
  intros [Hz1 | b1 x1 a1 E1 P1 B1 A1] [Hz2 | b2 x2 a2 E2 P2 B2 A2].
  - reflexivity.
  - assert (score x2 = 0) by (apply Hz1; subst; apply in_elt). lia.
  - assert (score x1 = 0) by (apply Hz2; subst; apply in_elt). lia.
  - rewrite E1 in E2. apply app_eq_app in E2.
    destruct E2 as [l [[Eb Ea] | [Eb Ea]]].
    + destruct l as [|y l].
      * cbn in Ea. now injection Ea as ->.
      * cbn in Ea. injection Ea as Ey Ea. subst y.
        assert (score x2 < score x1)
          by (apply B1; subst b1; apply in_elt).
        assert (score x1 <= score x2)
          by (apply A2; subst a2; apply in_elt).
        lia.
    + destruct l as [|y l].
      * cbn in Ea. now injection Ea as ->.
      * cbn in Ea. injection Ea as Ey Ea. subst y.
        assert (score x1 < score x2)
          by (apply B2; subst b2; apply in_elt).
        assert (score x2 <= score x1)
          by (apply A1; subst a1; apply in_elt).
        lia.
Qed.

End FirstBest.

(* ================================================================= *)
(** ** Whitespace-delimited words *)

Section Words.

Lemma solid_append (a b : string) : solid (a ++ b) = solid a && solid b.
Proof.
  induction a as [|c a IH]; cbn [append solid]; [reflexivity|].
  now rewrite IH, andb_assoc.
Qed.

Lemma nonempty_append_r (a b : string) :
  nonempty b = true -> nonempty (a ++ b) = true.
Proof. now destruct a. Qed.

Lemma ends_blank_append (a b : string) :
  nonempty b = true -> ends_blank (a ++ b) = ends_blank b.
Proof.
  intros Hb. induction a as [|x a IH]; [reflexivity|].
  cbn [append ends_blank]. pose proof (nonempty_append_r a b Hb) as Hne.
  destruct (a ++ b); [discriminate | exact IH].
Qed.

Lemma ends_blank_cons (c : char) (a : string) :
  isspace c = true -> ends_blank (String c a) = ends_blank a.
Proof. intros Hc. cbn [ends_blank]. destruct a; [exact Hc | reflexivity]. Qed.

Lemma solid_ends_blank (a : string) :
  solid a = true -> ends_blank a = true -> a = "".
Proof.
  induction a as [|c a IH]; [reflexivity|]. cbn [solid ends_blank].
  intros H. apply andb_true_iff in H as [Hc H]. apply negb_true_iff in Hc.
  destruct a as [|d a]; [congruence|].
  intros E. specialize (IH H E). discriminate.
Qed.

Lemma solid_starts_blank (b : string) :
  solid b = true -> starts_blank b = true -> b = "".
Proof.
  destruct b as [|c b]; [reflexivity|]. cbn [solid starts_blank].
  intros H E. rewrite E in H. discriminate.
Qed.

(** A string of non-whitespace characters has itself as only word. *)
Lemma is_word_solid (w t : string) :
  solid t = true -> (is_word w t <-> nonempty t = true /\ w = t).
Proof.
  intros Ht. split.
  - intros (Hne & Hs & a & b & E & Ha & Hb).
    rewrite E, !solid_append in Ht.
    apply andb_true_iff in Ht as [Hsa Ht]. apply andb_true_iff in Ht as [_ Hsb].
    rewrite (solid_ends_blank a Hsa Ha), (solid_starts_blank b Hsb Hb) in E.
    cbn [append] in E. rewrite append_nil_r in E. subst t. now split.
  - intros [Hne ->]. split; [exact Hne|]. split; [exact Ht|].
    exists "", "". cbn [append]. now rewrite append_nil_r.
Qed.

(** Where a whitespace character that follows [x] falls in a piece of text
    cut around a word: after the word, or before it. *)
Lemma cut_at_whitespace (x : string) (c : char) (y a w b : string) :
  solid x = true -> isspace c = true -> solid w = true ->
  x ++ String c y = a ++ w ++ b ->
  (exists b', x = a ++ w ++ b' /\ b = b' ++ String c y)
  \/ (exists a', a = x ++ String c a' /\ y = a' ++ w ++ b).
Proof.
  intros Hx Hc Hw. revert a w Hw.
  induction x as [|e x IH]; intros a w Hw E; cbn [append] in E.
  - destruct a as [|d a]; cbn [append] in E.
    + destruct w as [|d w]; cbn [append] in E.
      * left. exists "". now split.
      * injection E as <- _. cbn [solid] in Hw. rewrite Hc in Hw. discriminate.
    + injection E as <- E. right. now exists a.
  - cbn [solid] in Hx. apply andb_true_iff in Hx as [He Hx].
    destruct a as [|d a]; cbn [append] in E.
    + destruct w as [|d w]; cbn [append] in E.
      * left. exists (String e x). cbn [append]. now split.
      * injection E as <- E. cbn [solid] in Hw.
        apply andb_true_iff in Hw as [_ Hw].
        destruct (IH Hx "" w Hw E) as [[b' [E1 E2]] | [a' [E1 _]]].
        -- left. exists b'. cbn [append] in E1 |- *. now rewrite E1.
        -- destruct x; discriminate.
    + injection E as <- E.
      destruct (IH Hx a w Hw E) as [[b' [E1 E2]] | [a' [E1 E2]]].
      * left. exists b'. cbn [append]. now rewrite E1.
      * right. exists a'. cbn [append]. now rewrite E1.
Qed.

Lemma solid_snoc (w : string) (c : char) :
  solid w = true -> isspace c = false -> solid (w ++ String c "") = true.
Proof.
  intros Hw Hc. rewrite solid_append, Hw. cbn [solid andb]. now rewrite Hc.
Qed.

(** The words [str.split] returns are the whitespace-delimited words. *)
Lemma split_from_spec (s acc w : string) :
  solid acc = true ->
  (In w (split_from acc s) <-> is_word w (acc ++ s)).
Proof.
  revert acc; induction s as [|c s IH]; intros acc Hacc.
  - rewrite append_nil_r, (is_word_solid w acc Hacc). cbn [split_from].
    destruct (nonempty acc); cbn; intuition congruence.
  - cbn [split_from]. destruct (isspace c) eqn:Hc.
    + assert (Hw : is_word w (acc ++ String c s)
                   <-> (nonempty acc = true /\ w = acc) \/ is_word w s).
      { split.
        - intros (Hne & Hs & a & b & E & Ha & Hb).
          destruct (cut_at_whitespace acc c s a w b Hacc Hc Hs E)
            as [[b' [E1 E2]] | [a' [E1 E2]]].
          + left. rewrite E1, !solid_append in Hacc.
            apply andb_true_iff in Hacc as [Hsa Hr].
            apply andb_true_iff in Hr as [_ Hsb].
            rewrite (solid_ends_blank a Hsa Ha) in E1. cbn [append] in E1.
            assert (b' = "").
            { destruct b' as [|d b']; [reflexivity|]. subst b.
              cbn [append starts_blank solid] in Hb, Hsb.
              rewrite Hb in Hsb. discriminate. }
            subst b'. rewrite append_nil_r in E1. subst acc. now split.
          + right. split; [exact Hne|]. split; [exact Hs|].
            exists a', b. split; [exact E2|]. split; [|exact Hb].
            rewrite E1, ends_blank_append in Ha by reflexivity.
            now rewrite ends_blank_cons in Ha.
        - intros [[Hne ->] | (Hne & Hs & a & b & E & Ha & Hb)].
          + split; [exact Hne|]. split; [exact Hacc|].
            exists "", (String c s). cbn [append starts_blank]. now split.
          + split; [exact Hne|]. split; [exact Hs|].
            exists (acc ++ String c a), b. split; [|split; [|exact Hb]].
            * rewrite E, append_assoc. reflexivity.
            * rewrite ends_blank_append by reflexivity.
              now rewrite ends_blank_cons. }
      rewrite Hw, <- (IH "" eq_refl). cbn [append].
      destruct (nonempty acc); cbn [In]; intuition congruence.
    + rewrite (IH (acc ++ String c "") (solid_snoc acc c Hacc Hc)).
      now rewrite append_assoc.
Qed.

Lemma split_spec (s w : string) : In w (split s) <-> is_word w s.
Proof. apply (split_from_spec s "" w). reflexivity. Qed.

Lemma any_word_in_spec (query content : string) :
  any_word_in query content = true <-> word_occurs query content.
Proof.
  unfold any_word_in, word_occurs. rewrite existsb_exists.
  split; intros [w [Hw H]]; exists w; split;
    try (now apply split_spec); now apply contains_spec.
Qed.

Lemma any_word_in_awards (query content : string) (points : nat) :
  awards (word_occurs query content) points
         (if any_word_in query content then points else 0).
Proof.
  destruct (any_word_in query content) eqn:E.
  - apply awarded. now apply any_word_in_spec.
  - apply not_awarded. intros H. apply any_word_in_spec in H. congruence.
Qed.

Lemma awards_unique (P : Prop) (points n m : nat) :
  awards P points n -> awards P points m -> n = m.
Proof. intros [H1|H1] [H2|H2]; tauto. Qed.

End Words.

(* ================================================================= *)
(** ** The knowledge store and its search *)

Section Store.

Lemma eqb_refl (s : string) : (s =? s) = true.
Proof.
  induction s as [|c s IH]; cbn [eqb]; [reflexivity|].
  now rewrite N.eqb_refl, IH.
Qed.

Lemma eqb_eq (a b : string) : (a =? b) = true <-> a = b.
Proof.
  split; [|intros ->; apply eqb_refl].
  revert b; induction a as [|c a IH]; intros [|d b]; cbn [eqb];
    try discriminate; [reflexivity|].
  intros H. apply andb_true_iff in H as [Hc H].
  apply N.eqb_eq in Hc. now rewrite Hc, (IH b H).
Qed.

Lemma eqb_spec (a b : string) : reflect (a = b) (a =? b).
Proof. apply iff_reflect. symmetry. apply eqb_eq. Qed.

Lemma first_best_ext {A : Type} (s1 s2 : A -> nat) (items : list A)
  (r : option A) :
  (forall x, s1 x = s2 x) -> first_best s1 items r -> first_best s2 items r.
Proof.
  intros E [Hz | before x after -> P B Af].
  - apply first_best_none. intros x Hx. rewrite <- E. now apply Hz.
  - apply first_best_some with before after; trivial.
    + now rewrite <- E.
    + intros y Hy. rewrite <- !E. now apply B.
    + intros y Hy. rewrite <- !E. now apply Af.
Qed.

(** The loop over the fields of an object adds the points of the fields. *)
Lemma count_fields (query : string) (fields : list (string * json))
  (score : nat) :
  exists n,
    field_points query fields n /\
    fold_left
      (fun score (item : string * json) =>
         match snd item with
         | JStr content => if any_word_in query content then score + 1 else score
         | _ => score
         end)
      fields score
    = score + n.
Proof.
  revert score; induction fields as [|[field value] fields IH];
    intros score; cbn [fold_left snd].
  - exists 0. split; [constructor | lia].
  - destruct value as [| | |content| |];
      try (destruct (IH score) as [k [Hk E]]; exists k;
           split; [apply field_points_other; [discriminate | exact Hk]
                  | exact E]).
    destruct (IH (if any_word_in query content then score + 1 else score))
      as [n [Hn E]].
    exists ((if any_word_in query content then 1 else 0) + n). split.
    + apply field_points_string; [apply any_word_in_awards | exact Hn].
    + rewrite E. destruct (any_word_in query content); lia.
Qed.

(** The score the code computes is the score of the specification, and
    the specification determines it. *)
Lemma relevance_refines (query key : string) (entry : json) :
  relevance_spec query key entry (_calculate_relevance query key entry).
Proof.
  unfold _calculate_relevance. cbv zeta.
  pose proof (any_word_in_awards query key 2) as Hk.
  destruct entry as [| | |content| |fields].
  - apply relevance_other; [discriminate | discriminate | exact Hk].
  - apply relevance_other; [discriminate | discriminate | exact Hk].
  - apply relevance_other; [discriminate | discriminate | exact Hk].
  - replace (if any_word_in query content
             then (if any_word_in query key then 0 + 2 else 0) + 1
             else if any_word_in query key then 0 + 2 else 0)
      with ((if any_word_in query key then 2 else 0)
            + (if any_word_in query content then 1 else 0))
      by (destruct (any_word_in query key), (any_word_in query content); lia).
    apply relevance_string; [exact Hk | apply any_word_in_awards].
  - apply relevance_other; [discriminate | discriminate | exact Hk].
  - destruct (count_fields query fields
                (if any_word_in query key then 0 + 2 else 0)) as [n [Hn E]].
    rewrite E. apply relevance_object; [exact Hk | exact Hn].
Qed.

Lemma field_points_unique (query : string) (fields : list (string * json))
  (n m : nat) :
  field_points query fields n -> field_points query fields m -> n = m.
Proof.
  intros Hn; revert m; induction Hn as [|f c rest p n Hp Hn IH|f v rest n Hv Hn IH];
    intros m Hm; inversion Hm; subst.
  - reflexivity.
  - f_equal; [eapply awards_unique; eassumption | now apply IH].
  - exfalso. eapply H3. reflexivity.
  - exfalso. eapply Hv. reflexivity.
  - now apply IH.
Qed.

Lemma relevance_unique (query key : string) (entry : json) (n m : nat) :
  relevance_spec query key entry n -> relevance_spec query key entry m ->
  n = m.
Proof.
  intros Hn Hm. destruct Hn as [fields k n Hk Hn|content k n Hk Hn|value k Ho Hs Hk];
    inversion Hm; subst.
  - f_equal; [eapply awards_unique; eassumption
             | eapply field_points_unique; eassumption].
  - exfalso. eapply H. reflexivity.
  - f_equal; eapply awards_unique; eassumption.
  - exfalso. eapply H0. reflexivity.
  - exfalso. eapply Ho. reflexivity.
  - exfalso. eapply Hs. reflexivity.
  - eapply awards_unique; eassumption.
Qed.

Lemma search_fold_scan (query_lower : string) (items : list (string * json))
  (state : option (string * json) * nat) :
  fold_left (search_step query_lower) items
    (option_map snd (fst state), snd state)
  = let state' := fold_left (scan_step (entry_score query_lower)) items state in
    (option_map snd (fst state'), snd state').
Proof.
  revert state; induction items as [|[key value] items IH]; intros state;
    cbn [fold_left]; [reflexivity|].
  rewrite <- IH. f_equal.
  unfold search_step, scan_step, entry_score. cbn [fst snd].
  now destruct (snd state <? _calculate_relevance query_lower key value)%nat.
Qed.

Lemma search_result_scan (state : option (string * json) * nat) :
  search_result (option_map snd (fst state), snd state)
  = option_map snd (scan_result state).
Proof.
  unfold search_result, scan_result. cbn [fst snd].
  now destruct (0 <? snd state)%nat.
Qed.

(** While every topic holds an object the loop over the topics is the
    loop over all their entries, and it raises otherwise. *)
Lemma search_topics_objects (query_lower : string) (store : knowledge)
  (state : option json * nat) :
  objects store ->
  search_topics query_lower store state
  = Ok (fold_left (search_step query_lower) (all_entries store) state).
Proof.
  revert state; induction store as [|[name data] store IH]; intros state Ho;
    cbn [search_topics]; [reflexivity|].
  destruct (Ho name data (or_introl eq_refl)) as [fields ->].
  cbn [json_items]. rewrite IH.
  - unfold all_entries. cbn [map List.concat snd fields_of].
    now rewrite fold_left_app.
  - intros n v Hin. apply (Ho n v). now right.
Qed.

Lemma search_topics_raises (query_lower : string) (store : knowledge)
  (state : option json * nat) :
  ~ objects store ->
  search_topics query_lower store state = Raise (AttributeError "items").
Proof.
  revert state; induction store as [|[name data] store IH]; intros state Ho;
    cbn [search_topics].
  - exfalso. apply Ho. intros n v [].
  - destruct data as [| | | | |fields]; try reflexivity.
    cbn [json_items]. apply IH. intros Hs. apply Ho.
    intros n v [E|Hin]; [injection E as <- <-; now exists fields|].
    now apply (Hs n v).
Qed.

(** The loop over a list of entries returns the first entry of largest
    positive relevance. *)
Lemma search_loop_first_best (query_lower : string)
  (items : list (string * json)) :
  exists r,
    first_best (entry_score query_lower) items r /\
    search_result (fold_left (search_step query_lower) items (None, 0))
    = option_map snd r.
Proof.
  exists (scan_result (scan (entry_score query_lower) items)). split.
  - apply scan_first_best.
  - change (@None json, 0)
      with (option_map (@snd string json) (fst (@None (string * json), 0)),
            snd (@None (string * json), 0)).
    rewrite search_fold_scan. cbv zeta. now rewrite search_result_scan.
Qed.

Lemma load_topics (fs : filesystem) :
  map fst (_load_knowledge fs) = store_topics.
Proof.
  unfold _load_knowledge. cbv zeta.
  destruct (crops_file_exists fs); [|reflexivity].
  now destruct (crops_file_load fs).
Qed.

Lemma dict_get_key {V : Type} (k : string) (d : list (string * V)) (v : V) :
  dict_get k d = Some v -> In k (map fst d).
Proof.
  induction d as [|[k' v'] d IH]; cbn [dict_get map fst In]; [discriminate|].
  destruct (eqb_spec k' k) as [->|_]; [now left | right; now apply IH].
Qed.

Lemma dict_get_absent {V : Type} (k : string) (d : list (string * V)) :
  ~ In k (map fst d) -> dict_get k d = None.
Proof.
  intros H. destruct (dict_get k d) eqn:E; [|reflexivity].
  now apply dict_get_key in E.
Qed.

Lemma store_topic_nonempty (topic : string) :
  In topic store_topics -> nonempty topic = true.
Proof.
  cbn. intros [<-|[<-|[<-|[<-|[<-|[]]]]]]; reflexivity.
Qed.

(** The store holds objects unless the crops file holds another value. *)
Lemma load_objects (fs : filesystem) :
  well_formed fs -> objects (_load_knowledge fs).
Proof.
  assert (Hd : forall fields,
             objects [("crops", JObj fields); ("pests", JObj []);
                      ("soil", JObj []); ("weather", JObj []);
                      ("general", JObj [])]).
  { intros fields n v [E|[E|[E|[E|[E|[]]]]]]; injection E as <- <-;
      eexists; reflexivity. }
  assert (Hk : objects _get_default_knowledge).
  { intros n v [E|[E|[E|[E|[E|[]]]]]]; injection E as <- <-;
      eexists; reflexivity. }
  unfold _load_knowledge. cbv zeta.
  intros [H | [[e H] | [fields H]]]; rewrite H.
  - apply Hd.
  - destruct (crops_file_exists fs); [exact Hk | apply Hd].
  - destruct (crops_file_exists fs); apply Hd.
Qed.

Lemma search_all (store : knowledge) (query : string) :
  objects store ->
  exists r,
    first_best (entry_score (lower query)) (all_entries store) r /\
    search store query None = Ok (option_map snd r).
Proof.
  intros Ho. unfold search. cbv zeta.
  rewrite (search_topics_objects _ _ _ Ho).
  destruct (search_loop_first_best (lower query) (all_entries store))
    as [r [Hr E]].
  exists r. split; [exact Hr | now rewrite E].
Qed.

Lemma search_in_topic (store : knowledge) (query topic : string)
  (entries : list (string * json)) :
  nonempty topic = true ->
  dict_get topic store = Some (JObj entries) ->
  exists r,
    first_best (entry_score (lower query)) entries r /\
    search store query (Some topic) = Ok (option_map snd r).
Proof.
  intros Hne Hget. unfold search. cbv zeta. rewrite Hne, Hget.
  cbn [json_items].
  destruct (search_loop_first_best (lower query) entries) as [r [Hr E]].
  exists r. split; [exact Hr | now rewrite E].
Qed.

Lemma search_in_broken_topic (store : knowledge) (query topic : string)
  (value : json) :
  nonempty topic = true ->
  dict_get topic store = Some value ->
  (forall fields, value <> JObj fields) ->
  search store query (Some topic) = Raise (AttributeError "items").
Proof.
  intros Hne Hget Hv. unfold search. cbv zeta. rewrite Hne, Hget.
  destruct value as [| | | | |fields]; try reflexivity.
  now destruct (Hv fields).
Qed.

(** C2 does not hold of every store: the crops topic is present in the
    store built from a crops file that holds a JSON list, and [search]
    within that topic, like [search] without a topic, raises
    [AttributeError] instead of returning an entry or null. *)
Lemma C2_search_raises_on_list_store :
  In "crops" (map fst (_load_knowledge (files Samples.list_world))) /\
  search (_load_knowledge (files Samples.list_world)) "rice" (Some "crops")
  = Raise (AttributeError "items") /\
  search (_load_knowledge (files Samples.list_world)) "rice" None
  = Raise (AttributeError "items").
Proof.
  split; [left; reflexivity|]. split; vm_compute; reflexivity.
Qed.

(** C2. The relevance the code computes is the score of the
    specification and the only one: 2 when a whitespace-delimited word of
    the lowercased query is a substring of the lowercased key, 1 for each
    string field of an object entry whose lowercased value contains a
    query word, 1 for a bare string entry containing one. On the store
    built at start-up, [search] with a topic that is a key of the store and
    holds an object returns the first entry of that topic, in iteration
    order, whose relevance is largest, and null when every entry scores
    zero; when the topic holds another value [search] raises. Without a
    topic the same holds over the entries of all topics in order, provided
    the crops file is absent, unreadable or holds an object. *)
Theorem C2_search_returns_first_best (fs : filesystem) (query topic : string)
  (entries : list (string * json)) :
  let store := _load_knowledge fs in
  (forall key entry,
      relevance_spec (lower query) key entry
        (_calculate_relevance (lower query) key entry)) /\
  (forall key entry n,
      relevance_spec (lower query) key entry n ->
      n = _calculate_relevance (lower query) key entry) /\
  (dict_get topic store = Some (JObj entries) ->
   exists r,
     first_best (entry_score (lower query)) entries r /\
     search store query (Some topic) = Ok (option_map snd r)) /\
  (forall value,
      dict_get topic store = Some value ->
      (forall fields, value <> JObj fields) ->
      search store query (Some topic) = Raise (AttributeError "items")) /\
  (well_formed fs ->
   exists r,
     first_best (entry_score (lower query)) (all_entries store) r /\
     search store query None = Ok (option_map snd r)).
Proof.
  intros store.
  assert (Hne : forall value,
             dict_get topic store = Some value -> nonempty topic = true).
  { intros value Hget. apply store_topic_nonempty.
    rewrite <- (load_topics fs). now apply dict_get_key with value. }
  split; [|split; [|split; [|split]]].
  - intros key entry. apply relevance_refines.
  - intros key entry n Hn.
    apply (relevance_unique (lower query) key entry); [exact Hn|].
    apply relevance_refines.
  - intros Hget. apply search_in_topic; [now apply Hne with (JObj entries)|].
    exact Hget.
  - intros value Hget Hv.
    apply search_in_broken_topic with value; [now apply Hne with value | |];
      assumption.
  - intros Hw. apply search_all. now apply load_objects.
Qed.

Lemma C2_search_returns_first_best_witness :
  (exists r,
     first_best (entry_score (lower "Rice growing season"))
       (fields_of _get_default_crops_data) r /\
     search (_load_knowledge (files Samples.bare_world)) "Rice growing season"
       (Some "crops") = Ok (option_map snd r)) /\
  (exists r,
     first_best (entry_score (lower "Rice growing season"))
       (all_entries (_load_knowledge (files Samples.bare_world))) r /\
     search (_load_knowledge (files Samples.bare_world)) "Rice growing season"
       None = Ok (option_map snd r)).
Proof.
  pose proof (C2_search_returns_first_best (files Samples.bare_world)
                "Rice growing season" "crops"
                (fields_of _get_default_crops_data)) as H.
  cbv zeta in H. split.
  - apply (proj1 (proj2 (proj2 H))). reflexivity.
  - apply (proj2 (proj2 (proj2 (proj2 H)))). left. reflexivity.
Defined.

(** The example of the specification: the rice entry answers "rice growing
    season" within the crops topic. *)
Example search_rice_growing_season :
  search (_load_knowledge (files Samples.bare_world)) "rice growing season"
    (Some "crops")
  = Ok (dict_get "rice" (fields_of _get_default_crops_data)).
Proof. vm_compute. reflexivity. Qed.

Example search_no_shared_word :
  search (_load_knowledge (files Samples.live_world)) "xyzzy" None = Ok None.
Proof. vm_compute. reflexivity. Qed.

(** Lowercasing follows Unicode: the accented key of the entry is found by
    a query in another case. *)
Example search_accented_key :
  search (_load_knowledge (files Samples.accent_world)) "ÉTÉ seeds"
    (Some "crops")
  = Ok (Some (JStr "x")).
Proof. vm_compute. reflexivity. Qed.

(** C3. When the crops file is absent the store is not the default
    dataset: the five default crops are there, but the pests, soil, weather
    and general topics stay empty. Only when reading the file raises is the
    whole default dataset (five crops, two pests, two soil entries, one
    weather entry, one general entry) installed. *)
Theorem C3_absent_file_keeps_other_topics_empty (r : result json) :
  let absent := {| crops_file_exists := false; crops_file_load := r |} in
  let store := _load_knowledge absent in
  store = [("crops", _get_default_crops_data); ("pests", JObj []);
           ("soil", JObj []); ("weather", JObj []); ("general", JObj [])] /\
  map (fun t => List.length (fields_of (snd t))) store = [5; 0; 0; 0; 0] /\
  map (fun t => List.length (fields_of (snd t))) _get_default_knowledge
  = [5; 2; 2; 1; 1] /\
  store <> _get_default_knowledge.
Proof.
  cbv zeta. split; [reflexivity|]. split; [reflexivity|].
  split; [reflexivity|]. unfold _load_knowledge. cbn [crops_file_exists].
  intros H.
  apply (f_equal (map (fun t => List.length (fields_of (snd t))))) in H.
  discriminate H.
Qed.

Lemma load_unreadable_file (fs : filesystem) (e : exn) :
  crops_file_exists fs = true ->
  crops_file_load fs = Raise e ->
  _load_knowledge fs = _get_default_knowledge.
Proof.
  intros He Hl. unfold _load_knowledge. cbv zeta. now rewrite He, Hl.
Qed.

End Store.

(* ================================================================= *)
(** ** A topic the store does not hold *)

Section UnknownTopic.

Lemma search_unknown_topic (store : knowledge) (query topic : string) :
  ~ In topic (map fst store) ->
  search store query (Some topic) = search store query None.
Proof.
  intros H. unfold search. cbv zeta.
  rewrite (dict_get_absent _ _ H). now destruct (nonempty topic).
Qed.

Lemma list_store_not_objects :
  ~ objects (_load_knowledge (files Samples.list_world)).
Proof.
  intros H.
  destruct (H "crops" (JArr [JStr "rice"; JStr "wheat"]) (or_introl eq_refl))
    as [fields E].
  discriminate E.
Qed.

(** C10 does not hold of every store: with a crops file that holds a JSON
    list, the search under the topic seeds, which the store does not hold,
    returns neither the best entry of the store nor null: it raises. *)
Lemma C10_unknown_topic_raises_on_list_store :
  ~ In "seeds" (map fst (_load_knowledge (files Samples.list_world))) /\
  _identify_topic (__init__ Samples.list_world) "sowing seeds" = Some "seeds" /\
  search (knowledge_base (__init__ Samples.list_world)) "sowing seeds"
    (Some "seeds")
  = Raise (AttributeError "items").
Proof.
  split; [|split]; [|vm_compute; reflexivity..].
  rewrite load_topics. cbn. intuition discriminate.
Qed.

(** C10. The keys of the store are crops, pests, soil, weather and
    general. A topic that is not among them, as seeds and harvest are, does
    not restrict the search: the outcome is that of the search without a
    topic. When the crops file is absent, unreadable or holds an object
    that outcome is the first entry of largest relevance over all topics,
    or null; when a topic of the store holds another value the search
    raises. The search without a topic gives the context a query
    classified seeds or harvest is answered with. *)
Theorem C10_unknown_topic_searches_everything (w : world)
  (query topic : string) :
  let self := __init__ w in
  let store := knowledge_base self in
  map fst store = store_topics /\
  (~ In topic store_topics ->
   search store query (Some topic) = search store query None /\
   (well_formed (files w) ->
    exists r,
      first_best (entry_score (lower query)) (all_entries store) r /\
      search store query (Some topic) = Ok (option_map snd r)) /\
   (~ objects store ->
    search store query (Some topic) = Raise (AttributeError "items"))) /\
  (topic = "seeds" \/ topic = "harvest" -> ~ In topic store_topics) /\
  (topic = "seeds" \/ topic = "harvest" ->
   forall text log,
     _identify_topic self text = Some topic ->
     _process_agriculture_query self w text log
     = (context_info <- lift (search store text None) ;;
        _get_ai_response self w text context_info) log).
Proof.
  intros self store.
  assert (Hkeys : map fst store = store_topics) by apply load_topics.
  assert (Hnot : topic = "seeds" \/ topic = "harvest" ->
                 ~ In topic store_topics).
  { intros [-> | ->]; cbn; intuition discriminate. }
  split; [exact Hkeys|]. split; [|split; [exact Hnot|]].
  - intros H. rewrite <- Hkeys in H.
    rewrite (search_unknown_topic _ _ _ H). split; [reflexivity|]. split.
    + intros Hw. apply search_all. now apply load_objects.
    + intros Ho. unfold search. cbv zeta.
      now rewrite (search_topics_raises _ _ _ Ho).
  - intros Ht text log Hid. unfold _process_agriculture_query. cbv zeta.
    fold store. rewrite Hid.
    replace (nonempty topic) with true by (destruct Ht as [-> | ->]; reflexivity).
    rewrite search_unknown_topic; [reflexivity|].
    rewrite Hkeys. now apply Hnot.
Qed.

Lemma C10_unknown_topic_searches_everything_witness :
  (exists r,
     first_best (entry_score (lower "harvest storage"))
       (all_entries (knowledge_base (__init__ Samples.bare_world))) r /\
     search (knowledge_base (__init__ Samples.bare_world)) "harvest storage"
       (Some "harvest") = Ok (option_map snd r))
  /\ search (knowledge_base (__init__ Samples.list_world)) "harvest storage"
       (Some "harvest") = Raise (AttributeError "items")
  /\ ~ In "harvest" store_topics
  /\ _process_agriculture_query (__init__ Samples.live_world)
       Samples.live_world "sowing seeds" []
     = (context_info <-
          lift (search (knowledge_base (__init__ Samples.live_world))
                  "sowing seeds" None) ;;
        _get_ai_response (__init__ Samples.live_world) Samples.live_world
          "sowing seeds" context_info) [].
Proof.
  pose proof (C10_unknown_topic_searches_everything Samples.bare_world
                "harvest storage" "harvest") as H.
  pose proof (C10_unknown_topic_searches_everything Samples.list_world
                "harvest storage" "harvest") as H0.
  pose proof (C10_unknown_topic_searches_everything Samples.live_world
                "sowing seeds" "seeds") as H'.
  cbv zeta in H, H0, H'.
  destruct H as (_ & H1 & H2 & _). destruct H0 as (_ & H4 & _).
  destruct H' as (_ & _ & _ & H3).
  split; [|split; [|split]].
  - apply H1; [apply H2; now right | left; reflexivity].
  - apply H4; [apply H2; now right | exact list_store_not_objects].
  - apply H2. now right.
  - apply H3; [now left|]. vm_compute. reflexivity.
Defined.

(** A query the classifier labels harvest is answered from the crops
    topic: the wheat entry mentions harvest in its growing tips. *)
Example harvest_query_finds_wheat :
  _identify_topic (__init__ Samples.bare_world) "harvest storage"
  = Some "harvest"
  /\ search (knowledge_base (__init__ Samples.bare_world)) "harvest storage"
       (Some "harvest")
     = Ok (dict_get "wheat" (fields_of _get_default_crops_data)).
Proof. split; vm_compute; reflexivity. Qed.

(** A query classified seeds finds the entry of the crops file whose
    accented key it names in another case. *)
Example seeds_query_finds_accented_key :
  _identify_topic (__init__ Samples.accent_world) "été seeds" = Some "seeds"
  /\ search (knowledge_base (__init__ Samples.accent_world)) "été seeds"
       (Some "seeds")
     = Ok (Some (JStr "x")).
Proof. split; vm_compute; reflexivity. Qed.

End UnknownTopic.

(* ================================================================= *)
(** ** The topic classifier *)

Section Classifier.

Variable text : string.

Abbreviation hits := (topic_hits text).
Abbreviation scored := (scored_topic text).
Abbreviation positive := (positive_topic text).

Lemma dict_set_fresh {V : Type} (k : string) (v : V) (d : list (string * V)) :
  ~ In k (map fst d) -> dict_set k v d = (d ++ [(k, v)])%list.
Proof.
  induction d as [|[k' v'] d IH]; cbn; [reflexivity|]. intros H.
  destruct (eqb_spec k' k) as [E|_]; [tauto|].
  rewrite IH; [reflexivity | tauto].
Qed.

Lemma topic_scores_filter (patterns : list (string * list string))
  (acc : list (string * nat)) :
  NoDup (map fst patterns) ->
  (forall k, In k (map fst acc) -> ~ In k (map fst patterns)) ->
  fold_left
    (fun (topic_scores : list (string * nat)) (entry : string * list string) =>
       let score := keyword_hits (snd entry) text in
       if (0 <? score)%nat then dict_set (fst entry) score topic_scores
       else topic_scores)
    patterns acc
  = (acc ++ map scored (filter positive patterns))%list.
Proof.
  revert acc; induction patterns as [|e patterns IH]; intros acc Hnd Hdis.
  - cbn. now rewrite app_nil_r.
  - cbn [fold_left filter map]. cbn [map] in Hnd, Hdis.
    apply NoDup_cons_iff in Hnd. destruct Hnd as [Hfresh Hnd].
    unfold positive at 1, hits, topic_hits. cbv zeta.
    destruct (0 <? keyword_hits (snd e) text)%nat.
    + rewrite dict_set_fresh.
      * rewrite IH; trivial.
        -- cbn [map]. now rewrite <- app_assoc.
        -- intros k Hk. rewrite map_app in Hk. apply in_app_or in Hk.
           destruct Hk as [Hk|[<-|[]]]; [|exact Hfresh].
           intros Hin. apply (Hdis k Hk). now right.
      * intros Hin. apply (Hdis _ Hin). now left.
    + apply IH; trivial. intros k Hk Hin. apply (Hdis k Hk). now right.
Qed.

Lemma max_by_scan_from (patterns : list (string * list string))
  (e0 : string * list string) :
  exists e',
    fold_left (scan_step hits) patterns (Some e0, hits e0) = (Some e', hits e')
    /\ fold_left keep_larger (map scored (filter positive patterns)) (scored e0)
       = scored e'
    /\ hits e0 <= hits e'.
Proof.
  revert e0; induction patterns as [|e patterns IH]; intros e0.
  - exists e0. repeat split. apply Nat.le_refl.
  - cbn [fold_left filter]. unfold scan_step at 2. cbn [snd].
    unfold positive at 1.
    destruct (Nat.ltb_spec 0 (hits e)) as [Hpos|Hzero].
    + cbn [map fold_left]. unfold keep_larger at 2, scored at 2 3. cbn [snd].
      destruct (Nat.ltb_spec (hits e0) (hits e)) as [Hlt|Hge].
      * destruct (IH e) as (e' & H1 & H2 & H3). exists e'.
        repeat split; trivial. lia.
      * apply IH.
    + destruct (Nat.ltb_spec (hits e0) (hits e)) as [Hlt|_]; [lia|]. apply IH.
Qed.

Lemma max_by_scan (patterns : list (string * list string)) :
  option_map fst (max_by snd (map scored (filter positive patterns)))
  = option_map fst (scan_result (scan hits patterns)).
Proof.
  unfold scan. induction patterns as [|e patterns IH]; [reflexivity|].
  cbn [fold_left filter]. unfold scan_step at 2. cbn [snd].
  unfold positive at 1.
  destruct (Nat.ltb_spec 0 (hits e)) as [Hpos|Hzero].
  - cbn [map max_by]. fold keep_larger.
    destruct (max_by_scan_from patterns e) as (e' & -> & -> & Hle).
    cbn [option_map]. unfold scan_result. cbn [fst snd].
    destruct (Nat.ltb_spec 0 (hits e')) as [_|Hz]; [reflexivity | lia].
  - exact IH.
Qed.

(** The classifier over any pattern table whose topics are distinct. *)
Lemma identify_topic_first_best (self : AgricultureBot) :
  NoDup (map fst (topic_patterns self)) ->
  exists r,
    first_best hits (topic_patterns self) r /\
    _identify_topic self text = option_map fst r.
Proof.
  intros Hnd. exists (scan_result (scan hits (topic_patterns self))). split.
  - apply scan_first_best.
  - pose proof (topic_scores_filter (topic_patterns self) [] Hnd) as E.
    unfold _identify_topic. cbv zeta in E |- *.
    rewrite E by (intros k []).
    cbn [app]. rewrite <- max_by_scan.
    now destruct (max_by snd _).
Qed.

End Classifier.

Section ClassifierTable.

(** C4. The classifier counts, for each topic of the table in the order
    crops, pests, soil, weather, seeds, harvest, the keywords of the topic
    that occur in the text, and returns the first topic in that order whose
    count is largest, provided the count is positive; it returns nothing
    when every count is zero. *)
Theorem C4_identify_topic_first_argmax (w : world) (text : string) :
  let self := __init__ w in
  map fst (topic_patterns self) = topic_order /\
  (forall keywords,
      keyword_hits keywords text
      = List.length (filter (fun k => contains k text) keywords)) /\
  exists r,
    first_best (topic_hits text) (topic_patterns self) r /\
    _identify_topic self text = option_map fst r.
Proof.
  intros self. split; [reflexivity|]. split; [reflexivity|].
  apply identify_topic_first_best.
  change (map fst (topic_patterns self)) with topic_order.
  unfold topic_order.
  repeat (apply NoDup_cons; [cbn; intuition discriminate|]).
  apply NoDup_nil.
Qed.

(** Equal counts: the topic defined first wins, whatever the order of the
    words in the text. *)
Example tie_goes_to_earlier_topic :
  _identify_topic (__init__ Samples.bare_world) "pest on my crop" = Some "crops"
  /\ _identify_topic (__init__ Samples.bare_world) "seed yield" = Some "seeds"
  /\ _identify_topic (__init__ Samples.bare_world) "crop pest bug" = Some "pests"
  /\ _identify_topic (__init__ Samples.bare_world) "nice day" = None.
Proof. repeat split; vm_compute; reflexivity. Qed.

End ClassifierTable.


(* ================================================================= *)
(** ** Failures of the two services *)

Section Failures.

Lemma backend_calls_app (l1 l2 : io_log) :
  backend_calls (l1 ++ l2)%list = backend_calls l1 + backend_calls l2.
Proof.
  induction l1 as [|[url|prompt] l1 IH]; cbn; [reflexivity | exact IH |].
  now rewrite IH.
Qed.

(** [get_weather] never raises, and its only network call is the request
    to the feed. *)
Lemma get_weather_outcome (w : world) (log : io_log) :
  exists r log',
    get_weather w log = (Ok r, log') /\
    (log' = log \/ exists url, log' = (log ++ [HttpGet url])%list).
Proof.
  unfold get_weather.
  destruct (environ w "THINGSPEAK_WEATHER_CHANNEL") as [channel_id|];
    [|exists None, log; split; [reflexivity | now left]].
  destruct (nonempty channel_id); cbn [negb];
    [|exists None, log; split; [reflexivity | now left]].
  set (url := "https://api.thingspeak.com/channels/" ++ channel_id
              ++ "/feeds.json?results=1").
  unfold try_except, bind, perform, lift, ret.
  assert (Hlog : forall r : option weather_reading,
             exists r' log',
               (Ok r, (log ++ [HttpGet url])%list) = (Ok r', log') /\
               (log' = log \/ exists u, log' = (log ++ [HttpGet u])%list)).
  { intros r. exists r, (log ++ [HttpGet url])%list.
    split; [reflexivity | right; now exists url]. }
  destruct (requests_get w url log) as [response|e]; [|apply Hlog].
  destruct (response_json response) as [data|e]; [|apply Hlog].
  destruct (json_get data "feeds" JNull) as [feeds|e]; [|apply Hlog].
  destruct (truthy feeds); cbn [negb]; [|apply Hlog].
  destruct (json_len feeds) as [n|e]; [|apply Hlog].
  destruct (n =? 0)%nat; [apply Hlog|].
  destruct (json_first feeds) as [latest|e]; [|apply Hlog].
  destruct (json_get latest "field1" JNull) as [f1|e]; [|apply Hlog].
  destruct (json_get latest "field2" JNull) as [f2|e]; [|apply Hlog].
  destruct (json_get latest "field3" (JStr "N/A")) as [f3|e]; apply Hlog.
Qed.

Lemma get_weather_backend_calls (w : world) (log log' : io_log)
  (r : result (option weather_reading)) :
  get_weather w log = (r, log') -> backend_calls log' = backend_calls log.
Proof.
  intros H. destruct (get_weather_outcome w log) as (r' & l & E & Hl).
  rewrite E in H. injection H as _ <-.
  destruct Hl as [-> | [url ->]]; [reflexivity|].
  rewrite backend_calls_app. cbn. lia.
Qed.

(** X19. The ways the fetch fails, each giving no reading: no channel id, an
    empty channel id, a failed request, a body that is not JSON, a
    document that is not an object, and a missing or empty feed list. *)
Lemma get_weather_failures (w : world) (log : io_log) :
  let channel := environ w "THINGSPEAK_WEATHER_CHANNEL" in
  let url id := "https://api.thingspeak.com/channels/" ++ id
                ++ "/feeds.json?results=1" in
  (channel = None \/ channel = Some "" ->
   get_weather w log = (Ok None, log)) /\
  (forall id response,
      channel = Some id -> nonempty id = true ->
      (exists e, requests_get w (url id) log = Raise e)
      \/ (requests_get w (url id) log = Ok response /\
          ((exists e, response_json response = Raise e)
           \/ (exists items, response_json response = Ok (JArr items))
           \/ (exists fields, response_json response = Ok (JObj fields) /\
                              dict_get "feeds" fields = None)
           \/ (exists fields, response_json response = Ok (JObj fields) /\
                              dict_get "feeds" fields = Some (JArr [])))) ->
      get_weather w log = (Ok None, (log ++ [HttpGet (url id)])%list)).
Proof.
  cbv zeta. split.
  - unfold get_weather. intros [-> | ->]; reflexivity.
  - intros id response Hc Hid H. unfold get_weather. rewrite Hc, Hid.
    cbn [negb]. unfold try_except, bind, perform, lift, ret.
    destruct H as [[e ->] | [-> H]]; [reflexivity|].
    destruct H as [[e ->] | [[items ->] | [(fields & -> & Hf) | (fields & -> & Hf)]]];
      try reflexivity; cbn [json_get]; now rewrite Hf.
Qed.



Lemma dict_get_in {V : Type} (k : string) (d : list (string * V)) (v : V) :
  dict_get k d = Some v -> In (k, v) d.
Proof.
  induction d as [|[k' v'] d IH]; cbn [dict_get In]; [discriminate|].
  destruct (eqb_spec k' k) as [->|_].
  - intros E. injection E as ->. now left.
  - intros E. right. now apply IH.
Qed.




(** C5. When the text is routed to the weather branch and the fetch gives
    no reading, [get_response] returns the weather apology, and no message
    is sent to the generation service: the log holds as many as before. *)
Theorem C5_weather_failure_apology (w : world) (user_input : string)
  (log log' : io_log) :
  let self := __init__ w in
  let text := clean_text (Some (lower user_input)) in
  ~ mentions greeting_phrases text ->
  ~ mentions farewell_phrases text ->
  mentions weather_keywords text ->
  get_weather w log = (Ok None, log') ->
  get_response self w user_input log = (Ok weather_apology, log')
  /\ backend_calls log' = backend_calls log.
Proof.
  intros self text G F W Hfetch.
  apply any_in_false in G, F. apply any_in_spec in W.
  pose proof (get_response_dispatch w user_input log) as H.
  cbv zeta in H. fold self text in H. rewrite G, F, W in H.
  split.
  - rewrite H. unfold weather_branch, bind. now rewrite Hfetch.
  - now apply get_weather_backend_calls with w (Ok None).
Qed.

Lemma C5_weather_failure_apology_witness :
  get_response (__init__ Samples.failing_world) Samples.failing_world
    "What is the  temperature?" []
  = (Ok weather_apology,
     [HttpGet "https://api.thingspeak.com/channels/2598/feeds.json?results=1"])
  /\ backend_calls
       [HttpGet "https://api.thingspeak.com/channels/2598/feeds.json?results=1"]
     = backend_calls [].
Proof.
  apply (C5_weather_failure_apology Samples.failing_world
           "What is the  temperature?" []).
  - apply any_in_false. vm_compute. reflexivity.
  - apply any_in_false. vm_compute. reflexivity.
  - apply any_in_spec. vm_compute. reflexivity.
  - vm_compute. reflexivity.
Defined.

(** C6. Without a chat session, which is how a start-up without the
    credential (or with a failing configuration, model or session call)
    leaves the bot, [_get_ai_response] returns the offline message for
    every text and context and makes no network call: the log is returned
    as it was. *)
Theorem C6_offline_short_circuit (w : world) :
  let self := __init__ w in
  (environ w "GOOGLE_API_KEY" = None -> chat self = None) /\
  ((forall key, exists e, genai_configure w key = Raise e) ->
   chat self = None) /\
  ((forall name, exists e, genai_GenerativeModel w name = Raise e) ->
   chat self = None) /\
  ((forall name history, exists e, genai_start_chat w name history = Raise e) ->
   chat self = None) /\
  (chat self = None ->
   forall user_input context log,
     _get_ai_response self w user_input context log
     = (Ok offline_message, log)).
Proof.
  cbv zeta. unfold __init__, configure_backend. cbn [chat].
  split; [|split; [|split; [|split]]].
  - unfold environ_getitem. now intros ->.
  - intros H. destruct (environ_getitem w _) as [key|]; [|reflexivity].
    now destruct (H key) as [e ->].
  - intros H. destruct (environ_getitem w _); [|reflexivity].
    destruct (genai_configure w _); [|reflexivity].
    match goal with
    | |- context [genai_GenerativeModel w ?n] => now destruct (H n) as [e ->]
    end.
  - intros H. destruct (environ_getitem w _); [|reflexivity].
    destruct (genai_configure w _); [|reflexivity].
    destruct (genai_GenerativeModel w _); [|reflexivity].
    match goal with
    | |- context [genai_start_chat w ?n ?h] => now destruct (H n h) as [e ->]
    end.
  - intros H user_input context log. unfold _get_ai_response. cbn [chat].
    now rewrite H.
Qed.

Lemma C6_offline_short_circuit_witness :
  chat (__init__ Samples.bare_world) = None
  /\ _get_ai_response (__init__ Samples.bare_world) Samples.bare_world
       "how do I grow rice" (dict_get "rice" (fields_of _get_default_crops_data))
       [HttpGet "earlier"]
     = (Ok offline_message, [HttpGet "earlier"]).
Proof.
  pose proof (C6_offline_short_circuit Samples.bare_world) as H.
  cbv zeta in H. destruct H as (H1 & _ & _ & _ & H2).
  split.
  - apply H1. reflexivity.
  - apply H2. apply H1. reflexivity.
Defined.




End Failures.


(* ================================================================= *)
(** ** Unwrapping the reply *)

Section Unwrap.

Lemma replace_absent (old new s : string) :
  contains old s = false -> replace old new s = s.
Proof.
  unfold replace. induction s as [|c s IH]; [reflexivity|].
  cbn [contains replace_from]. intros H. apply orb_false_iff in H.
  destruct H as [-> H]. now rewrite (IH H).
Qed.

Lemma opening_fence_absent (body : string) :
  free_of backquote body = true ->
  contains ("```markdown" ++ nl) (body ++ nl ++ "```") = false.
Proof.
  induction body as [|c body IH]; [reflexivity|].
  cbn [free_of]. intros H. apply andb_true_iff in H. destruct H as [Hc H].
  change (String c body ++ nl ++ "```") with (String c (body ++ nl ++ "```")).
  cbn [contains]. rewrite (IH H), orb_false_r.
  change ("```markdown" ++ nl) with (String backquote ("``markdown" ++ nl)).
  cbn [startswith]. apply negb_true_iff in Hc.
  now rewrite N.eqb_sym, Hc.
Qed.

Lemma closing_fence_removed (body : string) :
  free_of backquote body = true ->
  replace (nl ++ "```") "" (body ++ nl ++ "```") = body.
Proof.
  unfold replace. induction body as [|c body IH]; [reflexivity|].
  cbn [free_of]. intros H. apply andb_true_iff in H. destruct H as [Hc H].
  change (String c body ++ nl ++ "```") with (String c (body ++ nl ++ "```")).
  cbn [replace_from].
  assert (E : startswith (nl ++ "```") (String c (body ++ nl ++ "```")) = false).
  { cbn [nl append startswith]. apply andb_false_iff. right.
    destruct body as [|d body]; [reflexivity|].
    cbn [free_of] in H. apply andb_true_iff in H. destruct H as [Hd _].
    cbn [append startswith]. apply negb_true_iff in Hd.
    unfold backquote in Hd. now rewrite N.eqb_sym, Hd. }
  now rewrite E, (IH H).
Qed.

(** A reply that does not begin with the tagged fence is returned as it
    is. *)
Lemma unwrap_verbatim (text : string) :
  startswith "```markdown" text = false -> unwrap_markdown text = text.
Proof. unfold unwrap_markdown. now intros ->. Qed.

(** A body without a backquote is recovered exactly from its wrapping. *)
Lemma unwrap_plain_body (body : string) :
  free_of backquote body = true -> unwrap_markdown (fenced body) = body.
Proof.
  intros H. unfold unwrap_markdown, fenced.
  replace (startswith "```markdown" ("```markdown" ++ nl ++ body ++ nl ++ "```"))
    with true by reflexivity.
  replace (replace ("```markdown" ++ nl) ""
             ("```markdown" ++ nl ++ body ++ nl ++ "```"))
    with (replace ("```markdown" ++ nl) "" (body ++ nl ++ "```"))
    by reflexivity.
  rewrite (replace_absent _ _ _ (opening_fence_absent body H)).
  now apply closing_fence_removed.
Qed.

Example unwrap_rice :
  unwrap_markdown ("```markdown" ++ nl ++ "**Rice** grows..." ++ nl ++ "```")
  = "**Rice** grows...".
Proof. reflexivity. Qed.

(** C7. A reply that begins with the tagged fence and whose body holds a
    fenced block of its own does not come back with its body intact: the
    two replacements remove every line break followed by three backquotes,
    those inside the body as well. A tag that is not followed by a line
    break is left in place. *)
Theorem C7_inner_fence_is_damaged :
  let body := "Run:" ++ nl ++ "```sh" ++ nl ++ "make" ++ nl ++ "```" ++ nl
              ++ "Done." in
  startswith "```markdown" (fenced body) = true /\
  unwrap_markdown (fenced body) = "Run:sh" ++ nl ++ "make" ++ nl ++ "Done." /\
  unwrap_markdown (fenced body) <> body /\
  unwrap_markdown ("```markdown **Rice** grows..." ++ nl ++ "```")
  = "```markdown **Rice** grows...".
Proof.
  cbv zeta. split; [reflexivity|]. split; [reflexivity|].
  split; [|reflexivity]. vm_compute. discriminate.
Qed.

End Unwrap.

(* ================================================================= *)
(** ** The normal form as words *)

Section NormalWords.

Lemma nonempty_append_l (a b : string) :
  nonempty a = true -> nonempty (a ++ b) = true.
Proof. now destruct a. Qed.

Lemma rstrip_cons (c : char) (s : string) :
  isspace c = false -> rstrip (String c s) = String c (rstrip s).
Proof. intros E. cbn [rstrip]. destruct (rstrip s); now rewrite ?E. Qed.

Lemma rstrip_solid_append (p t : string) :
  solid p = true -> rstrip (p ++ t) = p ++ rstrip t.
Proof.
  induction p as [|x p IH]; [reflexivity|]. cbn [solid append].
  intros H. apply andb_true_iff in H as [Hx H]. apply negb_true_iff in Hx.
  now rewrite (rstrip_cons _ _ Hx), (IH H).
Qed.

Lemma lstrip_solid_append (p t : string) :
  solid p = true -> nonempty p = true -> lstrip (p ++ t) = p ++ t.
Proof.
  destruct p as [|x p]; [discriminate|]. cbn [solid append lstrip].
  intros H _. apply andb_true_iff in H as [Hx _]. apply negb_true_iff in Hx.
  now rewrite Hx.
Qed.

Lemma blank_solid_append (p t : string) :
  solid p = true -> nonempty p = true -> blank (p ++ t) = false.
Proof.
  destruct p as [|x p]; [discriminate|]. cbn [solid append blank].
  intros H _. apply andb_true_iff in H as [Hx _]. apply negb_true_iff in Hx.
  now rewrite Hx.
Qed.

(** Lowercasing a text that starts with a whitespace character keeps the
    character and starts afresh behind it. *)
Lemma lower_from_cons_space (b : bool) (c : char) (s : string) :
  isspace c = true -> lower_from b (String c s) = String c (lower_from false s).
Proof.
  intros E. cbn [lower_from].
  rewrite (settled_not_sigma c (isspace_settled c E)).
  rewrite (settled_lower_char c (isspace_settled c E)).
  now rewrite (isspace_not_ignorable c E), (isspace_not_cased c E).
Qed.

(** Lowercasing a text that starts with another character puts in its
    place a piece without whitespace, which depends on what follows only
    through the cased character that may come next. *)
Lemma lower_from_cons_next (b : bool) (c : char) (s s' : string) :
  cased_next s = cased_next s' -> isspace c = false ->
  exists p,
    solid p = true /\ nonempty p = true /\
    lower_from b (String c s)
    = p ++ lower_from (if case_ignorable c then b else cased c) s /\
    lower_from b (String c s')
    = p ++ lower_from (if case_ignorable c then b else cased c) s'.
Proof.
  intros Hn E. cbn [lower_from]. rewrite <- Hn.
  destruct (c =? capital_sigma)%N.
  - eexists. split; [|split; [|split; reflexivity]]; [|reflexivity].
    destruct (b && negb (cased_next s)); reflexivity.
  - exists (lower_char c).
    destruct (lower_char_cases c) as [[E' _] | (_ & _ & Hs & Hne)];
      [congruence|].
    now repeat split.
Qed.

Lemma blank_lower_from (b : bool) (s : string) :
  blank (lower_from b s) = blank s.
Proof.
  revert b; induction s as [|c s IH]; intros b; [reflexivity|].
  destruct (isspace c) eqn:E.
  - rewrite (lower_from_cons_space b c s E). cbn [blank]. now rewrite IH.
  - destruct (lower_from_cons_next b c s s eq_refl E) as (p & Hs & Hne & -> & _).
    rewrite (blank_solid_append p _ Hs Hne). cbn [blank]. now rewrite E.
Qed.

Lemma blank_lower (s : string) : blank (lower s) = blank s.
Proof. apply blank_lower_from. Qed.

Lemma nonempty_lower_from (b : bool) (s : string) :
  nonempty (lower_from b s) = nonempty s.
Proof.
  destruct s as [|c s]; [reflexivity|]. destruct (isspace c) eqn:E.
  - now rewrite (lower_from_cons_space b c s E).
  - destruct (lower_from_cons_next b c s s eq_refl E) as (p & _ & Hne & -> & _).
    now rewrite (nonempty_append_l p _ Hne).
Qed.

Lemma nonempty_lower (s : string) : nonempty (lower s) = nonempty s.
Proof. apply nonempty_lower_from. Qed.

Lemma cased_next_blank (s : string) : blank s = true -> cased_next s = false.
Proof.
  destruct s as [|c s]; [reflexivity|]. cbn [blank cased_next].
  intros H. apply andb_true_iff in H as [Hc _].
  now rewrite (isspace_not_ignorable c Hc), (isspace_not_cased c Hc).
Qed.

Lemma lower_from_blank (b : bool) (s : string) :
  blank s = true -> lower_from b s = s.
Proof.
  revert b; induction s as [|c s IH]; intros b; [reflexivity|].
  cbn [blank]. intros H. apply andb_true_iff in H as [Hc H].
  now rewrite (lower_from_cons_space b c s Hc), (IH false H).
Qed.

Lemma rstrip_blank (s : string) : blank s = true -> rstrip s = "".
Proof.
  induction s as [|c s IH]; [reflexivity|]. cbn [blank rstrip].
  intros H. apply andb_true_iff in H. destruct H as [Hc H].
  now rewrite (IH H), Hc.
Qed.

Lemma rstrip_empty (s : string) : rstrip s = "" -> blank s = true.
Proof.
  induction s as [|c s IH]; [reflexivity|]. cbn [blank rstrip].
  destruct (rstrip s) as [|d r]; [|discriminate].
  destruct (isspace c); [intros _; now apply IH | discriminate].
Qed.

Lemma cased_next_rstrip (s : string) : cased_next (rstrip s) = cased_next s.
Proof.
  induction s as [|c s IH]; [reflexivity|]. cbn [rstrip].
  destruct (rstrip s) as [|d r] eqn:Er.
  - pose proof (cased_next_blank s (rstrip_empty s Er)) as Hs.
    destruct (isspace c) eqn:E; cbn [cased_next].
    + now rewrite (isspace_not_ignorable c E), (isspace_not_cased c E).
    + now rewrite Hs.
  - cbn [cased_next] in IH |- *. now rewrite IH.
Qed.

(** Lowercasing and trimming can be done in either order: a whitespace
    character is neither cased nor case-ignorable, so it changes the form
    of no sigma. *)
Lemma lower_lstrip (s : string) : lower (lstrip s) = lstrip (lower s).
Proof.
  unfold lower. induction s as [|c s IH]; [reflexivity|].
  cbn [lstrip]. destruct (isspace c) eqn:E.
  - rewrite (lower_from_cons_space false c s E). cbn [lstrip].
    now rewrite E.
  - destruct (lower_from_cons_next false c s s eq_refl E)
      as (p & Hs & Hne & -> & _).
    now rewrite (lstrip_solid_append p _ Hs Hne).
Qed.

Lemma lower_from_rstrip (b : bool) (s : string) :
  lower_from b (rstrip s) = rstrip (lower_from b s).
Proof.
  revert b; induction s as [|c s IH]; intros b; [reflexivity|].
  destruct (isspace c) eqn:E.
  - rewrite (lower_from_cons_space b c s E). cbn [rstrip].
    rewrite <- (IH false). destruct (rstrip s) as [|d r] eqn:Er.
    + now rewrite E.
    + pose proof (nonempty_lower_from false (String d r)) as Hne.
      rewrite (lower_from_cons_space b c (String d r) E).
      now destruct (lower_from false (String d r)).
  - rewrite (rstrip_cons c s E).
    destruct (lower_from_cons_next b c (rstrip s) s (cased_next_rstrip s) E)
      as (p & Hs & Hne & -> & ->).
    now rewrite IH, (rstrip_solid_append p _ Hs).
Qed.

Lemma lower_strip (s : string) : lower (strip s) = strip (lower s).
Proof.
  unfold strip, lower. rewrite lower_from_rstrip.
  f_equal. apply lower_lstrip.
Qed.

Lemma nonempty_strip (s : string) : nonempty (strip s) = negb (blank s).
Proof.
  unfold strip. induction s as [|c s IH]; [reflexivity|].
  cbn [lstrip blank]. destruct (isspace c) eqn:E; [exact IH|].
  now rewrite rstrip_cons.
Qed.

Lemma head_ok_sub_ws (s : string) : head_ok (sub_ws true s) = true.
Proof.
  induction s as [|c s IH]; [reflexivity|]. cbn [sub_ws].
  destruct (isspace c) eqn:E; [exact IH|]. cbn [head_ok]. now rewrite E.
Qed.

Lemma lstrip_sub_ws (s : string) : lstrip (sub_ws false s) = sub_ws true s.
Proof.
  destruct s as [|c s]; [reflexivity|]. cbn [sub_ws].
  destruct (isspace c) eqn:E.
  - cbn [lstrip]. replace (isspace space) with true by reflexivity.
    apply lstrip_fixed, head_ok_sub_ws.
  - cbn [lstrip]. now rewrite E.
Qed.

Lemma split_from_nonempty (s w x : string) :
  In x (split_from w s) -> nonempty x = true.
Proof.
  revert w; induction s as [|c s IH]; intros w; cbn [split_from].
  - destruct (nonempty w) eqn:E; [|intros []]. now intros [<-|[]].
  - destruct (isspace c); [|apply IH].
    destruct (nonempty w) eqn:E; [|apply IH].
    intros [<-|H]; [exact E | now apply IH with ""].
Qed.

Lemma nonempty_snoc (w : string) (c : char) :
  nonempty (w ++ String c "") = true.
Proof. now destruct w. Qed.

Lemma concat_nonempty (x : string) (l : list string) :
  nonempty x = true -> nonempty (join " " (x :: l)) = true.
Proof.
  intros H. cbn [join]. destruct l; [exact H|].
  now apply nonempty_append_l.
Qed.

(** Joining the words read from [s] gives back [s] with its whitespace runs
    collapsed and its ends trimmed; [w] is the word already being read. *)
Lemma join_split_from (s w : string) :
  join " " (split_from w s)
  = if nonempty w then w ++ rstrip (sub_ws false s)
    else rstrip (sub_ws true s).
Proof.
  revert w; induction s as [|c s IH]; intros w.
  - cbn. destruct (nonempty w); [now rewrite append_nil_r | reflexivity].
  - cbn [split_from sub_ws]. destruct (isspace c) eqn:E.
    + destruct (nonempty w) eqn:Ew; [|rewrite IH; reflexivity].
      pose proof (IH "") as H0. cbn [nonempty] in H0.
      cbn [rstrip]. rewrite <- H0.
      destruct (split_from "" s) as [|x l] eqn:El.
      * cbn. now rewrite append_nil_r.
      * assert (Hx : nonempty x = true).
        { apply split_from_nonempty with s "". rewrite El. now left. }
        pose proof (concat_nonempty x l Hx) as Hne.
        cbn [join] in Hne |- *.
        destruct (match l with [] => x | _ :: _ => x ++ " " ++ join " " l end)
          eqn:Ec; [discriminate|]. reflexivity.
    + rewrite IH, nonempty_snoc, (rstrip_cons _ _ E).
      destruct (nonempty w) eqn:Ew.
      * now rewrite append_assoc.
      * now destruct w.
Qed.

Lemma strip_collapse_words (s : string) :
  strip (re_sub_whitespace s) = join " " (split s).
Proof.
  unfold strip, re_sub_whitespace, split.
  now rewrite lstrip_sub_ws, join_split_from.
Qed.

Lemma split_from_blank (s w : string) :
  blank s = true -> split_from w s = if nonempty w then [w] else [].
Proof.
  revert w; induction s as [|c s IH]; intros w; [reflexivity|].
  cbn [blank split_from]. intros H. apply andb_true_iff in H.
  destruct H as [-> H]. rewrite (IH "" H). cbn [nonempty].
  now destruct (nonempty w).
Qed.

Lemma split_from_not_nil (s w : string) :
  nonempty w = true -> split_from w s <> [].
Proof.
  revert w; induction s as [|c s IH]; intros w Hw; cbn [split_from].
  - now rewrite Hw.
  - destruct (isspace c); [now rewrite Hw | apply IH, nonempty_snoc].
Qed.

Lemma split_nil_blank (s : string) : split s = [] <-> blank s = true.
Proof.
  unfold split. split.
  - induction s as [|c s IH]; [reflexivity|]. cbn [split_from blank nonempty].
    destruct (isspace c); [exact IH|]. intros H.
    now apply split_from_not_nil in H.
  - intros H. now rewrite (split_from_blank s "" H).
Qed.

Lemma split_from_lstrip (s : string) : split_from "" (lstrip s) = split_from "" s.
Proof.
  induction s as [|c s IH]; [reflexivity|]. cbn [lstrip].
  destruct (isspace c) eqn:E; [|reflexivity].
  cbn [split_from nonempty]. now rewrite E.
Qed.

Lemma split_from_cons (w : string) (c : char) (s : string) :
  split_from w (String c s)
  = if isspace c
    then (if nonempty w then w :: split_from "" s else split_from "" s)
    else split_from (w ++ String c "") s.
Proof. reflexivity. Qed.

Lemma split_from_rstrip (s w : string) :
  split_from w (rstrip s) = split_from w s.
Proof.
  revert w; induction s as [|c s IH]; intros w; [reflexivity|].
  cbn [rstrip]. destruct (rstrip s) as [|d r] eqn:Er.
  - pose proof (rstrip_empty s Er) as Hb.
    destruct (isspace c) eqn:E; cbn [split_from]; rewrite ?E.
    + rewrite (split_from_blank s "" Hb). cbn [nonempty].
      now destruct (nonempty w).
    + now rewrite (split_from_blank s _ Hb).
  - rewrite (split_from_cons w c (String d r)), (split_from_cons w c s).
    now rewrite !IH.
Qed.

Lemma split_strip (s : string) : split (strip s) = split s.
Proof.
  unfold split, strip. now rewrite split_from_rstrip, split_from_lstrip.
Qed.

Lemma clean_text_words (text : string) :
  clean_text (Some text) = join " " (split (lower text)).
Proof.
  unfold clean_text. destruct text as [|c t]; [reflexivity|].
  cbn [nonempty negb]. apply strip_collapse_words.
Qed.

Lemma clean_text_lower (text : string) :
  clean_text (Some (lower text)) = clean_text (Some text).
Proof. now rewrite !clean_text_words, lower_idem. Qed.

Lemma clean_text_strip (text : string) :
  clean_text (Some (strip text)) = clean_text (Some text).
Proof. now rewrite !clean_text_words, lower_strip, split_strip. Qed.

Lemma clean_text_again (text : string) :
  clean_text (Some (clean_text (Some text))) = clean_text (Some text).
Proof.
  destruct (clean_text_shape (Some text)) as (Hh & Hl & Ht & Hlow).
  cbv zeta in Hh, Hl, Ht, Hlow. set (y := clean_text (Some text)) in *.
  unfold clean_text at 1. destruct (nonempty y) eqn:Ey; cbn [negb].
  - unfold strip, re_sub_whitespace.
    rewrite Hlow, (sub_ws_tidy _ _ Ht), (lstrip_fixed _ Hh).
    now apply rstrip_fixed.
  - now destruct y.
Qed.

Lemma split_from_solid (s w x : string) :
  solid w = true -> In x (split_from w s) -> solid x = true.
Proof.
  revert w; induction s as [|c s IH]; intros w Hw; cbn [split_from].
  - destruct (nonempty w); [|intros []]. now intros [<-|[]].
  - destruct (isspace c) eqn:E; [|now apply IH, solid_snoc].
    destruct (nonempty w); [|now apply IH].
    intros [<-|H]; [exact Hw | now apply IH with ""].
Qed.

Lemma split_from_word (x rest w : string) :
  solid x = true -> split_from w (x ++ rest) = split_from (w ++ x) rest.
Proof.
  revert w; induction x as [|c x IH]; intros w Hx.
  - now rewrite append_nil_r.
  - cbn [solid] in Hx. apply andb_true_iff in Hx. destruct Hx as [Hc Hx].
    apply negb_true_iff in Hc.
    change (String c x ++ rest) with (String c (x ++ rest)).
    rewrite split_from_cons, Hc, (IH _ Hx), append_assoc. reflexivity.
Qed.

(** Splitting the words joined by single spaces gives the words back. *)
Lemma split_join (words : list string) :
  (forall x, In x words -> nonempty x = true /\ solid x = true) ->
  split (join " " words) = words.
Proof.
  unfold split. induction words as [|x l IH]; intros H; [reflexivity|].
  destruct (H x (or_introl eq_refl)) as [Hne Hs].
  assert (Hl : forall y, In y l -> nonempty y = true /\ solid y = true)
    by (intros y Hy; apply H; now right).
  cbn [join]. destruct l as [|y l].
  - rewrite <- (append_nil_r x) at 1. rewrite (split_from_word x "" "" Hs).
    cbn. now rewrite Hne.
  - rewrite (split_from_word x _ "" Hs). cbn [append].
    change (" " ++ join " " (y :: l))
      with (String space (join " " (y :: l))).
    rewrite split_from_cons. replace (isspace space) with true by reflexivity.
    now rewrite Hne, (IH Hl).
Qed.

Lemma split_clean_text (text : string) :
  split (clean_text (Some text)) = split (lower text).
Proof.
  rewrite clean_text_words. apply split_join. intros x Hx. split.
  - now apply split_from_nonempty with (lower text) "".
  - now apply split_from_solid with (lower text) "".
Qed.

Lemma nonempty_clean_text (text : string) :
  nonempty (clean_text (Some text)) = negb (blank text).
Proof.
  rewrite clean_text_words, <- (blank_lower text).
  destruct (split (lower text)) as [|x l] eqn:E.
  - apply split_nil_blank in E. now rewrite E.
  - assert (Hx : nonempty x = true).
    { apply split_from_nonempty with (lower text) "".
      fold (split (lower text)). rewrite E. now left. }
    rewrite (concat_nonempty x l Hx).
    destruct (blank (lower text)) eqn:Eb; [|reflexivity].
    apply split_nil_blank in Eb. congruence.
Qed.

(** X1. [clean_text] returns the words of the lowercased text joined by
    single spaces; splitting its result gives those words back; the result
    is empty exactly when the text holds nothing but whitespace. *)
Theorem X1_clean_text_words (text : string) :
  clean_text (Some text) = join " " (split (lower text))
  /\ split (clean_text (Some text)) = split (lower text)
  /\ nonempty (clean_text (Some text)) = negb (blank text).
Proof.
  split; [apply clean_text_words|].
  split; [apply split_clean_text | apply nonempty_clean_text].
Qed.

(** X2. The reply of [get_response] depends on the message only through
    its normal form: changing the case of the message, trimming it or
    normalizing it beforehand gives the same computation, for every bot. *)
Theorem X2_get_response_normal_form (self : AgricultureBot) (w : world)
  (user_input : string) :
  get_response self w (lower user_input) = get_response self w user_input
  /\ get_response self w (strip user_input) = get_response self w user_input
  /\ get_response self w (clean_text (Some user_input))
     = get_response self w user_input.
Proof.
  unfold get_response.
  rewrite lower_idem, !clean_text_lower, clean_text_strip, clean_text_again.
  repeat split.
Qed.

End NormalWords.


(* ================================================================= *)
(** ** The helpers of chatbot/utils.py *)

Section Helpers.

Lemma remove_punctuation_plain (s : string) :
  plain (remove_punctuation s) = true.
Proof.
  induction s as [|c s IH]; [reflexivity|]. cbn [remove_punctuation].
  destruct (is_punctuation c) eqn:E; [exact IH|].
  cbn [plain]. now rewrite E, IH.
Qed.

Lemma remove_punctuation_fixed (s : string) :
  plain s = true -> remove_punctuation s = s.
Proof.
  induction s as [|c s IH]; [reflexivity|]. cbn [plain remove_punctuation].
  intros H. apply andb_true_iff in H. destruct H as [Hc H].
  apply negb_true_iff in Hc. now rewrite Hc, (IH H).
Qed.

(** X3. [remove_punctuation] leaves no punctuation mark, changes nothing
    in a string that has none (so applying it twice is applying it once),
    works piece by piece on a concatenation and never lengthens the
    text. *)
Theorem X3_remove_punctuation (s t : string) :
  plain (remove_punctuation s) = true
  /\ remove_punctuation (remove_punctuation s) = remove_punctuation s
  /\ remove_punctuation (s ++ t) = remove_punctuation s ++ remove_punctuation t
  /\ len (remove_punctuation s) <= len s.
Proof.
  split; [apply remove_punctuation_plain|].
  split; [apply remove_punctuation_fixed, remove_punctuation_plain|].
  split.
  - induction s as [|c s IH]; [reflexivity|]. cbn [append remove_punctuation].
    destruct (is_punctuation c); [exact IH|]. cbn [append]. now rewrite IH.
  - induction s as [|c s IH]; [apply Nat.le_refl|]. cbn [remove_punctuation].
    destruct (is_punctuation c); cbn [len]; lia.
Qed.

(** Removing punctuation and lowercasing do not commute: the mark keeps
    the sigma before it from being the last letter of its word. *)
Example remove_punctuation_then_lower :
  lower (remove_punctuation "ΑΣ!Α") = "ασα"
  /\ remove_punctuation (lower "ΑΣ!Α") = "αςα".
Proof. split; vm_compute; reflexivity. Qed.

Lemma in_list_spec (word : string) (words : list string) :
  in_list word words = true <-> In word words.
Proof.
  unfold in_list. rewrite existsb_exists. split.
  - intros [x [Hx E]]. apply eqb_eq in E. now subst.
  - intros H. exists word. split; [exact H | apply eqb_refl].
Qed.

(** X4. [extract_keywords] returns, each once, exactly the agriculture
    keywords that are whole whitespace-delimited words of the lowercased
    text, and [is_agriculture_related] holds exactly when there is one. *)
Theorem X4_extract_keywords (text keyword : string) :
  NoDup (extract_keywords text)
  /\ (In keyword (extract_keywords text) <->
      In keyword agriculture_keywords /\ is_word keyword (lower text))
  /\ (is_agriculture_related text = true <->
      exists k, In k agriculture_keywords /\ is_word k (lower text)).
Proof.
  assert (Hin : forall k, In k (extract_keywords text) <->
                          In k agriculture_keywords /\ is_word k (lower text)).
  { intros k. unfold extract_keywords. cbv zeta.
    rewrite nodup_In, filter_In, split_clean_text, in_list_spec, split_spec.
    tauto. }
  split; [apply NoDup_nodup|]. split; [apply Hin|].
  unfold is_agriculture_related. cbv zeta. rewrite Nat.ltb_lt. split.
  - destruct (extract_keywords text) as [|k l] eqn:E; [cbn; lia|].
    intros _. exists k. apply Hin. now left.
  - intros [k Hk]. apply Hin in Hk.
    destruct (extract_keywords text); [destruct Hk | cbn; lia].
Qed.

Lemma X4_extract_keywords_witness :
  In "soil" (extract_keywords ("Is  COMPOST good for Soil" ++ nl ++ "health"))
  /\ is_agriculture_related "Is  COMPOST good for Soil" = true.
Proof.
  pose proof (X4_extract_keywords
                ("Is  COMPOST good for Soil" ++ nl ++ "health") "soil") as H.
  pose proof (X4_extract_keywords "Is  COMPOST good for Soil" "") as H'.
  destruct H as (_ & H & _). destruct H' as (_ & _ & H').
  split.
  - apply H. split; [apply in_list_spec; vm_compute; reflexivity|].
    apply split_spec, in_list_spec. vm_compute. reflexivity.
  - apply H'. exists "compost".
    split; [apply in_list_spec; vm_compute; reflexivity|].
    apply split_spec, in_list_spec. vm_compute. reflexivity.
Defined.

(** A no-break space separates words as any whitespace does. *)
Example extract_keywords_no_break_space :
  extract_keywords ("CROP" ++ String 160%N "soil") = ["crop"; "soil"].
Proof. vm_compute. reflexivity. Qed.

(** X5. [validate_input] accepts exactly a text that is not blank, is not
    longer than the limit and, lowercased, contains none of the three
    banned words; a blank text is always told to enter a message, whatever
    the limit, and a text that is too long is told the limit. *)
Theorem X5_validate_input (text : option string) (max_length : Z) :
  (fst (validate_input text max_length) = true <->
   exists t, text = Some t /\ blank t = false
             /\ (Z.of_nat (len t) <= max_length)%Z
             /\ ~ mentions ["spam"; "hack"; "virus"] (lower t))
  /\ (fst (validate_input text max_length) = true ->
      snd (validate_input text max_length) = "Valid input")
  /\ (forall t, text = Some t -> blank t = true ->
      validate_input text max_length = (false, "Please enter a message"))
  /\ (forall t, text = Some t -> blank t = false ->
      (max_length < Z.of_nat (len t))%Z ->
      validate_input text max_length
      = (false, "Message too long. Please keep it under "
                ++ format_int max_length ++ " characters")).
Proof.
  destruct text as [t|]; cbn [validate_input].
  2:{ repeat split; try discriminate. intros [t [H _]]. discriminate. }
  assert (Hblank : negb (nonempty t) || negb (nonempty (strip t)) = blank t).
  { rewrite nonempty_strip, negb_involutive.
    destruct t as [|c t]; [reflexivity|]. reflexivity. }
  rewrite Hblank.
  destruct (blank t) eqn:Eb.
  { split; [split; [discriminate|]|]. 
    - intros (t' & E & H & _). injection E as <-. congruence.
    - repeat split; try discriminate. intros t' E. injection E as <-. congruence. }
  destruct (Z.ltb_spec max_length (Z.of_nat (len t))) as [Hlong|Hfit].
  { split; [split; [discriminate|]|].
    - intros (t' & E & _ & H & _). injection E as <-. lia.
    - repeat split; try discriminate.
      + intros t' E. injection E as <-. congruence. }
  destruct (any_in ["spam"; "hack"; "virus"] (lower t)) eqn:Ew.
  { split; [split; [discriminate|]|].
    - intros (t' & E & _ & _ & H). injection E as <-.
      apply any_in_spec in Ew. contradiction.
    - repeat split; try discriminate.
      + intros t' E. injection E as <-. congruence.
      + intros t' E _ H. injection E as <-. lia. }
  split; [split|].
  - intros _. exists t. repeat split; trivial. now apply any_in_false.
  - reflexivity.
  - repeat split.
    + intros t' E. injection E as <-. congruence.
    + intros t' E _ H. injection E as <-. lia.
Qed.

Lemma X5_validate_input_witness :
  validate_input (Some "How do I grow rice?") 500 = (true, "Valid input")
  /\ validate_input (Some ("  " ++ nl)) 500 = (false, "Please enter a message")
  /\ validate_input (Some "How do I grow rice?") 10
     = (false, "Message too long. Please keep it under 10 characters").
Proof.
  pose proof (X5_validate_input (Some "How do I grow rice?") 500) as H1.
  pose proof (X5_validate_input (Some ("  " ++ nl)) 500) as H2.
  pose proof (X5_validate_input (Some "How do I grow rice?") 10) as H3.
  destruct H1 as (Ha & Hb & _). destruct H2 as (_ & _ & Hc & _).
  destruct H3 as (_ & _ & _ & Hd).
  split; [|split].
  - assert (E : fst (validate_input (Some "How do I grow rice?") 500) = true).
    { apply Ha. exists "How do I grow rice?". repeat split; try reflexivity.
      - vm_compute. discriminate.
      - apply any_in_false. vm_compute. reflexivity. }
    specialize (Hb E).
    destruct (validate_input (Some "How do I grow rice?") 500) as [b m].
    cbn in E, Hb. now subst.
  - apply (Hc ("  " ++ nl)); reflexivity.
  - apply (Hd "How do I grow rice?"); [reflexivity | reflexivity |].
    vm_compute. reflexivity.
Defined.

(** The limit counts characters, not bytes, and a text of no-break spaces
    is blank. *)
Example validate_input_counts_characters :
  validate_input (Some "été") 3 = (true, "Valid input")
  /\ validate_input (Some (String 160%N (String 8195%N ""))) 500
     = (false, "Please enter a message").
Proof. split; vm_compute; reflexivity. Qed.

Lemma find_emoji (text : string) (item : string * string) :
  find (fun item : string * string => contains (fst item) text) emoji_map
  = Some item -> In (snd item) (map snd emoji_map).
Proof. intros H. apply find_some in H. apply in_map. tauto. Qed.

Lemma dict_get_value {V : Type} (k : string) (d : list (string * V)) (v : V) :
  dict_get k d = Some v -> In v (map snd d).
Proof.
  induction d as [|[k' v'] d IH]; cbn; [discriminate|].
  destruct (k' =? k); [intros E; injection E as ->; now left|].
  intros H. right. now apply IH.
Qed.

(** X6. [format_response_with_emojis] always returns one emoji of its
    table, a space and the text unchanged. A topic of the table decides the
    emoji whatever the text says; without a topic, a text that names no
    topic of the table gets the sheaf of rice. *)
Theorem X6_format_response_with_emojis (text : string) (topic : option string) :
  (exists emoji, In emoji (map snd emoji_map)
                 /\ format_response_with_emojis text topic
                    = emoji ++ " " ++ text)
  /\ (forall t emoji,
        topic = Some t -> dict_get t emoji_map = Some emoji ->
        format_response_with_emojis text topic = emoji ++ " " ++ text)
  /\ (topic = None -> ~ mentions (map fst emoji_map) (lower text) ->
      format_response_with_emojis text topic = "🌾 " ++ text).
Proof.
  split; [|split].
  - unfold format_response_with_emojis. cbv zeta.
    assert (Hauto : exists emoji,
               In emoji (map snd emoji_map) /\
               match find (fun item : string * string =>
                             contains (fst item) (lower text)) emoji_map with
               | Some item => snd item ++ " " ++ text
               | None => "🌾 " ++ text
               end = emoji ++ " " ++ text).
    { destruct (find _ emoji_map) as [item|] eqn:E.
      - exists (snd item). split; [now apply find_emoji with (lower text) | reflexivity].
      - exists "🌾". split; [cbn; tauto | reflexivity]. }
    destruct topic as [t|]; [|exact Hauto].
    destruct (nonempty t); [|exact Hauto].
    destruct (dict_get t emoji_map) as [emoji|] eqn:E; [|exact Hauto].
    exists emoji. split; [now apply dict_get_value with t | reflexivity].
  - intros t emoji -> H. unfold format_response_with_emojis. cbv zeta.
    assert (Hne : nonempty t = true).
    { destruct t; [|reflexivity]. discriminate H. }
    now rewrite Hne, H.
  - intros -> H. unfold format_response_with_emojis. cbv zeta.
    destruct (find _ emoji_map) as [item|] eqn:E; [|reflexivity].
    exfalso. apply H. apply find_some in E. destruct E as [Hin Hc].
    exists (fst item). split; [now apply in_map | now apply contains_spec].
Qed.

Lemma X6_format_response_with_emojis_witness :
  format_response_with_emojis "Watch the soil moisture" (Some "pests")
  = "🐛 Watch the soil moisture"
  /\ format_response_with_emojis "Good luck!" None = "🌾 Good luck!".
Proof.
  split.
  - apply (proj1 (proj2 (X6_format_response_with_emojis
                           "Watch the soil moisture" (Some "pests")))
             "pests" "🐛"); reflexivity.
  - apply (proj2 (proj2 (X6_format_response_with_emojis "Good luck!" None)));
      [reflexivity|].
    apply any_in_false. vm_compute. reflexivity.
Defined.

End Helpers.

(* ================================================================= *)
(** ** More on the search *)

Section SearchMore.

Lemma search_topics_ok (query_lower : string) (store : knowledge)
  (state state' : option json * nat) :
  search_topics query_lower store state = Ok state' ->
  state' = fold_left (search_step query_lower) (all_entries store) state.
Proof.
  revert state; induction store as [|[name data] store IH]; intros state;
    cbn [search_topics].
  - intros E. now injection E as <-.
  - destruct data as [| | | | |fields]; cbn [json_items]; try discriminate.
    intros E. rewrite (IH _ E). unfold all_entries.
    cbn [map List.concat snd fields_of]. now rewrite fold_left_app.
Qed.

(** Whenever [search] returns, it returns the first best of the entries
    it went through. *)
Lemma search_first_best (store : knowledge) (query : string)
  (topic : option string) (found : option json) :
  search store query topic = Ok found ->
  exists r,
    first_best (entry_score (lower query)) (searched_items store topic) r /\
    found = option_map snd r.
Proof.
  unfold search, searched_items, searched_topic. cbv zeta.
  destruct (match topic with
            | Some t => if nonempty t then dict_get t store else None
            | None => None
            end) as [value|].
  - destruct value as [| | | | |fields]; cbn [json_items]; try discriminate.
    intros E. injection E as <-. cbn [fields_of].
    destruct (search_loop_first_best (lower query) fields) as [r [Hr E]].
    exists r. now split.
  - destruct (search_topics (lower query) store (None, 0)) as [state|e] eqn:E;
      [|discriminate].
    intros H. injection H as <-. rewrite (search_topics_ok _ _ _ _ E).
    destruct (search_loop_first_best (lower query) (all_entries store))
      as [r [Hr E']].
    exists r. now split.
Qed.


Lemma all_entries_in_store (store : knowledge) (item : string * json) :
  In item (all_entries store) ->
  exists name fields, In (name, JObj fields) store /\ In item fields.
Proof.
  unfold all_entries. intros H. apply in_concat in H.
  destruct H as [fields [Hd Hi]]. apply in_map_iff in Hd.
  destruct Hd as [[name data] [E Hd]]. cbn [snd] in E.
  destruct data; cbn [fields_of] in E; subst fields; try (now destruct Hi).
  eauto.
Qed.

Lemma searched_items_in_store (store : knowledge) (topic : option string)
  (item : string * json) :
  In item (searched_items store topic) ->
  exists name fields, In (name, JObj fields) store /\ In item fields /\
    forall t data, topic = Some t -> nonempty t = true ->
                   dict_get t store = Some data ->
                   name = t /\ data = JObj fields.
Proof.
  unfold searched_items, searched_topic.
  destruct topic as [t|].
  - destruct (nonempty t) eqn:Et.
    + destruct (dict_get t store) as [data|] eqn:Eg.
      * intros H. destruct data; cbn [fields_of] in H; try (now destruct H).
        exists t, fields. split; [now apply dict_get_in|].
        split; [exact H|]. intros t' data' E _ Hg. injection E as <-.
        rewrite Eg in Hg. injection Hg as <-. now split.
      * intros H. destruct (all_entries_in_store _ _ H) as (name & fields & H1 & H2).
        exists name, fields. split; [exact H1|]. split; [exact H2|].
        intros t' data' E _ Hg. injection E as <-. congruence.
    + intros H. destruct (all_entries_in_store _ _ H) as (name & fields & H1 & H2).
      exists name, fields. split; [exact H1|]. split; [exact H2|].
      intros t' data' E Hn _. injection E as <-. congruence.
  - intros H. destruct (all_entries_in_store _ _ H) as (name & fields & H1 & H2).
    exists name, fields. split; [exact H1|]. split; [exact H2|].
    intros t' data' E. discriminate.
Qed.



(** X8. What [search] returns is an entry of the store with a positive
    relevance for the query; when the topic given is a non-empty key of the
    store, the entry comes from that topic. *)
Theorem X8_search_result_in_store (store : knowledge) (query : string)
  (topic : option string) (value : json) :
  search store query topic = Ok (Some value) ->
  exists name fields key,
    In (name, JObj fields) store /\ In (key, value) fields /\
    0 < _calculate_relevance (lower query) key value /\
    forall t data, topic = Some t -> nonempty t = true ->
                   dict_get t store = Some data ->
                   name = t /\ data = JObj fields.
Proof.
  intros Hs. destruct (search_first_best store query topic _ Hs) as [r [Hr E]].
  destruct Hr as [_ | before [key v] after Hitems Hpos _ _]; [discriminate|].
  cbn in E. injection E as ->.
  destruct (searched_items_in_store store topic (key, v))
    as (name & fields & H1 & H2 & H3).
  { rewrite Hitems. apply in_elt. }
  exists name, fields, key. split; [exact H1|]. split; [exact H2|].
  split; [exact Hpos | exact H3].
Qed.

Lemma X8_search_result_in_store_witness :
  exists name fields key,
    In (name, JObj fields) _get_default_knowledge /\
    In (key, advice "Composting creates rich organic matter for soil improvement."
               "Mix green and brown materials, maintain moisture, turn regularly for aeration.")
       fields /\
    0 < _calculate_relevance (lower "Compost heap") key
          (advice "Composting creates rich organic matter for soil improvement."
             "Mix green and brown materials, maintain moisture, turn regularly for aeration.") /\
    forall t data, Some "soil" = Some t -> nonempty t = true ->
                   dict_get t _get_default_knowledge = Some data ->
                   name = t /\ data = JObj fields.
Proof.
  apply (X8_search_result_in_store _get_default_knowledge "Compost heap"
           (Some "soil")).
  vm_compute. reflexivity.
Defined.

(** X9. Unless reading the crops file raises, the store holds entries under
    crops only: a search under pests, soil, weather or general finds
    nothing whatever the query, and the search without topic is the search
    under crops, whatever value the crops file holds. *)
Theorem X9_only_crops_are_loaded (fs : filesystem) (query topic : string) :
  crops_file_exists fs = false \/ (exists loaded, crops_file_load fs = Ok loaded) ->
  (In topic ["pests"; "soil"; "weather"; "general"] ->
   search (_load_knowledge fs) query (Some topic) = Ok None)
  /\ search (_load_knowledge fs) query None
     = search (_load_knowledge fs) query (Some "crops").
Proof.
  intros H.
  assert (E : exists crops,
             _load_knowledge fs
             = [("crops", crops); ("pests", JObj []); ("soil", JObj []);
                ("weather", JObj []); ("general", JObj [])]).
  { unfold _load_knowledge. cbv zeta.
    destruct (crops_file_exists fs); [|now eexists].
    destruct H as [H | [loaded ->]]; [discriminate | now eexists]. }
  destruct E as [crops ->]. split.
  - cbn [In]. intros [<-|[<-|[<-|[<-|[]]]]]; reflexivity.
  - destruct crops; reflexivity.
Qed.

Lemma X9_only_crops_are_loaded_witness :
  search (_load_knowledge (files Samples.bare_world)) "aphids on my plants"
    (Some "pests") = Ok None
  /\ search (_load_knowledge (files Samples.bare_world)) "aphids on my plants"
       None
     = search (_load_knowledge (files Samples.bare_world))
         "aphids on my plants" (Some "crops").
Proof.
  pose proof (X9_only_crops_are_loaded (files Samples.bare_world)
                "aphids on my plants" "pests" (or_introl eq_refl)) as H.
  split; [apply (proj1 H); left; reflexivity | exact (proj2 H)].
Defined.

End SearchMore.


(* ================================================================= *)
(** ** More on the classifier *)

Section ClassifierMore.

Lemma keyword_hits_positive (keywords : list string) (text : string) :
  0 < keyword_hits keywords text <-> mentions keywords text.
Proof.
  unfold keyword_hits. rewrite <- any_in_spec. unfold any_in.
  rewrite existsb_exists. split.
  - destruct (filter _ keywords) as [|k l] eqn:E; [cbn; lia|]. intros _.
    assert (H : In k (filter (fun keyword => contains keyword text) keywords))
      by (rewrite E; now left).
    apply filter_In in H. now exists k.
  - intros [k Hk].
    assert (H : In k (filter (fun keyword => contains keyword text) keywords))
      by now apply filter_In.
    destruct (filter _ keywords); [destruct H | cbn; lia].
Qed.

Lemma dict_get_nodup {V : Type} (k : string) (v : V) (d : list (string * V)) :
  NoDup (map fst d) -> In (k, v) d -> dict_get k d = Some v.
Proof.
  induction d as [|[k' v'] d IH]; cbn; [intros _ []|].
  intros Hnd. apply NoDup_cons_iff in Hnd. destruct Hnd as [Hfresh Hnd].
  intros [E|Hin].
  - injection E as -> ->. now rewrite eqb_refl.
  - destruct (eqb_spec k' k) as [->|_]; [|now apply IH].
    exfalso. apply Hfresh. change k with (fst (k, v)). now apply in_map.
Qed.

Lemma init_topics_distinct (w : world) :
  NoDup (map fst (topic_patterns (__init__ w))).
Proof.
  change (map fst (topic_patterns (__init__ w))) with topic_order.
  unfold topic_order.
  repeat (apply NoDup_cons; [cbn; intuition discriminate|]).
  apply NoDup_nil.
Qed.

(** The topic returned is in the table and one of its keywords occurs in
    the text; nothing is returned exactly when no keyword of the table
    occurs. *)
Lemma identify_topic_mentions (w : world) (text : string) :
  (forall t,
      _identify_topic (__init__ w) text = Some t ->
      exists keywords,
        dict_get t (topic_patterns (__init__ w)) = Some keywords
        /\ mentions keywords text)
  /\ (_identify_topic (__init__ w) text = None <->
      forall t keywords,
        In (t, keywords) (topic_patterns (__init__ w)) ->
        ~ mentions keywords text).
Proof.
  destruct (identify_topic_first_best text (__init__ w) (init_topics_distinct w))
    as [r [Hr ->]].
  destruct Hr as [Hzero | before [t kws] after Hitems Hpos _ _].
  - split; [discriminate|]. split; [|reflexivity].
    intros _ t kws Hin Hm. apply keyword_hits_positive in Hm.
    specialize (Hzero (t, kws) Hin). unfold topic_hits in Hzero.
    cbn [snd] in Hzero. lia.
  - assert (Hin : In (t, kws) (topic_patterns (__init__ w)))
      by (rewrite Hitems; apply in_elt).
    assert (Hm : mentions kws text) by now apply keyword_hits_positive.
    split.
    + intros t' E. cbn in E. injection E as <-. exists kws.
      split; [|exact Hm]. now apply dict_get_nodup; [apply init_topics_distinct|].
    + split; [discriminate|]. intros H. exfalso. now apply (H t kws).
Qed.

(** X10. The classifier returns a topic only if one of that topic's
    keywords occurs in the text, and returns nothing exactly when no
    keyword of any topic occurs. *)
Theorem X10_identify_topic_mentions (w : world) (text : string) :
  let self := __init__ w in
  (forall t,
      _identify_topic self text = Some t ->
      exists keywords,
        dict_get t (topic_patterns self) = Some keywords
        /\ mentions keywords text)
  /\ (_identify_topic self text = None <->
      forall t keywords,
        In (t, keywords) (topic_patterns self) -> ~ mentions keywords text).
Proof. apply identify_topic_mentions. Qed.

Lemma X10_identify_topic_mentions_witness :
  exists keywords,
    dict_get "soil" (topic_patterns (__init__ Samples.bare_world))
    = Some keywords
    /\ mentions keywords "which compost for sandy ground".
Proof.
  apply (proj1 (X10_identify_topic_mentions Samples.bare_world
                  "which compost for sandy ground") "soil").
  vm_compute. reflexivity.
Defined.

(** X11. A text without a weather keyword, as every text is that
    [get_response] passes on to the classifier, is never classified
    weather: the topic is crops, pests, soil, seeds or harvest. *)
Theorem X11_no_weather_topic_without_keyword (w : world) (text t : string) :
  ~ mentions weather_keywords text ->
  _identify_topic (__init__ w) text = Some t ->
  In t ["crops"; "pests"; "soil"; "seeds"; "harvest"].
Proof.
  intros Hw Hid.
  destruct (proj1 (identify_topic_mentions w text) t Hid) as [kws [Hget Hm]].
  pose proof (dict_get_key _ _ _ Hget) as Hkey.
  change (map fst (topic_patterns (__init__ w))) with topic_order in Hkey.
  cbn in Hkey. destruct Hkey as [<-|[<-|[<-|[<-|[<-|[<-|[]]]]]]]; cbn; try tauto.
  cbn in Hget. injection Hget as <-. contradiction.
Qed.

Lemma X11_no_weather_topic_without_keyword_witness :
  In "seeds" ["crops"; "pests"; "soil"; "seeds"; "harvest"].
Proof.
  apply (X11_no_weather_topic_without_keyword Samples.bare_world
           "sowing seeds" "seeds").
  - apply any_in_false. vm_compute. reflexivity.
  - vm_compute. reflexivity.
Defined.

End ClassifierMore.

(* ================================================================= *)
(** ** Network calls and the weather reading *)

Section Effects.








(** X13. With a channel configured, a feed document whose [feeds] list
    starts with an object gives a reading taken from that first object
    alone: fields 1 and 2, null when missing, and field 3, "N/A" when
    missing; the feed is asked once, at the address of the channel. *)
Theorem X13_get_weather_reading (w : world) (log : io_log)
  (channel_id : string) (response : http_response)
  (document latest : list (string * json)) (older : list json) :
  environ w "THINGSPEAK_WEATHER_CHANNEL" = Some channel_id ->
  nonempty channel_id = true ->
  requests_get w (feed_url channel_id) log = Ok response ->
  response_json response = Ok (JObj document) ->
  dict_get "feeds" document = Some (JArr (JObj latest :: older)) ->
  get_weather w log
  = (Ok (Some {| temperature :=
                   match dict_get "field1" latest with
                   | Some v => v
                   | None => JNull
                   end;
                 humidity :=
                   match dict_get "field2" latest with
                   | Some v => v
                   | None => JNull
                   end;
                 pressure :=
                   match dict_get "field3" latest with
                   | Some v => v
                   | None => JStr "N/A"
                   end |}),
     (log ++ [HttpGet (feed_url channel_id)])%list).
Proof.
  intros Hc Hne Hget Hjson Hfeeds. unfold get_weather. rewrite Hc, Hne.
  cbn [negb]. fold (feed_url channel_id).
  unfold try_except, bind, perform, lift, ret. rewrite Hget, Hjson.
  cbn [json_get]. rewrite Hfeeds. cbn [truthy negb json_len List.length Nat.eqb json_first json_get].
  destruct (dict_get "field1" latest), (dict_get "field2" latest),
    (dict_get "field3" latest); reflexivity.
Qed.

Lemma X13_get_weather_reading_witness :
  get_weather Samples.live_world []
  = (Ok (Some {| temperature := JStr "27.5";
                 humidity := JStr "61";
                 pressure := JStr "N/A" |}),
     [HttpGet "https://api.thingspeak.com/channels/2598/feeds.json?results=1"]).
Proof.
  apply (X13_get_weather_reading Samples.live_world [] "2598"
           {| response_json :=
                Ok (JObj [("feeds",
                           JArr [JObj [("field1", JStr "27.5");
                                       ("field2", JStr "61")]])]) |}
           [("feeds", JArr [JObj [("field1", JStr "27.5");
                                  ("field2", JStr "61")]])]
           [("field1", JStr "27.5"); ("field2", JStr "61")] []);
    reflexivity.
Defined.

Lemma replace_from_shrinks (old s : string) (skip : nat) :
  len (replace_from skip old "" s) <= len s.
Proof.
  revert skip; induction s as [|c s IH]; intros skip; [apply Nat.le_refl|].
  cbn [replace_from len]. destruct skip as [|k].
  - destruct (startswith old (String c s)); cbn [append len].
    + specialize (IH (len old - 1)). lia.
    + specialize (IH 0). lia.
  - specialize (IH k). lia.
Qed.

(** X14. Unwrapping a reply only removes characters: the result is never
    longer than the reply. A reply that does not begin with the tagged
    fence comes back unchanged, and a body without a backquote wrapped in
    the fence comes back exactly. *)
Theorem X14_unwrap_markdown (text body : string) :
  len (unwrap_markdown text) <= len text
  /\ (startswith "```markdown" text = false -> unwrap_markdown text = text)
  /\ (free_of backquote body = true -> unwrap_markdown (fenced body) = body).
Proof.
  split; [|split; [apply unwrap_verbatim | apply unwrap_plain_body]].
  unfold unwrap_markdown. destruct (startswith _ text); [|apply Nat.le_refl].
  unfold replace.
  eapply Nat.le_trans; [apply replace_from_shrinks|apply replace_from_shrinks].
Qed.

Lemma X14_unwrap_markdown_witness :
  unwrap_markdown "Plant after the last frost." = "Plant after the last frost."
  /\ unwrap_markdown (fenced ("## Rice" ++ nl ++ "- needs **water**"))
     = "## Rice" ++ nl ++ "- needs **water**".
Proof.
  split.
  - apply (proj1 (proj2 (X14_unwrap_markdown "Plant after the last frost." ""))).
    reflexivity.
  - apply (proj2 (proj2 (X14_unwrap_markdown ""
                           ("## Rice" ++ nl ++ "- needs **water**")))).
    reflexivity.
Defined.

End Effects.


(* ================================================================= *)
(** ** The handlers of app.py *)

Section Handlers.

Variable describe : exn -> string.
Variable timestamp : string.

Lemma nonempty_strip_blank (s : string) :
  blank s = true -> nonempty (strip s) = false.
Proof. intros H. now rewrite nonempty_strip, H. Qed.

(** X16. A request whose body is an object without message, or with a
    message made of whitespace only, is answered 400 "Empty message" by
    both handlers without any network call, whatever the bot. *)
Theorem X16_blank_message_rejected (agri_bot : AgricultureBot) (w : world)
  (fields : list (string * json)) (log : io_log) :
  dict_get "message" fields = None
  \/ (exists s, dict_get "message" fields = Some (JStr s) /\ blank s = true) ->
  App.chat describe agri_bot w (Ok (JObj fields)) log
  = (Ok (JObj [("error", JStr "Empty message")], 400), log)
  /\ App.api_chat describe timestamp agri_bot w (Ok (JObj fields)) log
     = (Ok (JObj [("error", JStr "Empty message")], 400), log).
Proof.
  intros H. unfold App.chat, App.api_chat, App.user_message_of.
  unfold try_except, bind, lift, ret. cbn [json_get].
  destruct H as [-> | (s & -> & Hs)].
  - split; reflexivity.
  - rewrite (nonempty_strip_blank s Hs). split; reflexivity.
Qed.



End Handlers.

Lemma X16_blank_message_rejected_witness :
  App.chat (fun _ => "error") (__init__ Samples.live_world) Samples.live_world
    (Ok (JObj [("message", JStr (String 160%N " " ++ nl))])) []
  = (Ok (JObj [("error", JStr "Empty message")], 400), []).
Proof.
  apply (X16_blank_message_rejected (fun _ => "error") "2026-01-01T00:00:00"
           (__init__ Samples.live_world)
           Samples.live_world
           [("message", JStr (String 160%N " " ++ nl))] []).
  right. exists (String 160%N " " ++ nl). split; reflexivity.
Defined.


(* ================================================================= *)
(** ** A fetch that fails, on a concrete feed *)

Lemma get_weather_failures_witness :
  get_weather Samples.bare_world [SendMessage "earlier"]
  = (Ok None, [SendMessage "earlier"])
  /\ get_weather Samples.failing_world []
     = (Ok None,
        [HttpGet "https://api.thingspeak.com/channels/2598/feeds.json?results=1"]).
Proof.
  split.
  - apply (proj1 (get_weather_failures Samples.bare_world
                    [SendMessage "earlier"])).
    left. reflexivity.
  - apply (proj2 (get_weather_failures Samples.failing_world []) "2598"
             {| response_json := Raise JSONDecodeError |});
      [reflexivity | reflexivity |].
    left. exists RequestException. reflexivity.
Defined.

